(** * CollegesSpider: the crawl orchestration of [scraping.py]

    A shallow embedding of the spider's callbacks ([parse],
    [parse_college_page], [parse_tab_content], [retry_page],
    [handle_error]), of the per-block extraction and of the page
    validator, together with the properties of the join counter
    [tabs_pending], of the retry bookkeeping and of the progress ledger.

    Python dictionaries are finite maps with string keys, the
    [college_data] dictionaries live in a store of objects because the
    callbacks share them by reference, and a callback is a computation
    in a small generator monad: it threads the spider's attributes,
    collects what it yields, and ends by returning or by raising. *)

From stdpp Require Import gmap strings list fin_maps pretty.
From Stdlib Require Import Ascii ZArith Lia.

#[local] Set Warnings "-register-all".
#[local] Open Scope Z_scope.

(** ** Python strings

    The text of a page is taken to be ASCII: a character is one [ascii].
    On other text Python does more than these definitions: [str.strip]
    also removes white space such as U+00A0 and [str.lower] also lowers
    capitals such as U+00C9. *)

Module PyStr.

(** [str.isspace] on the ASCII range. *)
Definition isspace (c : ascii) : bool :=
  match c with
  | "009" | "010" | "011" | "012" | "013"
  | "028" | "029" | "030" | "031" | " " => true
  | _ => false
  end%char.

Fixpoint lstrip (s : string) : string :=
  match s with
  | String c s' => if isspace c then lstrip s' else s
  | EmptyString => EmptyString
  end.

(** [s.strip()] *)
Definition strip (s : string) : string :=
  String.rev (lstrip (String.rev (lstrip s))).

(** [s.lower()] on the ASCII range. *)
Definition lower_char (c : ascii) : ascii :=
  let n := N_of_ascii c in
  if ((65 <=? n) && (n <=? 90))%N then ascii_of_N (n + 32) else c.

Fixpoint lower (s : string) : string :=
  match s with
  | String c s' => String (lower_char c) (lower s')
  | EmptyString => EmptyString
  end.

(** [s.replace(c, "")] for a one-character [c]. *)
Fixpoint remove_char (c : ascii) (s : string) : string :=
  match s with
  | String a s' =>
      if Ascii.eqb a c then remove_char c s' else String a (remove_char c s')
  | EmptyString => EmptyString
  end.

(** [sub in s] *)
Fixpoint contains (sub s : string) : bool :=
  String.prefix sub s ||
  match s with
  | String _ s' => contains sub s'
  | EmptyString => false
  end.

(** [s.split(sep)] for a non-empty [sep]: [skip] counts the characters
    of a separator that has been recognised and is being passed over,
    [cur] is the current piece, reversed. *)
Fixpoint split_go (sep : string) (skip : nat) (cur : string) (s : string)
  : list string :=
  match s with
  | EmptyString => [String.rev cur]
  | String c s' =>
      match skip with
      | S k => split_go sep k cur s'
      | O =>
          if String.prefix sep s
          then String.rev cur :: split_go sep (String.length sep - 1) "" s'
          else split_go sep 0 (String c cur) s'
      end
  end.

Definition split (sep s : string) : list string := split_go sep 0 "" s.

(** Truth value of [x] for [x] a string or [None]. *)
Definition truthy (x : option string) : bool :=
  match x with
  | Some (String _ _) => true
  | _ => false
  end.

(** [x.strip() if x else None] *)
Definition strip_or_none (x : option string) : option string :=
  if truthy x then strip <$> x else None.

End PyStr.

(** ** Python values and exceptions *)

Inductive value :=
  | VNone
  | VInt (z : Z)
  | VStr (s : string)
  | VList (l : list value)
  | VDict (m : gmap string value).

Inductive exn :=
  | KeyError (key : string)
  | AttributeError (msg : string)
  | ValueError (msg : string)
  | TypeError (msg : string).

(** [str(e)] *)
Definition exn_str (e : exn) : string :=
  match e with
  | KeyError k => "'" +:+ k +:+ "'"
  | AttributeError m | ValueError m | TypeError m => m
  end.

Inductive result (A : Type) :=
  | Ok (a : A)
  | Raise (e : exn).
Arguments Ok {A} a.
Arguments Raise {A} e.

Definition of_opt_str (x : option string) : value :=
  match x with
  | Some s => VStr s
  | None => VNone
  end.

(** ** A listing block, as the selectors of [extract_college_data] see it *)

(** One [li] of [div.collegeinfo ul.info]. *)
Record info_li := {
  li_img_src : option string;      (* li.css("img::attr(src)").get() *)
  li_texts : list string;          (* li.css("::text").getall() *)
}.

Record exam_sel := {
  main_exam_text : option string;  (* following-sibling::p/text() ... .get() *)
  tooltip_text : option string;    (* ...span[@class="hover"]/text() .get() *)
}.

Record card := {
  has_col_md_12 : bool;            (* the block also has class col-md-12 *)
  title_text : option string;      (* div.titleSection h3 a::text *)
  title_href : option string;      (* div.titleSection h3 a::attr(href) *)
  location_text : option string;   (* ul.info li:nth-child(2)::text *)
  info_lis : list info_li;         (* div.collegeinfo ul.info li *)
  ranking_text : option string;    (* ul.info li b span::text *)
  rank_publisher_re : option string; (* ul.info li b::text, re_first *)
  fees_text : option string;
  accreditation_text : option string;
  avg_package_text : option string;
  exam_li : option exam_sel;       (* None: the selector list is empty *)
  description_text : option string;
}.

(** ** [extract_college_data] *)

(** [city, state = location_info.split(", ")] *)
Definition unpack_city_state (parts : list string)
  : result (option string * option string) :=
  match parts with
  | [c; s] => Ok (Some c, Some s)
  | _ :: _ :: _ :: _ => Raise (ValueError "too many values to unpack (expected 2)")
  | _ => Raise (ValueError "not enough values to unpack (expected 2, got 1)")
  end.

Definition extract_location (location_info : option string)
  : result (option string * option string) :=
  if PyStr.truthy location_info then
    match location_info with
    | Some info =>
        if PyStr.contains ", " info
        then unpack_city_state (PyStr.split ", " info)
        else Ok (Some info, None)
    | None => Ok (None, None)
    end
  else Ok (None, None).

(** The loop over [ownership_li], left at the first flag image. *)
Fixpoint extract_ownership (lis : list info_li) : option string :=
  match lis with
  | [] => None
  | li :: rest =>
      match li_img_src li with
      | Some src =>
          if PyStr.truthy (Some src) && PyStr.contains "flag.29bda52542d4.svg" src
          then PyStr.strip <$> last (li_texts li)
          else extract_ownership rest
      | None => extract_ownership rest
      end
  end.

Definition extract_exams (sel : option exam_sel) : list string :=
  match sel with
  | None => []
  | Some e =>
      let main_exam := PyStr.strip_or_none (main_exam_text e) in
      let exams := if PyStr.truthy main_exam then option_list main_exam else [] in
      if PyStr.truthy (tooltip_text e) then
        exams ++ filter (λ x, PyStr.truthy (Some x))
                   (PyStr.strip <$> PyStr.split "," (default "" (tooltip_text e)))
      else exams
  end.

(** The body of the [try] block.  [list(set(exams))] leaves the order of
    the distinct names unspecified; [remove_dups] fixes one. *)
Definition extract_body (college : card) : result (gmap string value) :=
  let title := if PyStr.truthy (title_text college)
               then PyStr.strip (default "" (title_text college))
               else "Unknown Title" in
  match extract_location (location_text college) with
  | Raise e => Raise e
  | Ok (city, state) =>
      let ownership := extract_ownership (info_lis college) in
      let ranking :=
        if PyStr.truthy (ranking_text college)
        then (λ r, PyStr.strip (PyStr.remove_char "#" r)) <$> ranking_text college
        else None in
      let exams := remove_dups (extract_exams (exam_li college)) in
      Ok (<["title" := VStr title]>
         (<["city" := of_opt_str city]>
         (<["state" := of_opt_str state]>
         (<["ownership" := of_opt_str ownership]>
         (<["ranking" := of_opt_str ranking]>
         (<["rank_publisher" := of_opt_str (rank_publisher_re college)]>
         (<["fees" := of_opt_str (PyStr.strip_or_none (fees_text college))]>
         (<["accreditation" :=
              of_opt_str (PyStr.strip_or_none (accreditation_text college))]>
         (<["avg_package" :=
              of_opt_str (PyStr.strip_or_none (avg_package_text college))]>
         (<["exams" := VList (VStr <$> exams)]>
         (<["description" :=
              of_opt_str (PyStr.strip_or_none (description_text college))]>
          ∅)))))))))))
  end.

Definition extraction_error (e : exn) : gmap string value :=
  <["title" := VStr "Error in extraction"]>
  (<["error" := VStr (exn_str e)]> ∅).

(** [try: ... except Exception as e: return {...}] *)
Definition extract_college_data (college : card) : gmap string value :=
  match extract_body college with
  | Ok d => d
  | Raise e => extraction_error e
  end.

(** ** Requests, responses and the spider's attributes *)

(** A [college_data] dictionary is an object that several requests refer
    to: [loc] is its identity in the store. *)
Definition loc := nat.

Abbreviation dict := (gmap string value).

(** [request.meta], with the keys the spider uses. *)
Record meta := {
  m_page : option Z;
  m_retry_count : option Z;
  m_download_delay : option Z;
  m_dont_retry : option bool;
  m_handle_httpstatus_list : option (list Z);
  m_college_data : option loc;
  m_page_number : option Z;
  m_block_number : option Z;
  m_college_link : option string;
  m_download_timeout : option Z;
  m_tab_title : option string;
}.

Definition empty_meta : meta :=
  {| m_page := None; m_retry_count := None; m_download_delay := None;
     m_dont_retry := None; m_handle_httpstatus_list := None;
     m_college_data := None; m_page_number := None; m_block_number := None;
     m_college_link := None; m_download_timeout := None;
     m_tab_title := None |}.

Inductive callback := Parse | ParseCollegePage | ParseTabContent.

Inductive errback := HandleError.

(** Where a request goes: an absolute URL, or a link followed from the
    page at [base] ([response.follow]). *)
Inductive target :=
  | Url (u : string)
  | Follow (base href : string).

Record request := {
  req_target : target;
  req_callback : callback;
  req_errback : option errback;
  req_meta : meta;
  req_dont_filter : bool;
  req_priority : Z;
}.

(** One block of a tab page ([.block.box]). *)
Record tab_block := {
  h2_text : option string;         (* block.css("h2::text").get() *)
  detail_html : option string;     (* .collegeDetail_classRead__yd_kT .get() *)
}.

(** One link of the sub-navigation. *)
Record nav_tab := {
  tab_text : option string;        (* tab.css("::text").get() *)
  tab_href : option string;        (* tab.css("::attr(href)").get() *)
}.

(** A response, as the selectors of the three callbacks see it.  The
    results of [extract_overview_tab], [extract_highlights],
    [extract_courses] and [extract_faqs], which only read the document,
    are carried as values. *)
Record response := {
  resp_url : string;
  resp_meta : meta;
  body_len : Z;                    (* len(response.body) *)
  college_card_box : list card;    (* div.collegeCardBox *)
  container : list unit;           (* div.container *)
  overview_tab : value;
  facilities : value;
  highlights : value;
  courses : value;
  faqs : value;
  nav_tabs : list nav_tab;         (* .container.mobileContainerNone ul li a *)
  block_box : list tab_block;      (* .block.box *)
}.

Record failure := {
  fail_request : request;
  fail_value : string;
}.

(** [self.failed_pages]: the object it is bound to is a set or a list;
    the page of a request without a ["page"] key is [None]. *)
Inductive pages :=
  | PySet (s : gset (option Z))
  | PyList (l : list (option Z)).

Record progress := {
  completed_pages : gset Z;
  completed_colleges : gset string;
  failed_colleges : gset string;
}.

Record spider := {
  page_attempts : gmap Z Z;        (* defaultdict(int) *)
  failed_pages : pages;
  spider_progress : progress;
  colleges_found : Z;              (* stats["colleges_found"] *)
  store : gmap loc dict;           (* the college_data objects *)
}.

(** [load_progress]: [file] is the decoded content of [progress_file]
    when that file exists. *)
Definition load_progress (file : option progress) : progress :=
  match file with
  | Some p => p
  | None =>
      {| completed_pages := ∅; completed_colleges := ∅; failed_colleges := ∅ |}
  end.

(** [__init__] *)
Definition init (file : option progress) : spider :=
  {| page_attempts := ∅;
     failed_pages := PySet ∅;
     spider_progress := load_progress file;
     colleges_found := 0;
     store := ∅ |}.

(** ** Generators

    A callback is a generator: run on the attributes of the spider it
    gives the new attributes, what it yielded, and how it ended.  What
    a generator returns is not yielded. *)

Inductive output :=
  | YieldRequest (r : request)
  | YieldItem (l : loc) (d : dict).

Definition gen (A : Type) : Type := spider → spider * list output * result A.

#[global] Instance gen_ret : MRet gen := λ A a s, (s, [], Ok a).

#[global] Instance gen_bind : MBind gen := λ A B f m s,
  match m s with
  | (s1, out1, Ok a) =>
      match f a s1 with
      | (s2, out2, r) => (s2, out1 ++ out2, r)
      end
  | (s1, out1, Raise e) => (s1, out1, Raise e)
  end.

Definition raise {A} (e : exn) : gen A := λ s, (s, [], Raise e).

Definition yield (o : output) : gen unit := λ s, (s, [o], Ok ()).

Definition get_spider : gen spider := λ s, (s, [], Ok s).

Definition put_spider (s' : spider) : gen unit := λ _, (s', [], Ok ()).

Definition lift_result {A} (r : result A) : gen A := λ s, (s, [], r).

(** [for x in l: body(x)] *)
Fixpoint for_each {A} (l : list A) (body : A → gen unit) : gen unit :=
  match l with
  | [] => mret ()
  | x :: rest => body x ;; for_each rest body
  end.

(** [d[key]] on the fields of [meta] *)
Definition require {A} (key : string) (x : option A) : gen A :=
  match x with
  | Some a => mret a
  | None => raise (KeyError key)
  end.

(** *** The store of [college_data] objects *)

Definition set_store (st : gmap loc dict) (s : spider) : spider :=
  {| page_attempts := page_attempts s; failed_pages := failed_pages s;
     spider_progress := spider_progress s; colleges_found := colleges_found s;
     store := st |}.

(** A new dictionary object. *)
Definition alloc (d : dict) : gen loc := λ s,
  let l := fresh (dom (store s)) in
  (set_store (<[l := d]> (store s)) s, [], Ok l).

Definition read_obj (l : loc) : gen dict := λ s,
  match store s !! l with
  | Some d => (s, [], Ok d)
  | None => (s, [], Raise (TypeError "not a dictionary"))
  end.

Definition write_obj (l : loc) (d : dict) : gen unit := λ s,
  (set_store (<[l := d]> (store s)) s, [], Ok ()).

(** [obj[key]] *)
Definition dict_get (l : loc) (key : string) : gen value :=
  d ← read_obj l;
  match d !! key with
  | Some v => mret v
  | None => raise (KeyError key)
  end.

(** [obj[key] = v] *)
Definition dict_set (l : loc) (key : string) (v : value) : gen unit :=
  d ← read_obj l;
  write_obj l (<[key := v]> d).

(** [obj.pop(key)] *)
Definition dict_pop (l : loc) (key : string) : gen value :=
  v ← dict_get l key;
  d ← read_obj l;
  write_obj l (delete key d) ;;
  mret v.

(** [yield obj] *)
Definition yield_item (l : loc) : gen unit :=
  d ← read_obj l;
  yield (YieldItem l d).

(** ** The page validator and the retry bookkeeping *)

(** [is_valid_page] *)
Definition is_valid_page (response : response) : bool :=
  let has_college_blocks := bool_decide (college_card_box response ≠ []) in
  let has_expected_structure := bool_decide (container response ≠ []) in
  let content_length := bool_decide (1000 < body_len response) in
  has_college_blocks && has_expected_structure && content_length.

Definition set_page_attempts (pa : gmap Z Z) (s : spider) : spider :=
  {| page_attempts := pa; failed_pages := failed_pages s;
     spider_progress := spider_progress s; colleges_found := colleges_found s;
     store := store s |}.

Definition set_failed_pages (fp : pages) (s : spider) : spider :=
  {| page_attempts := page_attempts s; failed_pages := fp;
     spider_progress := spider_progress s; colleges_found := colleges_found s;
     store := store s |}.

Definition set_colleges_found (n : Z) (s : spider) : spider :=
  {| page_attempts := page_attempts s; failed_pages := failed_pages s;
     spider_progress := spider_progress s; colleges_found := n;
     store := store s |}.

(** [self.page_attempts[page]]: reading a [defaultdict(int)] binds a
    missing key to 0. *)
Definition read_page_attempts (page : Z) : gen Z := λ s,
  let n := default 0 (page_attempts s !! page) in
  (set_page_attempts (<[page := n]> (page_attempts s)) s, [], Ok n).

(** [self.page_attempts[page] += 1] *)
Definition incr_page_attempts (page : Z) : gen unit :=
  n ← read_page_attempts page;
  s ← get_spider;
  put_spider (set_page_attempts (<[page := n + 1]> (page_attempts s)) s).

(** [self.failed_pages.add(page)]: a method of sets only. *)
Definition failed_pages_add (page : option Z) : gen unit :=
  s ← get_spider;
  match failed_pages s with
  | PySet fp => put_spider (set_failed_pages (PySet ({[page]} ∪ fp)) s)
  | PyList _ => raise (AttributeError "'list' object has no attribute 'add'")
  end.

(** [self.failed_pages.append(page)]: a method of lists only. *)
Definition failed_pages_append (page : option Z) : gen unit :=
  s ← get_spider;
  match failed_pages s with
  | PyList fp => put_spider (set_failed_pages (PyList (fp ++ [page])) s)
  | PySet _ => raise (AttributeError "'set' object has no attribute 'append'")
  end.

(** The request [retry_page] builds: it carries no errback. *)
Definition retry_request (response : response) (page_number retry_count : Z)
  : request :=
  {| req_target := Url (resp_url response);
     req_callback := Parse;
     req_errback := None;
     req_meta := {|
       m_page := Some page_number; m_retry_count := Some retry_count;
       m_download_delay := Some (2 ^ retry_count);
       m_dont_retry := Some false;
       m_handle_httpstatus_list := None; m_college_data := None;
       m_page_number := None; m_block_number := None;
       m_college_link := None; m_download_timeout := None;
       m_tab_title := None |};
     req_dont_filter := true;
     req_priority := 10 |}.

(** [retry_page] *)
Definition retry_page (response : response) : gen (option request) :=
  page_number ← require "page" (m_page (resp_meta response));
  incr_page_attempts page_number ;;
  retry_count ← read_page_attempts page_number;
  if bool_decide (retry_count ≤ 3)
  then mret (Some (retry_request response page_number retry_count))
  else mret None.

(** [handle_invalid_page] *)
Definition handle_invalid_page (response : response) : gen (option request) :=
  _ ← require "page" (m_page (resp_meta response));
  retry_page response.

(** [handle_error]: [failure.request.meta.get(...)] gives [None] or the
    default for a missing key; the retried request is a copy whose
    [meta] is a copy too. *)
Definition handle_error (failure : failure) : gen unit :=
  let meta := req_meta (fail_request failure) in
  let page := m_page meta in
  failed_pages_append page ;;
  if bool_decide (default 0 (m_retry_count meta) < 3) then
    let retry_count := default 0 (m_retry_count meta) + 1 in
    let r := fail_request failure in
    yield (YieldRequest {|
      req_target := req_target r;
      req_callback := req_callback r;
      req_errback := req_errback r;
      req_meta := {|
        m_page := m_page meta; m_retry_count := Some retry_count;
        m_download_delay := Some (5 * retry_count);
        m_dont_retry := m_dont_retry meta;
        m_handle_httpstatus_list := m_handle_httpstatus_list meta;
        m_college_data := m_college_data meta;
        m_page_number := m_page_number meta;
        m_block_number := m_block_number meta;
        m_college_link := m_college_link meta;
        m_download_timeout := m_download_timeout meta;
        m_tab_title := m_tab_title meta |};
      req_dont_filter := req_dont_filter r;
      req_priority := req_priority r |})
  else mret ().

(** ** The listing callback *)

(** [start_requests] *)
Definition start_url : string :=
  "https://www.collegedekho.com/medical/colleges-in-india/".

Definition start_request (page : Z) : request :=
  {| req_target := Url (start_url +:+ "?page=" +:+ pretty page);
     req_callback := Parse;
     req_errback := Some HandleError;
     req_meta := {|
       m_page := Some page; m_retry_count := None; m_download_delay := None;
       m_dont_retry := Some false;
       m_handle_httpstatus_list := Some [400; 404; 500; 503];
       m_college_data := None; m_page_number := None; m_block_number := None;
       m_college_link := None; m_download_timeout := None;
       m_tab_title := None |};
     req_dont_filter := true;
     req_priority := 0 |}.

Definition start_requests : list request :=
  start_request <$> (Z.of_nat <$> seq 1 81).

(** [enumerate(l, 1)] *)
Definition enumerate1 {A} (l : list A) : list (Z * A) :=
  imap (λ i x, (Z.of_nat i + 1, x)) l.

(** The request [response.follow(college_link, self.parse_college_page, ...)]. *)
Definition detail_request (response : response) (page_number index : Z)
    (college_link : string) (college_data : loc) : request :=
  {| req_target := Follow (resp_url response) college_link;
     req_callback := ParseCollegePage;
     req_errback := Some HandleError;
     req_meta := {|
       m_page := None; m_retry_count := None; m_download_delay := None;
       m_dont_retry := Some false; m_handle_httpstatus_list := None;
       m_college_data := Some college_data;
       m_page_number := Some page_number;
       m_block_number := Some index;
       m_college_link := Some college_link;
       m_download_timeout := Some 180;
       m_tab_title := None |};
     req_dont_filter := true;
     req_priority := 5 |}.

(** [college_link and college_link not in self.progress["completed_colleges"]] *)
Definition wanted (completed : gset string) (college_link : option string)
  : option string :=
  match college_link with
  | Some link =>
      if PyStr.truthy college_link && bool_decide (link ∉ completed)
      then Some link else None
  | None => None
  end.

(** One turn of the loop over the blocks of a listing page. *)
Definition parse_block (response : response) (page_number : Z)
    (entry : Z * card) : gen unit :=
  let '(index, college) := entry in
  college_data ← alloc (extract_college_data college);
  let college_link := title_href college in
  s ← get_spider;
  match wanted (completed_colleges (spider_progress s)) college_link with
  | Some link =>
      yield (YieldRequest
               (detail_request response page_number index link college_data))
  | None => mret ()
  end.

(** [parse].  It is a generator, so the request that
    [return self.retry_page(response)] and
    [return self.handle_invalid_page(response)] hand back is the value
    the generator returns: it is not among the yielded requests.
    [set()] of the selected blocks keeps them all and leaves their order
    unspecified; the document order is taken. *)
Definition parse (response : response) : gen (option request) :=
  page_number ← require "page" (m_page (resp_meta response));
  if negb (is_valid_page response) then handle_invalid_page response
  else
    let college_blocks := filter (λ c, has_col_md_12 c = true)
                            (college_card_box response) in
    let block_count := Z.of_nat (length college_blocks) in
    s ← get_spider;
    put_spider (set_colleges_found (colleges_found s + block_count) s) ;;
    retry ←
      (if bool_decide (block_count < 10) then
         attempts ← read_page_attempts page_number;
         if bool_decide (attempts < 3) then
           r ← retry_page response; mret (Some r)
         else
           failed_pages_add (Some page_number) ;; mret None
       else mret None);
    match retry with
    | Some r => mret r
    | None =>
        for_each (enumerate1 college_blocks)
          (parse_block response page_number) ;;
        mret None
    end.

(** ** The detail callback and the tab callback *)

(** [tab.css("::text").get().strip()]: [None] has no [strip]. *)
Definition tab_title_of (tab : nav_tab) : result string :=
  match tab_text tab with
  | Some t => Ok (PyStr.strip t)
  | None => Raise (AttributeError "'NoneType' object has no attribute 'strip'")
  end.

Definition excluded_tabs : list string := ["Gallery"; "Reviews"; "News"; "QnA"].

(** The comprehension that selects [tabs_to_fetch]. *)
Fixpoint tabs_to_fetch (tabs : list nav_tab) : result (list nav_tab) :=
  match tabs with
  | [] => Ok []
  | tab :: rest =>
      match tab_title_of tab with
      | Raise e => Raise e
      | Ok title =>
          match tabs_to_fetch rest with
          | Raise e => Raise e
          | Ok keep =>
              if bool_decide (title ∈ excluded_tabs) then Ok keep
              else Ok (tab :: keep)
          end
      end
  end.

(** [len(tabs_to_fetch)], the value [parse_college_page] gives
    [tabs_pending]. *)
Definition counted_tabs (response : response) : nat :=
  match tabs_to_fetch (nav_tabs response) with
  | Ok tabs => length tabs
  | Raise _ => 0%nat
  end.

(** [response.follow(url, ...)] refuses a missing link. *)
Definition follow (response : response) (href : option string) : result target :=
  match href with
  | Some h => Ok (Follow (resp_url response) h)
  | None => Raise (ValueError "url can't be None")
  end.

Definition tab_request (t : target) (college_data : loc) (tab_title : string)
  : request :=
  {| req_target := t;
     req_callback := ParseTabContent;
     req_errback := None;
     req_meta := {|
       m_page := None; m_retry_count := None; m_download_delay := None;
       m_dont_retry := None; m_handle_httpstatus_list := None;
       m_college_data := Some college_data;
       m_page_number := None; m_block_number := None;
       m_college_link := None; m_download_timeout := None;
       m_tab_title := Some tab_title |};
     req_dont_filter := true;
     req_priority := 0 |}.

(** One turn of the loop over [tabs_to_fetch]. *)
Definition request_tab (response : response) (college_data : loc)
    (tab : nav_tab) : gen unit :=
  tab_title ← lift_result (tab_title_of tab);
  t ← lift_result (follow response (tab_href tab));
  yield (YieldRequest (tab_request t college_data tab_title)).

(** [v == 0] *)
Definition is_zero (v : value) : bool :=
  match v with
  | VInt 0 => true
  | _ => false
  end.

(** [parse_college_page] *)
Definition parse_college_page (response : response) : gen unit :=
  college_data ← require "college_data" (m_college_data (resp_meta response));
  dict_set college_data "overviewTab" (overview_tab response) ;;
  dict_set college_data "facilities" (facilities response) ;;
  dict_set college_data "highlights" (highlights response) ;;
  dict_set college_data "courses" (courses response) ;;
  dict_set college_data "faqs" (faqs response) ;;
  dict_set college_data "tabs" (VDict ∅) ;;
  tabs ← lift_result (tabs_to_fetch (nav_tabs response));
  dict_set college_data "tabs_pending" (VInt (Z.of_nat (length tabs))) ;;
  for_each tabs (request_tab response college_data) ;;
  pending ← dict_get college_data "tabs_pending";
  if is_zero pending then yield_item college_data else mret ().

(** The blocks of a tab page that have a title and a content, the
    first one of each title. *)
Definition block_entry (title content_html : string) : value :=
  VDict (<["title" := VStr title]> (<["content" := VStr content_html]> ∅)).

Definition has_title (title : string) (item : value) : bool :=
  match item with
  | VDict m =>
      match m !! "title" with
      | Some (VStr t) => bool_decide (t = title)
      | _ => false
      end
  | _ => false
  end.

Fixpoint tab_content (blocks : list tab_block) (content : list value)
  : list value :=
  match blocks with
  | [] => content
  | block :: rest =>
      let title := PyStr.strip_or_none (h2_text block) in
      let content_html := detail_html block in
      match title, content_html with
      | Some t, Some c =>
          if PyStr.truthy title && PyStr.truthy content_html
             && negb (existsb (has_title t) content)
          then tab_content rest (content ++ [block_entry t c])
          else tab_content rest content
      | _, _ => tab_content rest content
      end
  end.

Definition tab_key_of (tab_title : string) : string :=
  PyStr.lower (PyStr.remove_char " " tab_title) +:+ "Tab".

Definition tab_data_of (tab_title : string) (response : response) : value :=
  VDict (<["tab" := VStr tab_title]>
        (<["content" := VList (tab_content (block_box response) [])]> ∅)).

(** [parse_tab_content] *)
Definition parse_tab_content (response : response) : gen unit :=
  college_data ← require "college_data" (m_college_data (resp_meta response));
  tab_title ← require "tab_title" (m_tab_title (resp_meta response));
  let tab_key := tab_key_of tab_title in
  let tab_data := tab_data_of tab_title response in
  tabs ← dict_get college_data "tabs";
  match tabs with
  | VDict m =>
      dict_set college_data "tabs" (VDict (<[tab_key := tab_data]> m)) ;;
      pending ← dict_get college_data "tabs_pending";
      match pending with
      | VInt n =>
          dict_set college_data "tabs_pending" (VInt (n - 1)) ;;
          pending' ← dict_get college_data "tabs_pending";
          if is_zero pending' then
            dict_pop college_data "tabs_pending" ;;
            yield_item college_data
          else mret ()
      | _ => raise (TypeError "unsupported operand type(s) for -=")
      end
  | _ => raise (TypeError "object does not support item assignment")
  end.

(** ** The engine

    What the framework does with the spider: every scheduled request is
    downloaded once; a response goes to the request's callback, a
    failure to its errback when it has one.  The requests a callback
    yields are scheduled and the items it yields are emitted; what a
    generator returns is dropped, and an exception ends that callback
    only. *)

Inductive download :=
  | Fetched (doc : response)
  | Failed (reason : string).

Record engine := {
  sp : spider;
  queue : list request;            (* scheduled, not yet downloaded *)
  items : list (loc * dict);       (* emitted, in order *)
  errors : list exn;               (* raised by callbacks *)
}.

(** The response handed to the callback: the downloaded document with
    the [meta] of its request. *)
Definition with_meta (m : meta) (doc : response) : response :=
  {| resp_url := resp_url doc; resp_meta := m; body_len := body_len doc;
     college_card_box := college_card_box doc; container := container doc;
     overview_tab := overview_tab doc; facilities := facilities doc;
     highlights := highlights doc; courses := courses doc; faqs := faqs doc;
     nav_tabs := nav_tabs doc; block_box := block_box doc |}.

Definition run_callback (cb : callback) (response : response) : gen unit :=
  match cb with
  | Parse => _ ← parse response; mret ()
  | ParseCollegePage => parse_college_page response
  | ParseTabContent => parse_tab_content response
  end.

Definition dispatch (r : request) (d : download) : gen unit :=
  match d with
  | Fetched doc => run_callback (req_callback r) (with_meta (req_meta r) doc)
  | Failed reason =>
      match req_errback r with
      | Some HandleError =>
          handle_error {| fail_request := r; fail_value := reason |}
      | None => mret ()
      end
  end.

Definition yielded_requests (out : list output) : list request :=
  omap (λ o, match o with YieldRequest r => Some r | _ => None end) out.

Definition yielded_items (out : list output) : list (loc * dict) :=
  omap (λ o, match o with YieldItem l d => Some (l, d) | _ => None end) out.

Definition raised {A} (r : result A) : list exn :=
  match r with
  | Raise e => [e]
  | Ok _ => []
  end.

(** The [i]-th scheduled request is downloaded with outcome [d]. *)
Definition step (e : engine) (i : nat) (d : download) : option engine :=
  match queue e !! i with
  | None => None
  | Some r =>
      match dispatch r d (sp e) with
      | (s', out, res) =>
          Some {| sp := s';
                  queue := delete i (queue e) ++ yielded_requests out;
                  items := items e ++ yielded_items out;
                  errors := errors e ++ raised res |}
      end
  end.

(** A run: the downloads in the order in which they complete. *)
Fixpoint run (e : engine) (events : list (nat * download)) : option engine :=
  match events with
  | [] => Some e
  | (i, d) :: rest =>
      match step e i d with
      | Some e' => run e' rest
      | None => None
      end
  end.

Definition start (file : option progress) : engine :=
  {| sp := init file; queue := start_requests; items := []; errors := [] |}.


(** ** What the callbacks compute, in closed form *)

(** The spider after the object at [l] became [d]. *)
Definition upd (l : loc) (d : dict) (s : spider) : spider :=
  set_store (<[l := d]> (store s)) s.

(** The record after the detail page was merged in, before the counter
    is set. *)
Definition detail_fields (response : response) (d : dict) : dict :=
  <["tabs" := VDict ∅]>
  (<["faqs" := faqs response]>
  (<["courses" := courses response]>
  (<["highlights" := highlights response]>
  (<["facilities" := facilities response]>
  (<["overviewTab" := overview_tab response]> d))))).

(** The tab requests the loop of [parse_college_page] yields, up to the
    first tab it cannot turn into a request. *)
Fixpoint tab_requests (response : response) (l : loc) (tabs : list nav_tab)
  : list request * result unit :=
  match tabs with
  | [] => ([], Ok ())
  | tab :: rest =>
      match tab_title_of tab with
      | Raise e => ([], Raise e)
      | Ok title =>
          match follow response (tab_href tab) with
          | Raise e => ([], Raise e)
          | Ok t =>
              let '(reqs, r) := tab_requests response l rest in
              (tab_request t l title :: reqs, r)
          end
      end
  end.

(** The loop of [parse] over the blocks: the store it leaves and the
    detail requests it yields. *)
Fixpoint parse_blocks (response : response) (page_number : Z)
    (completed : gset string) (entries : list (Z * card))
    (st : gmap loc dict) : gmap loc dict * list request :=
  match entries with
  | [] => (st, [])
  | (index, college) :: rest =>
      let l := fresh (dom st) in
      let '(st', reqs) :=
        parse_blocks response page_number completed rest
          (<[l := extract_college_data college]> st) in
      (st',
       match wanted completed (title_href college) with
       | Some link => detail_request response page_number index link l :: reqs
       | None => reqs
       end)
  end.

(** ** Counting what is in flight for an item *)

Fixpoint count {A} (p : A → bool) (l : list A) : nat :=
  match l with
  | [] => 0%nat
  | x :: rest => ((if p x then 1 else 0) + count p rest)%nat
  end.

Definition is_detail_for (l : loc) (r : request) : bool :=
  match req_callback r with
  | ParseCollegePage => bool_decide (m_college_data (req_meta r) = Some l)
  | _ => false
  end.

Definition is_tab_for (l : loc) (r : request) : bool :=
  match req_callback r with
  | ParseTabContent => bool_decide (m_college_data (req_meta r) = Some l)
  | _ => false
  end.

(** How many times the object at [l] was emitted. *)
Definition emitted (l : loc) (its : list (loc * dict)) : nat :=
  count (λ it, bool_decide (it.1 = l)) its.

(** The state of one item: its detail request is scheduled or it was
    emitted, at most one of the two and at most once, and then no tab
    request is scheduled; while tab requests are scheduled the counter
    is at least their number; the counter is never negative. *)
Record obj_inv (l : loc) (d : dict) (q : list request)
    (its : list (loc * dict)) : Prop := {
  oi_once : (count (is_detail_for l) q + emitted l its ≤ 1)%nat;
  oi_excl : (0 < count (is_detail_for l) q + emitted l its)%nat →
            count (is_tab_for l) q = 0%nat;
  oi_open : (0 < count (is_tab_for l) q)%nat →
            ∃ m n, d !! "tabs" = Some (VDict m) ∧
                   d !! "tabs_pending" = Some (VInt n) ∧
                   Z.of_nat (count (is_tab_for l) q) ≤ n;
  oi_nonneg : ∀ n, d !! "tabs_pending" = Some (VInt n) → 0 ≤ n;
}.

Record engine_inv (file : option progress) (e : engine) : Prop := {
  ei_set : ∃ fp, failed_pages (sp e) = PySet fp;
  ei_progress : spider_progress (sp e) = load_progress file;
  ei_refs : ∀ r l, r ∈ queue e → m_college_data (req_meta r) = Some l →
            is_Some (store (sp e) !! l);
  ei_items : ∀ l d, (l, d) ∈ items e → is_Some (store (sp e) !! l);
  ei_links : ∀ r, r ∈ queue e → req_callback r = ParseCollegePage →
             ∃ base link, req_target r = Follow base link ∧
                          m_college_link (req_meta r) = Some link ∧
                          link ∉ completed_colleges (load_progress file);
  ei_objs : ∀ l d, store (sp e) !! l = Some d →
            obj_inv l d (queue e) (items e);
}.

(** The loop of [parse] run on the spider [s]. *)
Definition parse_loop (response : response) (page_number : Z)
    (blocks : list card) (s : spider)
  : spider * list output * result (option request) :=
  let '(st, reqs) :=
    parse_blocks response page_number
      (completed_colleges (spider_progress s)) (enumerate1 blocks) (store s) in
  (set_store st s, YieldRequest <$> reqs, Ok None).

(** ** The answers to the tab requests of one item *)

(** One scheduled request is answered: the engine's [dispatch], with
    what the callback yielded. *)
Definition deliver (s : spider) (ev : request * download)
  : spider * list output :=
  let '(s', out, _) := dispatch ev.1 ev.2 s in (s', out).

Fixpoint deliver_all (s : spider) (evs : list (request * download))
  : spider * list output :=
  match evs with
  | [] => (s, [])
  | ev :: rest =>
      let '(s1, out1) := deliver s ev in
      let '(s2, out2) := deliver_all s1 rest in
      (s2, out1 ++ out2)
  end.

Definition is_fetched (ev : request * download) : bool :=
  match ev.2 with
  | Fetched _ => true
  | Failed _ => false
  end.

Definition is_failed (ev : request * download) : bool := negb (is_fetched ev).

Definition title_of (r : request) : string :=
  default "" (m_tab_title (req_meta r)).

(** The key under which the section of a tab request is stored. *)
Definition key_of (r : request) : string := tab_key_of (title_of r).

(** The section the tab callback builds from the response [doc] to [r]. *)
Definition section_of (r : request) (doc : response) : value :=
  tab_data_of (title_of r) (with_meta (req_meta r) doc).

(** The [tabs] dictionary after the answers [evs], starting from [m]. *)
Fixpoint merged (m : gmap string value) (evs : list (request * download))
  : gmap string value :=
  match evs with
  | [] => m
  | (r, Fetched doc) :: rest => merged (<[key_of r := section_of r doc]> m) rest
  | (_, Failed _) :: rest => merged m rest
  end.

Definition fetched_keys (evs : list (request * download)) : list string :=
  omap (λ ev, if is_fetched ev then Some (key_of ev.1) else None) evs.

(** ** Sample documents *)

Definition sample_card (title href : string) : card :=
  {| has_col_md_12 := true; title_text := Some title; title_href := Some href;
     location_text := Some "Pune, Maharashtra"; info_lis := [];
     ranking_text := None; rank_publisher_re := None; fees_text := None;
     accreditation_text := None; avg_package_text := None; exam_li := None;
     description_text := None |}.


Definition listing_page (cards : list card) (len : Z) : response :=
  {| resp_url := start_url; resp_meta := empty_meta; body_len := len;
     college_card_box := cards; container := [()];
     overview_tab := VNone; facilities := VNone; highlights := VNone;
     courses := VNone; faqs := VNone; nav_tabs := []; block_box := [] |}.

Definition detail_page (tabs : list string) : response :=
  {| resp_url := "https://www.collegedekho.com/colleges/aiims";
     resp_meta := empty_meta; body_len := 5000;
     college_card_box := []; container := [()];
     overview_tab := VList []; facilities := VList [VStr "Library"];
     highlights := VDict ∅; courses := VList []; faqs := VList [];
     nav_tabs := (λ t, {| tab_text := Some t; tab_href := Some ("/" +:+ t) |})
                   <$> tabs;
     block_box := [] |}.

Definition tab_page (title html : string) : response :=
  {| resp_url := "https://www.collegedekho.com/colleges/aiims/tab";
     resp_meta := empty_meta; body_len := 5000;
     college_card_box := []; container := [()];
     overview_tab := VNone; facilities := VNone; highlights := VNone;
     courses := VNone; faqs := VNone; nav_tabs := [];
     block_box := [{| h2_text := Some title; detail_html := Some html |}] |}.

(** A spider that holds one record, the one the detail request refers to. *)
Definition one_record : spider :=
  set_store {[ 0%nat := extract_college_data (sample_card "AIIMS" "/colleges/aiims") ]}
    (init None).

Definition for_record (l : loc) (doc : response) : response :=
  with_meta
    {| m_page := None; m_retry_count := None; m_download_delay := None;
       m_dont_retry := Some false; m_handle_httpstatus_list := None;
       m_college_data := Some l; m_page_number := Some 1;
       m_block_number := Some 1; m_college_link := Some "/colleges/aiims";
       m_download_timeout := Some 180; m_tab_title := None |}
    doc.

(** The keys and tab titles of the sections of the emitted records. *)
Definition section_names (its : list (loc * dict))
  : list (list (string * option string)) :=
  (λ it : loc * dict,
     match it.2 !! "tabs" with
     | Some (VDict tabs) =>
         (λ kv : string * value,
            (kv.1, match kv.2 with
                   | VDict sec =>
                       match sec !! "tab" with
                       | Some (VStr t) => Some t
                       | _ => None
                       end
                   | _ => None
                   end)) <$> map_to_list tabs
     | _ => []
     end) <$> its.

Definition sample_cards (n : nat) : list card :=
  (λ i : nat,
     sample_card ("College " +:+ pretty i) ("/colleges/c" +:+ pretty i))
    <$> seq 1 n.

Definition ten_cards : list card := sample_cards 10.

(** The first listing page has ten blocks; the detail page of its first
    block has two tabs to fetch and a gallery; the first tab is fetched
    and the second fails for good. *)
Definition sample_run : list (nat * download) :=
  [(0%nat, Fetched (listing_page ten_cards 5000));
   (80%nat, Fetched (detail_page ["Courses"; "Admission"; "Gallery"]));
   (89%nat, Fetched (tab_page "Fees" "<p>fees</p>"));
   (89%nat, Failed "timeout")].

Definition sample_final : engine :=
  default (start None) (run (start None) sample_run).

(** A detail response for the record at 0, with the given tabs. *)
Definition detail_for_record (tabs : list string) : response :=
  for_record 0%nat (detail_page tabs).

Definition sample_tab_request (title : string) : request :=
  tab_request
    (Follow "https://www.collegedekho.com/colleges/aiims" ("/" +:+ title))
    0%nat title.

(** The first two answers the other way round. *)
Definition swap_first {A} (l : list A) : list A :=
  match l with
  | x :: y :: rest => y :: x :: rest
  | _ => l
  end.

Definition three_answers : list download :=
  [Fetched (tab_page "Cut off 2024" "<p>a</p>");
   Fetched (tab_page "Cutoff trends" "<p>b</p>");
   Fetched (tab_page "Courses offered" "<p>c</p>")].

(** A ledger restored with one completed college. *)
Definition sample_ledger : progress :=
  {| completed_pages := ∅; completed_colleges := {["/colleges/c3"]};
     failed_colleges := ∅ |}.

Definition resumed_final : engine :=
  default (start (Some sample_ledger))
    (run (start (Some sample_ledger))
       [(0%nat, Fetched (listing_page ten_cards 5000))]).

(** A listing response for page 7 with [n] blocks. *)
Definition page7 (n : nat) : response :=
  with_meta (req_meta (start_request 7))
    (listing_page (sample_cards n) 5000).

(** * Further definitions: what a callback leaves alone *)

(** The attributes of the spider other than the store of records. *)
Definition same_attributes (s s' : spider) : Prop :=
  page_attempts s' = page_attempts s ∧
  failed_pages s' = failed_pages s ∧
  spider_progress s' = spider_progress s ∧
  colleges_found s' = colleges_found s.

(** What a callback on a record may yield: the record, or a request for
    one of its tabs, which has no errback. *)
Definition tab_output (o : output) : Prop :=
  match o with
  | YieldItem _ _ => True
  | YieldRequest r => req_callback r = ParseTabContent ∧ req_errback r = None
  end.

(** A computation that changes at most the record [l] (none for [None])
    and yields tab requests and records only. *)
Definition local_to (l : option loc) {A} (m : gen A) : Prop :=
  ∀ s, same_attributes s (m s).1.1 ∧
       (∀ l', l ≠ Some l' → store (m s).1.1 !! l' = store s !! l') ∧
       Forall tab_output (m s).1.2.

(** ** Listing requests in flight *)

Definition is_listing_for (page : Z) (r : request) : bool :=
  match req_callback r with
  | Parse => bool_decide (m_page (req_meta r) = Some page)
  | _ => false
  end.

(** Every scheduled listing request is one of [start_requests], a page
    has a listing request scheduled or one counted attempt, not both,
    and no page was recorded as failed. *)
Record listing_inv (e : engine) : Prop := {
  li_failed : failed_pages (sp e) = PySet ∅;
  li_start : ∀ r, r ∈ queue e → req_callback r = Parse → r ∈ start_requests;
  li_attempts : ∀ page,
    0 ≤ default 0 (page_attempts (sp e) !! page) ∧
    Z.of_nat (count (is_listing_for page) (queue e))
      + default 0 (page_attempts (sp e) !! page) ≤ 1;
}.

(** [len(college_blocks)] in [parse]. *)
Definition block_count (response : response) : Z :=
  Z.of_nat (length (filter (λ c, has_col_md_12 c = true)
                      (college_card_box response))).

(** ** The listing callback *)

(** The blocks of a page that [parse] follows: their position, from 1,
    and their link. *)
Definition followed_blocks (completed : gset string) (blocks : list card)
  : list (Z * string) :=
  omap (λ entry : Z * card,
          (λ link, (entry.1, link)) <$> wanted completed (title_href entry.2))
       (enumerate1 blocks).


(** [retry_page] called [n] times on responses for the same page: the
    spider at the end and what each call returned. *)
Fixpoint retry_times (n : nat) (response : response) (s : spider)
  : spider * list (option request) :=
  match n with
  | O => (s, [])
  | S k =>
      let '(s1, _, res) := retry_page response s in
      let '(s2, rest) := retry_times k response s1 in
      (s2, match res with Ok r => r | Raise _ => None end :: rest)
  end.

(** ** More sample documents *)

(** A detail page whose navigation is given link by link. *)
Definition detail_with (links : list nav_tab) : response :=
  for_record 0%nat
    {| resp_url := "https://www.collegedekho.com/colleges/aiims";
       resp_meta := empty_meta; body_len := 5000;
       college_card_box := []; container := [()];
       overview_tab := VList []; facilities := VList [VStr "Library"];
       highlights := VDict ∅; courses := VList []; faqs := VList [];
       nav_tabs := links; block_box := [] |}.

Definition link (text : option string) (href : option string) : nav_tab :=
  {| tab_text := text; tab_href := href |}.

(** ** Lists without a repeated key *)

(** The candidates [xs] taken in turn, each kept unless an entry with
    the same key is already there: the pattern of
    [if ... and not any(item[key] == k for item in acc): acc.append(...)]. *)
Fixpoint first_by_key {B} (xs acc : list (string * B)) : list (string * B) :=
  match xs with
  | [] => acc
  | (k, v) :: rest =>
      if bool_decide (k ∈ acc.*1)
      then first_by_key rest acc
      else first_by_key rest (acc ++ [(k, v)])
  end.

(** [(k, v)] is the first candidate with the key [k]. *)
Definition first_with_key {B} (xs : list (string * B)) (k : string) (v : B)
  : Prop :=
  ∃ before after, xs = before ++ (k, v) :: after ∧ (k ∉ before.*1).

(** The title and the content [parse_tab_content] takes from a block of
    a tab page, when both are there and not empty. *)
Definition tab_entry (block : tab_block) : option (string * string) :=
  match PyStr.strip_or_none (h2_text block), detail_html block with
  | Some t, Some c =>
      if PyStr.truthy (Some t) && PyStr.truthy (Some c) then Some (t, c)
      else None
  | _, _ => None
  end.

(** ** The extractors of the detail page

    [parse_college_page] stores what they return in the record; a
    [response] holds these results in its fields [faqs], [highlights]
    and [courses].  Here they are computed from the blocks their
    selectors find. *)

(** A block [.accordion_accordionInner__J27vt] of the page. *)
Record faq_block := {
  faq_h3_text : option string;      (* h3::text *)
  faq_answer_text : option string;  (* .accordion_content__KQYJ_ div::text *)
}.

Definition faq_dict (question answer : string) : value :=
  VDict (<["question" := VStr question]> (<["answer" := VStr answer]> ∅)).

(** [f["question"] == question] *)
Definition has_question (question : string) (f : value) : bool :=
  match f with
  | VDict m =>
      match m !! "question" with
      | Some (VStr q) => bool_decide (q = question)
      | _ => false
      end
  | _ => false
  end.

(** The loop of [extract_faqs], from the list [faqs] built so far. *)
Fixpoint faqs_from (blocks : list faq_block) (faqs : list value)
  : list value :=
  match blocks with
  | [] => faqs
  | faq :: rest =>
      let question := PyStr.strip_or_none (faq_h3_text faq) in
      let answer := PyStr.strip_or_none (faq_answer_text faq) in
      match question, answer with
      | Some q, Some a =>
          if PyStr.truthy question && PyStr.truthy answer
             && negb (existsb (has_question q) faqs)
          then faqs_from rest (faqs ++ [faq_dict q a])
          else faqs_from rest faqs
      | _, _ => faqs_from rest faqs
      end
  end.

(** [extract_faqs], on the blocks the selector finds. *)
Definition extract_faqs (blocks : list faq_block) : list value :=
  faqs_from blocks [].

(** The question and the answer of a block, when both are there and
    not empty once stripped. *)
Definition faq_entry (faq : faq_block) : option (string * string) :=
  match PyStr.strip_or_none (faq_h3_text faq),
        PyStr.strip_or_none (faq_answer_text faq) with
  | Some q, Some a =>
      if PyStr.truthy (Some q) && PyStr.truthy (Some a) then Some (q, a)
      else None
  | _, _ => None
  end.

(** An item [.collegeHighlightsCard_collegeHighlightBox__Efa_o]. *)
Record highlight_box := {
  highlight_name : option string;   (* ...highlightName__NP6u9::text *)
  highlight_label : option string;  (* ...highlightLabel__5B3__::text *)
}.

(** The loop of [extract_highlights], from the dictionary built so far. *)
Fixpoint highlights_from (items : list highlight_box) (d : gmap string string)
  : gmap string string :=
  match items with
  | [] => d
  | item :: rest =>
      match highlight_name item, highlight_label item with
      | Some key, Some v =>
          if PyStr.truthy (Some key) && PyStr.truthy (Some v)
          then highlights_from rest (<[PyStr.strip key := PyStr.strip v]> d)
          else highlights_from rest d
      | _, _ => highlights_from rest d
      end
  end.

Definition extract_highlights (items : list highlight_box)
  : gmap string string :=
  highlights_from items ∅.

(** What an item adds to the dictionary. *)
Definition highlight_entry (item : highlight_box) : option (string * string) :=
  match highlight_name item, highlight_label item with
  | Some key, Some v =>
      if PyStr.truthy (Some key) && PyStr.truthy (Some v)
      then Some (PyStr.strip key, PyStr.strip v) else None
  | _, _ => None
  end.

(** [(k, v)] is the last candidate with the key [k]. *)
Definition last_with_key {B} (xs : list (string * B)) (k : string) (v : B)
  : Prop :=
  ∃ before after, xs = before ++ (k, v) :: after ∧ (k ∉ after.*1).

(** A block [.courseCard_courseCard__dfnvS] of the page. *)
Record course_card := {
  course_heading_text : option string;     (* ...courseHeading__CudEq a::text *)
  course_fees_text : option string;        (* ...detailBoldText__ukBXc::text *)
  course_duration_text : option string;    (* ...courseDetailList__eCaZU div::text *)
  course_study_mode_text : option string;  (* ... div:nth-child(3)::text *)
  course_eligibility_text : option string; (* ...eligibilityText__H12Xm::text *)
  course_offered_titles : list string;     (* ... span span::attr(title), getall *)
}.

(** Truth value of a Python value. *)
Definition truthy_value (v : value) : bool :=
  match v with
  | VNone => false
  | VInt n => negb (Z.eqb n 0)
  | VStr s => PyStr.truthy (Some s)
  | VList l => match l with [] => false | _ => true end
  | VDict m => negb (bool_decide (m = ∅))
  end.

(** The dictionary [course_data] as first built, with all six keys. *)
Definition course_fields (course : course_card) : dict :=
  <["course_title" :=
      of_opt_str (PyStr.strip_or_none (course_heading_text course))]>
  (<["fees" := of_opt_str (PyStr.strip_or_none (course_fees_text course))]>
  (<["duration" :=
       of_opt_str (PyStr.strip_or_none (course_duration_text course))]>
  (<["study_mode" :=
       of_opt_str (PyStr.strip_or_none (course_study_mode_text course))]>
  (<["eligibility" :=
       of_opt_str (PyStr.strip_or_none (course_eligibility_text course))]>
  (<["offered_courses" := VList (VStr <$> course_offered_titles course)]>
   ∅))))).

(** [{k: v for k, v in course_data.items() if v}] *)
Definition course_data_of (course : course_card) : dict :=
  filter (λ kv, truthy_value kv.2 = true) (course_fields course).

(** [c["course_title"] == title] *)
Definition has_course_title (title : string) (c : value) : bool :=
  match c with
  | VDict m =>
      match m !! "course_title" with
      | Some (VStr t) => bool_decide (t = title)
      | _ => false
      end
  | _ => false
  end.

(** The loop of [extract_courses], from the list built so far. *)
Fixpoint courses_from (blocks : list course_card) (courses : list value)
  : list value :=
  match blocks with
  | [] => courses
  | course :: rest =>
      let course_data := course_data_of course in
      match course_data !! "course_title" with
      | Some (VStr title) =>
          if PyStr.truthy (Some title)
             && negb (existsb (has_course_title title) courses)
          then courses_from rest (courses ++ [VDict course_data])
          else courses_from rest courses
      | _ => courses_from rest courses
      end
  end.

Definition extract_courses (blocks : list course_card) : list value :=
  courses_from blocks [].

(** The title under which a block is kept, with the block. *)
Definition course_entry (course : course_card)
  : option (string * course_card) :=
  match course_data_of course !! "course_title" with
  | Some (VStr title) =>
      if PyStr.truthy (Some title) then Some (title, course) else None
  | _ => None
  end.

(** The record of an entry has the title of the entry. *)
Definition titled (e : string * course_card) : Prop :=
  course_data_of e.2 !! "course_title" = Some (VStr e.1).

(** ** Strings, continued *)

(** [s[n:]] *)
Fixpoint string_drop (n : nat) (s : string) : string :=
  match n, s with
  | S k, String _ s' => string_drop k s'
  | _, _ => s
  end.
(** * Properties *)

(** ** The per-block extraction *)

Lemma extract_body_title college d :
  extract_body college = Ok d → is_Some (d !! "title").
Proof.
  unfold extract_body.
  destruct (extract_location (location_text college)) as [[city state]|e];
    [|discriminate].
  intros [= <-]. rewrite lookup_insert_eq. eauto.
Qed.

Lemma extract_body_no_counter college d :
  extract_body college = Ok d →
  d !! "tabs_pending" = None ∧ d !! "tabs" = None.
Proof.
  unfold extract_body.
  destruct (extract_location (location_text college)) as [[city state]|e];
    [|discriminate].
  intros [= <-]. split; by simplify_map_eq.
Qed.

(** A block whose location has two separators makes the body raise, and
    the block still gets a record. *)
Example extract_college_data_three_part_location :
  let college :=
    {| has_col_md_12 := true; title_text := Some "AIIMS";
       title_href := Some "/colleges/aiims";
       location_text := Some "Ansari Nagar, New Delhi, Delhi";
       info_lis := []; ranking_text := None; rank_publisher_re := None;
       fees_text := None; accreditation_text := None;
       avg_package_text := None; exam_li := None;
       description_text := None |} in
  extract_body college
    = Raise (ValueError "too many values to unpack (expected 2)") ∧
  extract_college_data college
    = <["title" := VStr "Error in extraction"]>
      (<["error" := VStr "too many values to unpack (expected 2)"]> ∅).
Proof. split; reflexivity. Qed.

(** C10: [extract_college_data] gives a dictionary for every block, that
    dictionary has a ["title"] key, and when the body of the [try] raises
    [e] the dictionary is the error record
    [{"title": "Error in extraction", "error": str(e)}]. *)
Theorem extract_college_data_total (college : card) :
  is_Some (extract_college_data college !! "title") ∧
  match extract_body college with
  | Ok d => extract_college_data college = d
  | Raise e =>
      extract_college_data college
        = <["title" := VStr "Error in extraction"]>
          (<["error" := VStr (exn_str e)]> ∅)
  end.
Proof.
  unfold extract_college_data.
  destruct (extract_body college) as [d|e] eqn:Hbody.
  - split; [by eapply extract_body_title | done].
  - split; [|done].
    unfold extraction_error. rewrite lookup_insert_eq. eauto.
Qed.

(** ** The page validator *)

(** C5: a listing document is classified invalid exactly when the item
    block marker is absent, or the container marker is absent, or the
    body has at most 1000 bytes. *)
Theorem is_valid_page_rejects (response : response) :
  is_valid_page response = false ↔
  college_card_box response = [] ∨ container response = []
  ∨ body_len response ≤ 1000.
Proof.
  unfold is_valid_page.
  rewrite !andb_false_iff, !bool_decide_eq_false.
  split.
  - intros [[H|H]|H].
    + left. by destruct (college_card_box response); [|exfalso; apply H].
    + right; left. by destruct (container response); [|exfalso; apply H].
    + right; right. lia.
  - intros [H|[H|H]].
    + left; left. rewrite H. auto.
    + left; right. rewrite H. auto.
    + right. lia.
Qed.

(** ** Running the primitives of the generator monad *)

Lemma bind_run {A B} (m : gen A) (f : A → gen B) s :
  (m ≫= f) s =
    match m s with
    | (s1, out1, Ok a) => let '(s2, out2, r) := f a s1 in (s2, out1 ++ out2, r)
    | (s1, out1, Raise e) => (s1, out1, Raise e)
    end.
Proof. reflexivity. Qed.

Lemma store_upd l d s : store (upd l d s) !! l = Some d.
Proof. apply lookup_insert_eq. Qed.

Lemma store_upd_ne l l' d s : l ≠ l' → store (upd l d s) !! l' = store s !! l'.
Proof. intros. by apply lookup_insert_ne. Qed.

Lemma upd_upd l d1 d2 s : upd l d2 (upd l d1 s) = upd l d2 s.
Proof. unfold upd, set_store. simpl. by rewrite insert_insert_eq. Qed.

Lemma dict_set_run l k v s d :
  store s !! l = Some d →
  dict_set l k v s = (upd l (<[k := v]> d) s, [], Ok ()).
Proof. intros H. unfold dict_set, read_obj. rewrite bind_run, H. reflexivity. Qed.

Lemma dict_get_run l k s d :
  store s !! l = Some d →
  dict_get l k s =
    (s, [], match d !! k with Some v => Ok v | None => Raise (KeyError k) end).
Proof.
  intros H. unfold dict_get, read_obj. rewrite bind_run, H.
  by destruct (d !! k).
Qed.

Lemma dict_pop_run l k s d v :
  store s !! l = Some d → d !! k = Some v →
  dict_pop l k s = (upd l (delete k d) s, [], Ok v).
Proof.
  intros H Hk. unfold dict_pop. rewrite bind_run, (dict_get_run _ _ _ _ H), Hk.
  unfold read_obj. rewrite bind_run, H. reflexivity.
Qed.

Lemma yield_item_run l s d :
  store s !! l = Some d → yield_item l s = (s, [YieldItem l d], Ok ()).
Proof. intros H. unfold yield_item, read_obj. rewrite bind_run, H. reflexivity. Qed.

(** ** The tab callback in closed form *)

Lemma parse_tab_content_run response s l t d m n :
  m_college_data (resp_meta response) = Some l →
  m_tab_title (resp_meta response) = Some t →
  store s !! l = Some d →
  d !! "tabs" = Some (VDict m) →
  d !! "tabs_pending" = Some (VInt n) →
  parse_tab_content response s =
    let d1 := <["tabs" := VDict (<[tab_key_of t := tab_data_of t response]> m)]> d in
    if bool_decide (n = 1)
    then (upd l (delete "tabs_pending" d1) s,
          [YieldItem l (delete "tabs_pending" d1)], Ok ())
    else (upd l (<["tabs_pending" := VInt (n - 1)]> d1) s, [], Ok ()).
Proof.
  intros Hl Ht Hd Htabs Hpend. unfold parse_tab_content.
  rewrite Hl, Ht. simpl.
  rewrite bind_run. simpl. rewrite bind_run. simpl.
  rewrite bind_run, (dict_get_run _ _ _ _ Hd), Htabs.
  rewrite bind_run, (dict_set_run _ _ _ _ _ Hd).
  rewrite bind_run, (dict_get_run _ _ _ _ (store_upd _ _ _)).
  rewrite lookup_insert_ne, Hpend by done.
  rewrite bind_run, (dict_set_run _ _ _ _ _ (store_upd _ _ _)), upd_upd.
  rewrite bind_run, (dict_get_run _ _ _ _ (store_upd _ _ _)), lookup_insert_eq.
  case_bool_decide as Hn.
  - subst n. simpl.
    rewrite bind_run.
    erewrite dict_pop_run by (first [apply store_upd | apply lookup_insert_eq]).
    rewrite upd_upd, delete_insert_eq.
    by rewrite (yield_item_run _ _ _ (store_upd _ _ _)).
  - replace (is_zero (VInt (n - 1))) with false; [done|].
    simpl. destruct (n - 1) eqn:E; try done. lia.
Qed.

(** ** The detail callback in closed form *)

Lemma for_each_request_tab response l tabs s :
  for_each tabs (request_tab response l) s =
    (s, YieldRequest <$> (tab_requests response l tabs).1,
     (tab_requests response l tabs).2).
Proof.
  induction tabs as [|tab rest IH]; [done|].
  simpl. rewrite bind_run. unfold request_tab at 1.
  rewrite bind_run. unfold lift_result at 1.
  destruct (tab_title_of tab) as [title|e]; [|done].
  rewrite bind_run. unfold lift_result at 1.
  destruct (follow response (tab_href tab)) as [t|e]; [|done].
  simpl. rewrite IH.
  by destruct (tab_requests response l rest) as [reqs r].
Qed.

Lemma parse_college_page_run response s l d :
  m_college_data (resp_meta response) = Some l →
  store s !! l = Some d →
  parse_college_page response s =
    let d0 := detail_fields response d in
    match tabs_to_fetch (nav_tabs response) with
    | Raise e => (upd l d0 s, [], Raise e)
    | Ok tabs =>
        let d1 := <["tabs_pending" := VInt (Z.of_nat (length tabs))]> d0 in
        match tab_requests response l tabs with
        | (reqs, Raise e) => (upd l d1 s, YieldRequest <$> reqs, Raise e)
        | (reqs, Ok _) =>
            (upd l d1 s,
             (YieldRequest <$> reqs)
               ++ (if tabs is [] then [YieldItem l d1] else []),
             Ok ())
        end
    end.
Proof.
  intros Hl Hd. unfold parse_college_page. rewrite Hl. simpl.
  rewrite bind_run. simpl.
  rewrite bind_run, (dict_set_run _ _ _ _ _ Hd).
  do 5 rewrite bind_run, (dict_set_run _ _ _ _ _ (store_upd _ _ _)), upd_upd.
  fold (detail_fields response d).
  rewrite bind_run. unfold lift_result at 1.
  destruct (tabs_to_fetch (nav_tabs response)) as [tabs|e]; [|done].
  rewrite bind_run, (dict_set_run _ _ _ _ _ (store_upd _ _ _)), upd_upd.
  rewrite bind_run, for_each_request_tab.
  destruct (tab_requests response l tabs) as [reqs [[]|e]]; simpl; [|done].
  rewrite bind_run, (dict_get_run _ _ _ _ (store_upd _ _ _)), lookup_insert_eq.
  destruct tabs as [|tab rest]; simpl.
  - by rewrite (yield_item_run _ _ _ (store_upd _ _ _)).
  - by rewrite ?app_nil_r.
Qed.

(** ** The retry bookkeeping and the listing callback in closed form *)

Lemma set_store_id s : set_store (store s) s = s.
Proof. by destruct s. Qed.

Lemma retry_page_run response s page :
  m_page (resp_meta response) = Some page →
  retry_page response s =
    let n := default 0 (page_attempts s !! page) + 1 in
    (set_page_attempts (<[page := n]> (page_attempts s)) s, [],
     Ok (if bool_decide (n ≤ 3) then Some (retry_request response page n)
         else None)).
Proof.
  intros Hp. unfold retry_page. rewrite Hp. simpl.
  unfold incr_page_attempts, read_page_attempts, get_spider, put_spider.
  unfold mbind, gen_bind, mret, gen_ret. simpl.
  rewrite !lookup_insert_eq. simpl. rewrite !insert_insert_eq.
  by case_bool_decide.
Qed.

Lemma for_each_parse_block response page entries s :
  for_each entries (parse_block response page) s =
    let '(st, reqs) :=
      parse_blocks response page (completed_colleges (spider_progress s))
        entries (store s) in
    (set_store st s, YieldRequest <$> reqs, Ok ()).
Proof.
  revert s. induction entries as [|[index college] rest IH]; intros s.
  { simpl. by rewrite set_store_id. }
  simpl. rewrite bind_run. unfold parse_block at 1.
  rewrite bind_run. unfold alloc at 1.
  rewrite bind_run. unfold get_spider at 1. simpl.
  destruct (wanted _ (title_href college)) as [link|]; simpl.
  - rewrite IH. simpl.
    by destruct (parse_blocks _ _ _ rest _) as [st reqs].
  - rewrite IH. simpl.
    by destruct (parse_blocks _ _ _ rest _) as [st reqs].
Qed.

Lemma parse_run response s page :
  m_page (resp_meta response) = Some page →
  parse response s =
    if negb (is_valid_page response) then retry_page response s
    else
      let blocks := filter (λ c, has_col_md_12 c = true)
                      (college_card_box response) in
      let n := Z.of_nat (length blocks) in
      let s1 := set_colleges_found (colleges_found s + n) s in
      if bool_decide (n < 10) then
        let a := default 0 (page_attempts s !! page) in
        let s2 := set_page_attempts (<[page := a]> (page_attempts s)) s1 in
        if bool_decide (a < 3) then retry_page response s2
        else
          match failed_pages s with
          | PySet fp =>
              parse_loop response page blocks
                (set_failed_pages (PySet ({[Some page]} ∪ fp)) s2)
          | PyList _ =>
              (s2, [],
               Raise (AttributeError "'list' object has no attribute 'add'"))
          end
      else parse_loop response page blocks s1.
Proof.
  intros Hp. unfold parse. rewrite Hp. simpl. rewrite bind_run. simpl.
  destruct (is_valid_page response); simpl.
  2:{ unfold handle_invalid_page. rewrite Hp. simpl. rewrite bind_run. simpl.
      by destruct (retry_page response s) as [[s' out] r]. }
  rewrite bind_run. simpl. rewrite bind_run. simpl.
  case_bool_decide as Hn.
  - rewrite !bind_run. unfold read_page_attempts at 1. simpl.
    case_bool_decide as Ha.
    + rewrite bind_run. simpl.
      rewrite (retry_page_run _ _ _ Hp). simpl.
      by case_bool_decide.
    + rewrite bind_run. unfold failed_pages_add. rewrite bind_run. simpl.
      destruct (failed_pages s) as [fp|fp]; simpl.
      * rewrite bind_run, for_each_parse_block. unfold parse_loop. simpl.
        destruct (parse_blocks _ _ _ _ _) as [st reqs]. simpl.
        by rewrite app_nil_r.
      * reflexivity.
  - rewrite bind_run. simpl.
    rewrite bind_run, for_each_parse_block. unfold parse_loop. simpl.
    destruct (parse_blocks _ _ _ _ _) as [st reqs]. simpl.
    by rewrite app_nil_r.
Qed.

(** ** Counting *)

Lemma count_app {A} (p : A → bool) l1 l2 :
  count p (l1 ++ l2) = (count p l1 + count p l2)%nat.
Proof. induction l1 as [|x l1 IH]; simpl; [done|]. rewrite IH. lia. Qed.

Lemma count_delete {A} (p : A → bool) l i x :
  l !! i = Some x →
  count p l = ((if p x then 1 else 0) + count p (delete i l))%nat.
Proof.
  revert i. induction l as [|y l IH]; intros [|i]; simpl; try done.
  - by intros [= ->].
  - intros H. rewrite (IH i H). lia.
Qed.

Lemma count_none {A} (p : A → bool) l :
  (∀ x, x ∈ l → p x = false) → count p l = 0%nat.
Proof.
  induction l as [|x l IH]; intros H; simpl; [done|].
  rewrite (H x), IH; [done| |]; set_solver.
Qed.

Lemma count_pos {A} (p : A → bool) l :
  (0 < count p l)%nat → ∃ x, x ∈ l ∧ p x = true.
Proof.
  induction l as [|x l IH]; simpl; [lia|].
  destruct (p x) eqn:Hx; [exists x; set_solver|].
  intros H. destruct IH as (y & ? & ?); [lia|]. exists y. set_solver.
Qed.

Lemma elem_of_delete {A} (l : list A) i x : x ∈ delete i l → x ∈ l.
Proof. intros H. eapply elem_of_submseteq; [done|]. apply submseteq_delete. Qed.

(** ** The loop over the blocks of a listing page *)

Lemma wanted_Some completed college_link link :
  wanted completed college_link = Some link →
  college_link = Some link ∧ link ∉ completed.
Proof.
  unfold wanted. destruct college_link as [l|]; [|done].
  destruct (PyStr.truthy (Some l)); simpl; [|done].
  case_bool_decide; [|done]. by intros [= <-].
Qed.

Lemma extract_college_data_no_counter college :
  extract_college_data college !! "tabs_pending" = None.
Proof.
  unfold extract_college_data.
  destruct (extract_body college) as [d|e] eqn:Hbody.
  - by apply extract_body_no_counter in Hbody as [? _].
  - unfold extraction_error. by rewrite !lookup_insert_ne.
Qed.

Lemma parse_blocks_spec response page completed entries st st' reqs :
  parse_blocks response page completed entries st = (st', reqs) →
  st ⊆ st' ∧
  (∀ r, r ∈ reqs →
     ∃ index link l, r = detail_request response page index link l ∧
       st !! l = None ∧ is_Some (st' !! l) ∧ link ∉ completed) ∧
  (∀ l, st !! l = None → (count (is_detail_for l) reqs ≤ 1)%nat) ∧
  (∀ l d, st !! l = None → st' !! l = Some d → d !! "tabs_pending" = None).
Proof.
  revert st st' reqs.
  induction entries as [|[index college] rest IH]; intros st st' reqs.
  { intros [= <- <-]. split; [done|]. split; [|split].
    - intros r Hr. by apply elem_of_nil in Hr.
    - intros. simpl. lia.
    - congruence. }
  simpl.
  set (l0 := fresh (dom st)).
  set (st1 := <[l0 := extract_college_data college]> st).
  destruct (parse_blocks response page completed rest st1) as [st2 reqs2] eqn:E.
  intros [= <- <-].
  destruct (IH _ _ _ E) as (Hsub & Hreqs & Hcount & Hnew).
  assert (st !! l0 = None) as Hfresh
    by (apply not_elem_of_dom, is_fresh).
  assert (st ⊆ st1) as Hsub1 by by apply insert_subseteq.
  assert (st2 !! l0 = Some (extract_college_data college)) as Hl0.
  { eapply lookup_weaken; [|done]. apply lookup_insert_eq. }
  assert (∀ l, st1 !! l = None → st !! l = None ∧ l0 ≠ l) as Hnone.
  { intros l Hl. by apply lookup_insert_None in Hl. }
  assert (∀ r, r ∈ reqs2 → is_detail_for l0 r = false) as Hnot0.
  { intros r Hr. destruct (Hreqs r Hr) as (i & k & l & -> & Hl & _).
    apply Hnone in Hl as [_ Hne]. unfold is_detail_for. simpl.
    apply bool_decide_eq_false. congruence. }
  split; [by etrans|]. split; [|split].
  - intros r Hr.
    assert (r ∈ reqs2 ∨ ∃ link, wanted completed (title_href college) = Some link
              ∧ r = detail_request response page index link l0) as [Hin|Hhd].
    { destruct (wanted completed (title_href college)) as [link|];
        [|by left]. apply elem_of_cons in Hr as [->|?]; eauto. }
    + destruct (Hreqs r Hin) as (i & k & l & -> & Hl & ? & ?).
      exists i, k, l. by apply Hnone in Hl as [? _].
    + destruct Hhd as (link & Hw & ->). apply wanted_Some in Hw as [_ ?].
      exists index, link, l0. eauto.
  - intros l Hl.
    destruct (decide (l0 = l)) as [<-|Hne].
    + destruct (wanted completed (title_href college)); simpl;
        rewrite (count_none _ reqs2 Hnot0);
        try destruct (is_detail_for _ _); lia.
    + assert (count (is_detail_for l) reqs2 ≤ 1)%nat
        by (apply Hcount; unfold st1; by rewrite lookup_insert_ne).
      destruct (wanted completed (title_href college)); simpl; [|done].
      unfold is_detail_for at 1. simpl.
      rewrite bool_decide_eq_false_2 by congruence. done.
  - intros l d Hl Hd.
    destruct (decide (l0 = l)) as [<-|Hne].
    + rewrite Hl0 in Hd. injection Hd as <-.
      apply extract_college_data_no_counter.
    + eapply Hnew; [|done]. unfold st1. by rewrite lookup_insert_ne.
Qed.

(** ** What each callback does to the engine's invariant *)

Lemma yielded_requests_fmap reqs : yielded_requests (YieldRequest <$> reqs) = reqs.
Proof.
  unfold yielded_requests.
  induction reqs as [|r reqs IH]; [done|]. simpl. by f_equal.
Qed.

Lemma yielded_items_fmap reqs : yielded_items (YieldRequest <$> reqs) = [].
Proof.
  unfold yielded_items. induction reqs as [|r reqs IH]; [done|]. by simpl.
Qed.

Lemma yielded_requests_app out1 out2 :
  yielded_requests (out1 ++ out2) = yielded_requests out1 ++ yielded_requests out2.
Proof. apply omap_app. Qed.

Lemma yielded_items_app out1 out2 :
  yielded_items (out1 ++ out2) = yielded_items out1 ++ yielded_items out2.
Proof. apply omap_app. Qed.

Lemma handle_error_raises f s fp :
  failed_pages s = PySet fp →
  handle_error f s =
    (s, [], Raise (AttributeError "'set' object has no attribute 'append'")).
Proof.
  intros Hfp. unfold handle_error, failed_pages_append.
  rewrite !bind_run. unfold get_spider at 1. simpl. by rewrite Hfp.
Qed.

Lemma parse_effect response s s' out res :
  parse response s = (s', out, res) →
  spider_progress s' = spider_progress s ∧
  ((∃ fp, failed_pages s = PySet fp) → ∃ fp, failed_pages s' = PySet fp) ∧
  yielded_items out = [] ∧
  ∃ page entries,
    parse_blocks response page (completed_colleges (spider_progress s))
      entries (store s) = (store s', yielded_requests out).
Proof.
  destruct (m_page (resp_meta response)) as [page|] eqn:Hp.
  2:{ unfold parse. rewrite Hp. simpl. rewrite bind_run. simpl.
      intros [= <- <- <-]. repeat split; [done|]. by exists 0, []. }
  rewrite (parse_run _ _ _ Hp).
  assert (∀ s0, retry_page response s0 = (s', out, res) →
            spider_progress s' = spider_progress s0 ∧
            failed_pages s' = failed_pages s0 ∧ store s' = store s0 ∧
            out = []) as Hretry.
  { intros s0. rewrite (retry_page_run _ _ _ Hp). by intros [= <- <- <-]. }
  assert (∀ blocks s0, parse_loop response page blocks s0 = (s', out, res) →
            spider_progress s' = spider_progress s0 ∧
            failed_pages s' = failed_pages s0 ∧ yielded_items out = [] ∧
            parse_blocks response page (completed_colleges (spider_progress s0))
              (enumerate1 blocks) (store s0)
              = (store s', yielded_requests out)) as Hloop.
  { intros blocks s0. unfold parse_loop.
    destruct (parse_blocks _ _ _ _ _) as [st reqs]. intros [= <- <- <-].
    by rewrite yielded_items_fmap, yielded_requests_fmap. }
  destruct (is_valid_page response); simpl.
  2:{ intros (? & Hfp & Hst & ->)%Hretry. rewrite Hfp, Hst.
      repeat split; [done..|]. by exists page, []. }
  case_bool_decide.
  - case_bool_decide.
    + intros (? & Hfp & Hst & ->)%Hretry. simpl in *. rewrite Hfp, Hst.
      repeat split; [done..|]. by exists page, [].
    + destruct (failed_pages s) as [fp|fp] eqn:Hfps.
      * intros (? & Hfp & ? & ?)%Hloop. simpl in *. rewrite Hfp.
        repeat split; eauto.
      * intros [= <- <- <-]. simpl. repeat split; [by intros [? ?]|].
        by exists page, [].
  - intros (? & Hfp & ? & ?)%Hloop. simpl in *. rewrite Hfp.
    repeat split; eauto.
Qed.

Lemma tab_requests_spec response l tabs reqs r :
  tab_requests response l tabs = (reqs, r) →
  (∀ x, x ∈ reqs → ∃ t title, x = tab_request t l title) ∧
  (length reqs ≤ length tabs)%nat ∧
  (r = Ok () → length reqs = length tabs).
Proof.
  revert reqs r. induction tabs as [|tab rest IH]; intros reqs r; simpl.
  { intros [= <- <-]. split; [|done]. intros x Hx. by apply elem_of_nil in Hx. }
  destruct (tab_title_of tab) as [title|e].
  2:{ intros [= <- <-]. split; [|split; [simpl; lia|done]].
      intros x Hx. by apply elem_of_nil in Hx. }
  destruct (follow response (tab_href tab)) as [t|e].
  2:{ intros [= <- <-]. split; [|split; [simpl; lia|done]].
      intros x Hx. by apply elem_of_nil in Hx. }
  destruct (tab_requests response l rest) as [reqs' r'].
  intros [= <- <-]. destruct (IH _ _ eq_refl) as (Hall & Hle & Heq).
  split; [|split].
  - intros x [->|Hx]%elem_of_cons; eauto.
  - simpl. lia.
  - intros Hr. simpl. by rewrite Heq.
Qed.

Lemma tab_requests_short response l tabs reqs e :
  tab_requests response l tabs = (reqs, Raise e) →
  (length reqs < length tabs)%nat.
Proof.
  revert reqs. induction tabs as [|tab rest IH]; intros reqs; simpl; [done|].
  destruct (tab_title_of tab) as [title|e']; [|intros [= <- _]; simpl; lia].
  destruct (follow response (tab_href tab)) as [t|e'];
    [|intros [= <- _]; simpl; lia].
  destruct (tab_requests response l rest) as [reqs' r'].
  intros [= <- ->]. specialize (IH _ eq_refl). simpl. lia.
Qed.

Lemma count_tab_requests l l' reqs :
  (∀ x, x ∈ reqs → ∃ t title, x = tab_request t l title) →
  count (is_detail_for l') reqs = 0%nat ∧
  count (is_tab_for l') reqs = (if decide (l = l') then length reqs else 0%nat).
Proof.
  induction reqs as [|x reqs IH]; intros Hall.
  { by destruct (decide _). }
  destruct (Hall x) as (t & title & ->); [apply elem_of_cons; by left|].
  destruct IH as [IH1 IH2]; [intros; apply Hall, elem_of_cons; by right|].
  simpl. rewrite IH1, IH2. split; [done|].
  unfold is_tab_for. simpl.
  destruct (decide (l = l')) as [->|Hne].
  - by rewrite bool_decide_eq_true_2.
  - rewrite bool_decide_eq_false_2; [done|congruence].
Qed.

Lemma is_detail_for_true l r :
  is_detail_for l r = true →
  req_callback r = ParseCollegePage ∧ m_college_data (req_meta r) = Some l.
Proof.
  unfold is_detail_for. destruct (req_callback r); try done.
  by intros ?%bool_decide_eq_true.
Qed.

Lemma is_tab_for_true l r :
  is_tab_for l r = true →
  req_callback r = ParseTabContent ∧ m_college_data (req_meta r) = Some l.
Proof.
  unfold is_tab_for. destruct (req_callback r); try done.
  by intros ?%bool_decide_eq_true.
Qed.

Lemma obj_inv_mono l d q q' its its' :
  obj_inv l d q its →
  (count (is_detail_for l) q' ≤ count (is_detail_for l) q)%nat →
  (count (is_tab_for l) q' ≤ count (is_tab_for l) q)%nat →
  emitted l its' = emitted l its →
  obj_inv l d q' its'.
Proof.
  intros [H1 H2 H3 H4] Hd Ht He. split.
  - lia.
  - intros Hpos. assert (count (is_tab_for l) q = 0%nat) by (apply H2; lia). lia.
  - intros Hpos. destruct H3 as (m & n & ? & ? & ?); [lia|].
    exists m, n. repeat split; try done. lia.
  - done.
Qed.

Lemma unreferenced file e l :
  engine_inv file e → store (sp e) !! l = None →
  count (is_detail_for l) (queue e) = 0%nat ∧
  count (is_tab_for l) (queue e) = 0%nat ∧
  emitted l (items e) = 0%nat.
Proof.
  intros Inv Hl. split; [|split]; apply count_none.
  - intros x Hx. destruct (is_detail_for l x) eqn:E; [|done].
    apply is_detail_for_true in E as [_ E].
    destruct (ei_refs _ _ Inv x l Hx E) as [d Hd]. congruence.
  - intros x Hx. destruct (is_tab_for l x) eqn:E; [|done].
    apply is_tab_for_true in E as [_ E].
    destruct (ei_refs _ _ Inv x l Hx E) as [d Hd]. congruence.
  - intros [l' d'] Hx. simpl. apply bool_decide_eq_false. intros ->.
    destruct (ei_items _ _ Inv l d' Hx) as [d Hd]. congruence.
Qed.

Lemma emitted_app l its1 its2 :
  emitted l (its1 ++ its2) = (emitted l its1 + emitted l its2)%nat.
Proof. apply count_app. Qed.

(** A request leaves the queue and nothing else happens. *)
Lemma inv_drop file e i r errs :
  engine_inv file e → queue e !! i = Some r →
  engine_inv file {| sp := sp e; queue := delete i (queue e) ++ [];
                     items := items e ++ []; errors := errs |}.
Proof.
  intros Inv Hr. rewrite !app_nil_r.
  split; simpl; try by apply Inv.
  - intros x l Hx. apply (ei_refs _ _ Inv). by eapply elem_of_delete.
  - intros x Hx. apply (ei_links _ _ Inv). by eapply elem_of_delete.
  - intros l d Hl. eapply obj_inv_mono; [by apply (ei_objs _ _ Inv)|..|done];
      rewrite (count_delete _ _ _ _ Hr); lia.
Qed.

(** The callback of a request on the object at [l] rewrites that object,
    yields tab requests for it and emits it or not. *)
Lemma inv_update file e i r l dX reqs new_items errs :
  engine_inv file e → queue e !! i = Some r →
  is_Some (store (sp e) !! l) →
  (∀ x, x ∈ reqs → ∃ t title, x = tab_request t l title) →
  new_items = [] ∨ new_items = [(l, dX)] →
  obj_inv l dX (delete i (queue e) ++ reqs) (items e ++ new_items) →
  engine_inv file {| sp := upd l dX (sp e);
                     queue := delete i (queue e) ++ reqs;
                     items := items e ++ new_items; errors := errs |}.
Proof.
  intros Inv Hr Hl Hreqs Hitems Hobj.
  split; simpl; try by apply Inv.
  - intros x l' [Hx|Hx]%elem_of_app Hm.
    + apply lookup_insert_is_Some'. right.
      eapply (ei_refs _ _ Inv); [|done]. by eapply elem_of_delete.
    + destruct (Hreqs x Hx) as (t & title & ->). simpl in Hm.
      injection Hm as <-. rewrite lookup_insert_eq. eauto.
  - intros l' d' [Hx|Hx]%elem_of_app.
    + apply lookup_insert_is_Some'. right. by eapply (ei_items _ _ Inv).
    + destruct Hitems as [->| ->]; [by apply elem_of_nil in Hx|].
      apply list_elem_of_singleton in Hx as [= -> ->].
      rewrite lookup_insert_eq. eauto.
  - intros x [Hx|Hx]%elem_of_app Hcb.
    + eapply (ei_links _ _ Inv); [|done]. by eapply elem_of_delete.
    + by destruct (Hreqs x Hx) as (t & title & ->).
  - intros l' d'. destruct (decide (l = l')) as [<-|Hne].
    + rewrite lookup_insert_eq. by intros [= <-].
    + rewrite lookup_insert_ne by done. intros Hl'.
      destruct (count_tab_requests l l' reqs Hreqs) as [Hcd Hct].
      rewrite decide_False in Hct by done.
      eapply obj_inv_mono; [by apply (ei_objs _ _ Inv)|..].
      * rewrite count_app, Hcd, (count_delete _ _ _ _ Hr). lia.
      * rewrite count_app, Hct, (count_delete _ _ _ _ Hr). lia.
      * rewrite emitted_app. unfold emitted.
        destruct Hitems as [->| ->]; simpl; [lia|].
        rewrite bool_decide_eq_false_2 by done. lia.
Qed.

(** The listing callback adds new objects and one detail request for
    each of them at most. *)
Lemma inv_parse file e i r response s' out res errs :
  engine_inv file e → queue e !! i = Some r →
  req_callback r = Parse →
  parse response (sp e) = (s', out, res) →
  engine_inv file {| sp := s';
                     queue := delete i (queue e) ++ yielded_requests out;
                     items := items e ++ yielded_items out; errors := errs |}.
Proof.
  intros Inv Hr Hcb Hparse.
  destruct (parse_effect _ _ _ _ _ Hparse)
    as (Hprog & Hset & -> & page & entries & Hblocks).
  destruct (parse_blocks_spec _ _ _ _ _ _ _ Hblocks)
    as (Hsub & Hreqs & Hcount & Hnew).
  rewrite app_nil_r.
  assert (∀ l, count (is_tab_for l) (yielded_requests out) = 0%nat) as Htab.
  { intros l. apply count_none. intros x Hx.
    by destruct (Hreqs x Hx) as (? & ? & ? & -> & _). }
  assert (∀ l, is_detail_for l r = false ∧ is_tab_for l r = false) as Hr0.
  { intros l. unfold is_detail_for, is_tab_for. by rewrite Hcb. }
  split; simpl.
  - apply Hset, Inv.
  - rewrite Hprog. apply Inv.
  - intros x l [Hx|Hx]%elem_of_app Hm.
    + eapply lookup_weaken_is_Some; [|done].
      eapply (ei_refs _ _ Inv); [|done]. by eapply elem_of_delete.
    + destruct (Hreqs x Hx) as (? & ? & l' & -> & _ & ? & _).
      simpl in Hm. by injection Hm as <-.
  - intros l d Hx. eapply lookup_weaken_is_Some; [|done].
    by eapply (ei_items _ _ Inv).
  - intros x [Hx|Hx]%elem_of_app Hx'.
    + eapply (ei_links _ _ Inv); [|done]. by eapply elem_of_delete.
    + destruct (Hreqs x Hx) as (? & link & ? & -> & _ & _ & Hlink).
      exists (resp_url response), link. repeat split.
      by rewrite <-(ei_progress _ _ Inv).
  - intros l d Hl. destruct (store (sp e) !! l) as [d0|] eqn:Hold.
    + assert (d = d0) as ->.
      { apply (lookup_weaken _ _ _ _ Hold) in Hsub. congruence. }
      assert (count (is_detail_for l) (yielded_requests out) = 0%nat) as Hdet.
      { apply count_none. intros x Hx.
        destruct (Hreqs x Hx) as (? & ? & l' & -> & Hl' & _).
        unfold is_detail_for. simpl. apply bool_decide_eq_false.
        intros [= ->]. congruence. }
      eapply obj_inv_mono; [by apply (ei_objs _ _ Inv)|..|done].
      * rewrite count_app, Hdet, (count_delete _ _ _ _ Hr). lia.
      * rewrite count_app, Htab, (count_delete _ _ _ _ Hr). lia.
    + destruct (unreferenced _ _ _ Inv Hold) as (Hd0 & Ht0 & He0).
      rewrite (count_delete _ _ _ _ Hr) in Hd0.
      rewrite (count_delete _ _ _ _ Hr) in Ht0.
      destruct (Hr0 l) as [Hrd Hrt]. rewrite Hrd in Hd0. rewrite Hrt in Ht0.
      specialize (Hcount l Hold). specialize (Hnew l d Hold Hl).
      split; rewrite ?count_app, ?Htab, ?He0.
      * simpl in *. lia.
      * simpl in *. lia.
      * simpl in *. lia.
      * intros n. by rewrite Hnew.
Qed.

Lemma detail_fields_counter response d :
  detail_fields response d !! "tabs_pending" = d !! "tabs_pending".
Proof. unfold detail_fields. by rewrite !lookup_insert_ne. Qed.

Lemma detail_fields_tabs response d :
  detail_fields response d !! "tabs" = Some (VDict ∅).
Proof. unfold detail_fields. by rewrite lookup_insert_eq. Qed.

(** The detail callback opens the counter of its object. *)
Lemma inv_detail file e i r doc s' out res errs :
  engine_inv file e → queue e !! i = Some r →
  req_callback r = ParseCollegePage →
  parse_college_page (with_meta (req_meta r) doc) (sp e) = (s', out, res) →
  engine_inv file {| sp := s';
                     queue := delete i (queue e) ++ yielded_requests out;
                     items := items e ++ yielded_items out; errors := errs |}.
Proof.
  intros Inv Hr Hcb.
  destruct (m_college_data (req_meta r)) as [l|] eqn:Hl.
  2:{ unfold parse_college_page. simpl. rewrite Hl. simpl.
      rewrite bind_run. simpl. intros [= <- <- <-]. by eapply inv_drop. }
  destruct (ei_refs _ _ Inv r l) as [d Hd];
    [by eapply list_elem_of_lookup_2|done|].
  rewrite (parse_college_page_run _ _ l d) by done. simpl.
  set (response := with_meta (req_meta r) doc).
  pose proof (ei_objs _ _ Inv l d Hd) as [Honce Hexcl _ Hnonneg].
  rewrite (count_delete _ _ _ _ Hr) in Honce, Hexcl.
  assert (is_detail_for l r = true) as Hrd.
  { unfold is_detail_for. rewrite Hcb. by apply bool_decide_eq_true. }
  assert (is_tab_for l r = false) as Hrt.
  { unfold is_tab_for. by rewrite Hcb. }
  rewrite Hrd in Honce, Hexcl.
  assert (count (is_tab_for l) (delete i (queue e)) = 0%nat) as Htab0.
  { pose proof (Hexcl ltac:(lia)) as H0.
    rewrite (count_delete _ _ _ _ Hr), Hrt in H0. lia. }
  assert (count (is_detail_for l) (delete i (queue e)) = 0%nat) as Hdet0 by lia.
  assert (emitted l (items e) = 0%nat) as Hemit0 by lia.
  destruct (tabs_to_fetch (nav_tabs doc)) as [tabs|err].
  2:{ intros [= <- <- <-]. eapply inv_update; eauto.
      - intros x Hx. by apply elem_of_nil in Hx.
      - simpl. rewrite !app_nil_r. split; rewrite ?Htab0, ?Hdet0, ?Hemit0.
        + lia.
        + done.
        + lia.
        + intros n. rewrite detail_fields_counter. apply Hnonneg. }
  destruct (tab_requests response l tabs) as [reqs rr] eqn:Htr.
  destruct (tab_requests_spec _ _ _ _ _ Htr) as (Hall & Hle & Heq).
  destruct (count_tab_requests l l reqs Hall) as [Hcd Hct].
  rewrite decide_True in Hct by done.
  set (d1 := <["tabs_pending" := VInt (Z.of_nat (length tabs))]>
               (detail_fields response d)).
  assert (∀ its, (emitted l its ≤ 1)%nat → (its = [] ∨ tabs = []) →
            obj_inv l d1 (delete i (queue e) ++ reqs) (items e ++ its)) as Hobj.
  { intros its Hits Hcase.
    split; rewrite ?count_app, ?emitted_app, ?Htab0, ?Hdet0, ?Hemit0, ?Hcd, ?Hct.
    - simpl. lia.
    - simpl. intros Hpos. destruct Hcase as [->| ->].
      + unfold emitted in Hpos. simpl in Hpos. lia.
      + simpl in Hle. lia.
    - intros _. exists ∅, (Z.of_nat (length tabs)). unfold d1.
      rewrite lookup_insert_eq, lookup_insert_ne, detail_fields_tabs by done.
      repeat split. simpl. lia.
    - intros n. unfold d1. rewrite lookup_insert_eq. intros [= <-]. lia. }
  assert (emitted l [(l, d1)] ≤ 1)%nat as Hone.
  { unfold emitted. simpl. destruct (bool_decide _); lia. }
  assert (emitted l [] ≤ 1)%nat as Hzero by (unfold emitted; simpl; lia).
  destruct rr as [[]|err]; intros [= <- <- <-].
  - rewrite yielded_requests_app, yielded_items_app.
    rewrite yielded_requests_fmap, yielded_items_fmap.
    destruct tabs as [|tab rest]; simpl; rewrite ?app_nil_r.
    + apply (inv_update _ _ _ r l d1 reqs [(l, d1)]); auto.
    + replace (items e) with (items e ++ []) at 1 by apply app_nil_r.
      apply (inv_update _ _ _ r l d1 reqs []); auto.
  - rewrite yielded_requests_fmap, yielded_items_fmap.
    apply (inv_update _ _ _ r l d1 reqs []); auto.
Qed.

(** The tab callback counts its object down and emits it at zero. *)
Lemma inv_tab file e i r doc s' out res errs :
  engine_inv file e → queue e !! i = Some r →
  req_callback r = ParseTabContent →
  parse_tab_content (with_meta (req_meta r) doc) (sp e) = (s', out, res) →
  engine_inv file {| sp := s';
                     queue := delete i (queue e) ++ yielded_requests out;
                     items := items e ++ yielded_items out; errors := errs |}.
Proof.
  intros Inv Hr Hcb.
  destruct (m_college_data (req_meta r)) as [l|] eqn:Hl.
  2:{ unfold parse_tab_content. simpl. rewrite Hl. simpl.
      rewrite bind_run. simpl. intros [= <- <- <-]. by eapply inv_drop. }
  destruct (m_tab_title (req_meta r)) as [t|] eqn:Ht.
  2:{ unfold parse_tab_content. simpl. rewrite Hl, Ht. simpl.
      rewrite bind_run. simpl.
      intros [= <- <- <-]. by eapply inv_drop. }
  destruct (ei_refs _ _ Inv r l) as [d Hd];
    [by eapply list_elem_of_lookup_2|done|].
  pose proof (ei_objs _ _ Inv l d Hd) as [Honce Hexcl Hopen Hnonneg].
  assert (is_tab_for l r = true) as Hrt.
  { unfold is_tab_for. rewrite Hcb. by apply bool_decide_eq_true. }
  assert (is_detail_for l r = false) as Hrd.
  { unfold is_detail_for. by rewrite Hcb. }
  rewrite (count_delete (is_tab_for l) _ _ _ Hr), Hrt in Hexcl, Hopen.
  rewrite (count_delete (is_detail_for l) _ _ _ Hr), Hrd in Honce.
  destruct Hopen as (m & n & Htabs & Hpend & Hn); [lia|].
  assert (count (is_detail_for l) (delete i (queue e)) = 0%nat
          ∧ emitted l (items e) = 0%nat) as [Hdet0 Hemit0].
  { destruct (decide (0 < count (is_detail_for l) (queue e)
                        + emitted l (items e))%nat) as [Hpos|Hzero].
    - apply Hexcl in Hpos. lia.
    - rewrite (count_delete _ _ _ _ Hr), Hrd in Hzero. lia. }
  rewrite (parse_tab_content_run _ _ l t d m n) by done. simpl.
  set (d1 := <["tabs" := _]> d).
  case_bool_decide as Hn1; intros [= <- <- <-]; simpl.
  - apply (inv_update _ _ _ r l _ [] [(l, delete "tabs_pending" d1)]); auto.
    { intros x Hx. by apply elem_of_nil in Hx. }
    rewrite app_nil_r. split; rewrite ?emitted_app, ?Hdet0, ?Hemit0.
    + unfold emitted. simpl. destruct (bool_decide _); lia.
    + intros _. lia.
    + intros Hpos. lia.
    + intros k. by rewrite lookup_delete_eq.
  - apply (inv_update _ _ _ r l _ [] []); auto.
    { intros x Hx. by apply elem_of_nil in Hx. }
    rewrite !app_nil_r. split; rewrite ?Hdet0, ?Hemit0.
    + lia.
    + intros Hpos. lia.
    + intros Hpos. exists (<[tab_key_of t := tab_data_of t (with_meta (req_meta r) doc)]> m), (n - 1).
      rewrite lookup_insert_eq, lookup_insert_ne by done. unfold d1.
      rewrite lookup_insert_eq. repeat split. lia.
    + intros k. rewrite lookup_insert_eq. intros [= <-]. lia.
Qed.

(** ** The invariant holds throughout every run *)

Lemma step_inv file e i d e' :
  engine_inv file e → step e i d = Some e' → engine_inv file e'.
Proof.
  intros Inv. unfold step.
  destruct (queue e !! i) as [r|] eqn:Hr; [|done].
  destruct (dispatch r d (sp e)) as [[s' out] res] eqn:Hd.
  intros [= <-]. unfold dispatch in Hd. destruct d as [doc|reason].
  - unfold run_callback in Hd. destruct (req_callback r) eqn:Hcb.
    + rewrite bind_run in Hd.
      destruct (parse _ (sp e)) as [[s1 out1] [ret|err]] eqn:Hp;
        simpl in Hd; injection Hd as <- <- <-;
        rewrite ?app_nil_r; by eapply inv_parse.
    + by eapply inv_detail.
    + by eapply inv_tab.
  - destruct (req_errback r) as [[]|].
    + destruct (ei_set _ _ Inv) as [fp Hfp].
      rewrite (handle_error_raises _ _ _ Hfp) in Hd.
      injection Hd as <- <- <-. by eapply inv_drop.
    + injection Hd as <- <- <-. by eapply inv_drop.
Qed.

Lemma start_inv file : engine_inv file (start file).
Proof.
  assert (∀ r, r ∈ start_requests →
            req_callback r = Parse ∧ m_college_data (req_meta r) = None) as Hq.
  { intros r (page & -> & _)%list_elem_of_fmap. done. }
  split; simpl.
  - by eexists.
  - done.
  - intros r l Hr Hl. destruct (Hq r Hr) as [_ H]. congruence.
  - intros l d Hx. by apply elem_of_nil in Hx.
  - intros r Hr Hcb. destruct (Hq r Hr) as [H _]. congruence.
  - intros l d Hl. by rewrite lookup_empty in Hl.
Qed.

Lemma run_inv file e events e' :
  engine_inv file e → run e events = Some e' → engine_inv file e'.
Proof.
  revert e. induction events as [|[i d] rest IH]; intros e Inv; simpl.
  { by intros [= <-]. }
  destruct (step e i d) as [e1|] eqn:Hstep; [|done].
  apply IH. by eapply step_inv.
Qed.

(** ** Emission and the counter over a whole run *)

(** C2: in every state a run reaches, no record was emitted more than
    once and no record has a negative [tabs_pending]; and when the
    response to a scheduled detail request lists no tab to fetch, that
    callback emits the record at once. *)
Theorem record_emitted_at_most_once (file : option progress)
    (events : list (nat * download)) (e : engine) :
  run (start file) events = Some e →
  (∀ l, (emitted l (items e) ≤ 1)%nat) ∧
  (∀ l d n, store (sp e) !! l = Some d →
            d !! "tabs_pending" = Some (VInt n) → 0 ≤ n) ∧
  (∀ i r l doc,
     queue e !! i = Some r → req_callback r = ParseCollegePage →
     m_college_data (req_meta r) = Some l →
     tabs_to_fetch (nav_tabs doc) = Ok [] →
     ∃ e' d, step e i (Fetched doc) = Some e' ∧
             items e' = items e ++ [(l, d)] ∧
             store (sp e') !! l = Some d).
Proof.
  intros Hrun.
  pose proof (run_inv _ _ _ _ (start_inv file) Hrun) as Inv.
  split; [|split].
  - intros l. destruct (store (sp e) !! l) as [d|] eqn:Hl.
    + pose proof (oi_once _ _ _ _ (ei_objs _ _ Inv l d Hl)). lia.
    + destruct (unreferenced _ _ _ Inv Hl) as (_ & _ & ->). lia.
  - intros l d n Hl. apply (oi_nonneg _ _ _ _ (ei_objs _ _ Inv l d Hl)).
  - intros i r l doc Hr Hcb Hl Htabs.
    destruct (ei_refs _ _ Inv r l) as [d Hd];
      [by eapply list_elem_of_lookup_2|done|].
    unfold step. rewrite Hr. unfold dispatch, run_callback. rewrite Hcb.
    rewrite (parse_college_page_run _ _ l d) by done. simpl.
    rewrite Htabs. simpl.
    eexists _, _. split; [reflexivity|]. simpl.
    split; [done|]. apply lookup_insert_eq.
Qed.

(** ** The progress ledger *)

(** C3: with a restored ledger whose completed set contains [X], the
    listing callback yields no request for a block whose link is [X],
    and in no state of the run is a detail request for [X] scheduled. *)
Theorem completed_college_never_fetched (ledger : progress) (X : string)
    (events : list (nat * download)) (e : engine) :
  X ∈ completed_colleges ledger →
  run (start (Some ledger)) events = Some e →
  (∀ response r,
     r ∈ yielded_requests (parse response (sp e)).1.2 →
     m_college_link (req_meta r) ≠ Some X
     ∧ ∀ base, req_target r ≠ Follow base X) ∧
  (∀ r, r ∈ queue e → req_callback r = ParseCollegePage →
        m_college_link (req_meta r) ≠ Some X
        ∧ ∀ base, req_target r ≠ Follow base X).
Proof.
  intros HX Hrun.
  pose proof (run_inv _ _ _ _ (start_inv _) Hrun) as Inv.
  split.
  - intros response r.
    destruct (parse response (sp e)) as [[s' out] res] eqn:Hparse. simpl.
    destruct (parse_effect _ _ _ _ _ Hparse)
      as (_ & _ & _ & page & entries & Hblocks).
    destruct (parse_blocks_spec _ _ _ _ _ _ _ Hblocks) as (_ & Hreqs & _).
    intros Hr. destruct (Hreqs r Hr) as (? & link & ? & -> & _ & _ & Hlink).
    rewrite (ei_progress _ _ Inv) in Hlink. simpl in *.
    split; [intros [= ->]|intros base [= _ ->]]; done.
  - intros r Hr Hcb.
    destruct (ei_links _ _ Inv r Hr Hcb) as (base & link & Ht & Hm & Hlink).
    simpl in Hlink. rewrite Ht, Hm.
    split; [intros [= ->]|intros base' [= _ ->]]; done.
Qed.

(** ** The error callback *)

(** C9 fails on the code: in every state a run reaches, [handle_error]
    raises [AttributeError] at [self.failed_pages.append(page)], for
    every failure, before it records anything or yields a retry. *)
Theorem handle_error_always_raises (file : option progress)
    (events : list (nat * download)) (e : engine) (f : failure) :
  run (start file) events = Some e →
  handle_error f (sp e) =
    (sp e, [], Raise (AttributeError "'set' object has no attribute 'append'")).
Proof.
  intros Hrun.
  destruct (ei_set _ _ (run_inv _ _ _ _ (start_inv file) Hrun)) as [fp Hfp].
  by eapply handle_error_raises.
Qed.

(** ** The answers to the tab requests of one item *)

Lemma upd_id l d s : store s !! l = Some d → upd l d s = s.
Proof. intros H. unfold upd. rewrite insert_id by done. apply set_store_id. Qed.

Lemma counter_collapse (d : dict) mf m1 v w :
  <["tabs_pending" := w]> (<["tabs" := mf]>
    (<["tabs_pending" := v]> (<["tabs" := m1]> d)))
  = <["tabs_pending" := w]> (<["tabs" := mf]> d).
Proof.
  apply map_eq. intros k.
  destruct (decide (k = "tabs_pending")), (decide (k = "tabs"));
    by simplify_map_eq.
Qed.

Lemma counter_collapse_delete (d : dict) mf m1 v :
  delete "tabs_pending" (<["tabs" := mf]>
    (<["tabs_pending" := v]> (<["tabs" := m1]> d)))
  = delete "tabs_pending" (<["tabs" := mf]> d).
Proof.
  apply map_eq. intros k.
  destruct (decide (k = "tabs_pending")), (decide (k = "tabs"));
    by simplify_map_eq.
Qed.

Lemma deliver_all_failed l evs s m :
  Forall (λ ev, ∃ t title, ev.1 = tab_request t l title) evs →
  count is_fetched evs = 0%nat →
  deliver_all s evs = (s, []) ∧ merged m evs = m.
Proof.
  induction 1 as [|[r dl] rest (t & title & Hr) _ IH]; [done|].
  simpl in Hr. subst r. unfold is_fetched at 1. simpl.
  destruct dl as [doc|reason]; simpl; [lia|].
  intros Hc. destruct (IH Hc) as [-> ->]. done.
Qed.

Lemma deliver_all_run l evs : ∀ s d m n,
  Forall (λ ev, ∃ t title, ev.1 = tab_request t l title) evs →
  store s !! l = Some d →
  d !! "tabs" = Some (VDict m) →
  d !! "tabs_pending" = Some (VInt n) →
  0 < n → Z.of_nat (count is_fetched evs) ≤ n →
  deliver_all s evs =
    let d' := <["tabs" := VDict (merged m evs)]> d in
    if bool_decide (Z.of_nat (count is_fetched evs) = n)
    then (upd l (delete "tabs_pending" d') s,
          [YieldItem l (delete "tabs_pending" d')])
    else (upd l (<["tabs_pending" :=
                     VInt (n - Z.of_nat (count is_fetched evs))]> d') s, []).
Proof.
  induction evs as [|[r dl] rest IH]; intros s d m n Hall Hd Htabs Hpend Hn Hle.
  { simpl. rewrite bool_decide_eq_false_2 by lia.
    rewrite Z.sub_0_r, (insert_id d "tabs"), (insert_id d "tabs_pending") by done.
    by rewrite upd_id. }
  apply Forall_cons in Hall as [(t & title & Hr) Hall].
  simpl in Hr. subst r.
  destruct dl as [doc|reason]; simpl in Hle |- *;
    unfold is_fetched in Hle |- *; simpl in Hle |- *;
    fold is_fetched in Hle |- *.
  2:{ unfold deliver. simpl. rewrite (IH s d m n) by done. simpl.
      by case_bool_decide. }
  unfold deliver. simpl.
  rewrite (parse_tab_content_run _ _ l title d m n) by done. simpl.
  unfold key_of, section_of, title_of. simpl.
  set (m1 := <[tab_key_of title := _]> m).
  case_bool_decide as Hn1.
  - subst n.
    destruct (deliver_all_failed l rest
                (upd l (delete "tabs_pending" (<["tabs" := VDict m1]> d)) s) m1)
      as [-> ->]; [done|lia|].
    rewrite bool_decide_eq_true_2 by lia. done.
  - rewrite (IH _ (<["tabs_pending" := VInt (n - 1)]> (<["tabs" := VDict m1]> d))
               m1 (n - 1)); try done; try lia.
    + simpl. rewrite !upd_upd, counter_collapse, counter_collapse_delete.
      replace (n - 1 - Z.of_nat (count is_fetched rest))
        with (n - Z.of_nat (S (count is_fetched rest))) by lia.
      repeat case_bool_decide; try lia; done.
    + apply store_upd.
    + by rewrite lookup_insert_ne, lookup_insert_eq.
    + by rewrite lookup_insert_eq.
Qed.

Lemma count_perm {A} (p : A → bool) l1 l2 :
  l1 ≡ₚ l2 → count p l1 = count p l2.
Proof. induction 1; simpl; lia. Qed.

Lemma count_fetched_failed evs :
  (count is_fetched evs + count is_failed evs)%nat = length evs.
Proof.
  induction evs as [|ev evs IH]; [done|]. simpl. unfold is_failed at 1.
  destruct (is_fetched ev); simpl; lia.
Qed.

Lemma merged_perm evs evs' :
  evs ≡ₚ evs' → NoDup (fetched_keys evs) → ∀ m, merged m evs = merged m evs'.
Proof.
  induction 1 as [|[r dl] evs evs' Hp IH|[r1 dl1] [r2 dl2] evs|evs1 evs2 evs3 Hp1 IH1 Hp2 IH2];
    intros Hnd m.
  - done.
  - simpl. destruct dl; simpl in Hnd; apply IH.
    + by apply NoDup_cons in Hnd as [_ ?].
    + done.
  - simpl. destruct dl1 as [doc1|], dl2 as [doc2|]; try done.
    simpl in Hnd. apply NoDup_cons in Hnd as [Hne _].
    rewrite insert_insert_ne; [done|]. intros Heq. apply Hne. rewrite Heq. left.
  - rewrite IH1 by done. apply IH2.
    unfold fetched_keys in *. by rewrite <-Hp1.
Qed.

(** ** Tab responses in any order *)

Lemma tab_requests_all response l tabs reqs r :
  tab_requests response l tabs = (reqs, r) →
  Forall (λ x, ∃ t title, x = tab_request t l title) reqs.
Proof.
  intros H. apply Forall_forall. by apply (tab_requests_spec _ _ _ _ _ H).
Qed.

(** After a detail callback that ended normally: the object, the tab
    requests, and no item unless there is no tab. *)
Lemma parse_college_page_ok response s l d s1 out :
  m_college_data (resp_meta response) = Some l →
  store s !! l = Some d →
  parse_college_page response s = (s1, out, Ok ()) →
  let reqs := yielded_requests out in
  let d1 := <["tabs_pending" := VInt (Z.of_nat (length reqs))]>
              (detail_fields response d) in
  s1 = upd l d1 s ∧
  Forall (λ x, ∃ t title, x = tab_request t l title) reqs ∧
  yielded_items out = (if reqs is [] then [(l, d1)] else []).
Proof.
  intros Hl Hd. rewrite (parse_college_page_run _ _ l d) by done. simpl.
  destruct (tabs_to_fetch (nav_tabs response)) as [tabs|err]; [|done].
  destruct (tab_requests response l tabs) as [reqs rr] eqn:Htr.
  destruct (tab_requests_spec _ _ _ _ _ Htr) as (_ & _ & Hlen).
  pose proof (tab_requests_all _ _ _ _ _ Htr) as Hall.
  destruct rr as [[]|err]; [|done]. intros [= <- <-].
  rewrite yielded_requests_app, yielded_items_app.
  rewrite yielded_requests_fmap, yielded_items_fmap.
  specialize (Hlen eq_refl).
  destruct tabs as [|tab rest]; simpl; rewrite app_nil_r.
  - destruct reqs; [done|discriminate].
  - rewrite Hlen. destruct reqs; [discriminate|done].
Qed.

(** C7, amended: when the three tab requests of an item have pairwise
    distinct keys, answering them in any order emits exactly one record;
    it holds the three sections under their keys and does not depend on
    the order. *)
Theorem three_tabs_any_order (response a b c : response) (s s1 : spider)
    (l : loc) (d : dict) (out : list output) (r1 r2 r3 : request)
    (order : list (request * download)) :
  m_college_data (resp_meta response) = Some l →
  store s !! l = Some d →
  parse_college_page response s = (s1, out, Ok ()) →
  yielded_requests out = [r1; r2; r3] →
  NoDup [key_of r1; key_of r2; key_of r3] →
  order ≡ₚ [(r1, Fetched a); (r2, Fetched b); (r3, Fetched c)] →
  let tabs := <[key_of r3 := section_of r3 c]>
             (<[key_of r2 := section_of r2 b]>
             (<[key_of r1 := section_of r1 a]> ∅)) in
  yielded_items out ++ yielded_items (deliver_all s1 order).2
    = [(l, delete "tabs_pending"
             (<["tabs" := VDict tabs]> (detail_fields response d)))] ∧
  tabs !! key_of r1 = Some (section_of r1 a) ∧
  tabs !! key_of r2 = Some (section_of r2 b) ∧
  tabs !! key_of r3 = Some (section_of r3 c).
Proof.
  intros Hl Hd Hpage Hreqs Hnd Hperm tabs.
  destruct (parse_college_page_ok _ _ _ _ _ _ Hl Hd Hpage) as (-> & Hall & ->).
  rewrite Hreqs in Hall |- *. simpl.
  set (canon := [(r1, Fetched a); (r2, Fetched b); (r3, Fetched c)]) in *.
  assert (Forall (λ ev : request * download,
                    ∃ t title, ev.1 = tab_request t l title) order) as Hord.
  { rewrite Hperm. unfold canon.
    apply Forall_cons in Hall as [H1 Hall].
    apply Forall_cons in Hall as [H2 Hall].
    apply Forall_cons in Hall as [H3 _].
    by repeat constructor. }
  assert (count is_fetched order = 3%nat) as Hcount
    by by rewrite (count_perm _ _ _ Hperm).
  assert (merged ∅ order = tabs) as Hmerged.
  { symmetry. apply (merged_perm canon order); [done|]. by simpl. }
  rewrite (deliver_all_run l order _ _ ∅ 3 Hord (store_upd _ _ _)); cycle 1.
  { by rewrite lookup_insert_ne, detail_fields_tabs. }
  { by rewrite lookup_insert_eq. }
  { lia. }
  { lia. }
  simpl. rewrite Hcount, Hmerged. simpl.
  split.
  - do 2 f_equal. apply map_eq. intros k.
    destruct (decide (k = "tabs_pending")), (decide (k = "tabs"));
      by simplify_map_eq.
  - apply NoDup_cons in Hnd as [Hn1 Hnd]. apply NoDup_cons in Hnd as [Hn2 _].
    apply not_elem_of_cons in Hn1 as [? Hn1].
    apply not_elem_of_cons in Hn1 as [? _].
    apply not_elem_of_cons in Hn2 as [? _].
    unfold tabs. by simplify_map_eq.
Qed.

(** ** A tab request that fails for good *)

(** C1, amended: a tab request has no errback, so its failure runs no
    callback, and a detail callback that raises in its loop, at a link
    without [href], has counted tabs it did not request.  When every tab
    request the callback yielded is answered once, by a response or by
    a final failure, [tabs_pending] ends at the number of failed
    requests plus the number of counted tabs that were never requested,
    which is zero exactly when the callback ended normally.  When that
    sum is zero the record is emitted exactly once, without the counter;
    otherwise it is never emitted. *)
Theorem failed_tab_keeps_item_pending (response : response) (s s1 : spider)
    (l : loc) (d : dict) (out : list output) (res : result unit)
    (evs : list (request * download)) :
  m_college_data (resp_meta response) = Some l →
  store s !! l = Some d →
  parse_college_page response s = (s1, out, res) →
  yielded_requests out ≠ [] →
  evs.*1 ≡ₚ yielded_requests out →
  let failures := count is_failed evs in
  let unsent :=
    (counted_tabs response - length (yielded_requests out))%nat in
  let s2 := (deliver_all s1 evs).1 in
  let emitted_items :=
    yielded_items out ++ yielded_items (deliver_all s1 evs).2 in
  (res = Ok () ↔ unsent = 0%nat) ∧
  if decide ((failures + unsent)%nat = 0%nat)
  then ∃ rec, emitted_items = [(l, rec)] ∧ rec !! "tabs_pending" = None
  else emitted_items = [] ∧
       ∃ d2, store s2 !! l = Some d2 ∧
             d2 !! "tabs_pending" = Some (VInt (Z.of_nat (failures + unsent))).
Proof.
  intros Hl Hd Hpage Hne Hperm.
  rewrite (parse_college_page_run _ _ l d) in Hpage by done.
  unfold counted_tabs. cbv zeta in Hpage.
  destruct (tabs_to_fetch (nav_tabs response)) as [tabs|err];
    [|by injection Hpage as <- <- <-].
  destruct (tab_requests response l tabs) as [reqs rr] eqn:Htr.
  destruct (tab_requests_spec _ _ _ _ _ Htr) as (_ & Hle & Hlen).
  pose proof (tab_requests_all _ _ _ _ _ Htr) as Hall.
  assert (yielded_requests out = reqs ∧ yielded_items out = [] ∧ res = rr
          ∧ s1 = upd l (<["tabs_pending" := VInt (Z.of_nat (length tabs))]>
                          (detail_fields response d)) s)
    as (Hreqs & Hitems & -> & ->).
  { destruct rr as [[]|err]; injection Hpage as <- <- <-.
    - rewrite yielded_requests_app, yielded_items_app,
        yielded_requests_fmap, yielded_items_fmap in *.
      destruct tabs as [|tab rest]; simpl in *.
      + destruct reqs; [|simpl in Hle; lia]. by destruct Hne.
      + by rewrite app_nil_r.
    - by rewrite yielded_requests_fmap, yielded_items_fmap. }
  rewrite Hreqs in *. rewrite Hitems. clear Hpage Hitems Hreqs.
  assert (length evs = length reqs) as Hlen'.
  { by rewrite <-Hperm, length_fmap. }
  assert (Forall (λ ev : request * download,
                    ∃ t title, ev.1 = tab_request t l title) evs) as Hevs.
  { apply Forall_forall. intros ev Hev.
    apply (proj1 (Forall_forall _ _) Hall (ev.1)).
    rewrite <-Hperm. by apply list_elem_of_fmap_2. }
  pose proof (count_fetched_failed evs) as Hsum.
  assert (0 < length reqs)%nat as Hpos.
  { destruct reqs; [done|simpl; lia]. }
  split.
  { split.
    - intros Hr. rewrite (Hlen Hr). lia.
    - destruct rr as [[]|err]; [done|].
      pose proof (tab_requests_short _ _ _ _ _ Htr). lia. }
  rewrite (deliver_all_run l evs _ _ ∅ (Z.of_nat (length tabs)) Hevs
             (store_upd _ _ _)); cycle 1.
  { by rewrite lookup_insert_ne, detail_fields_tabs. }
  { by rewrite lookup_insert_eq. }
  { lia. }
  { lia. }
  cbv zeta.
  destruct (decide ((count is_failed evs + (length tabs - length reqs))%nat
                    = 0%nat)) as [Hz|Hnz].
  - rewrite bool_decide_eq_true_2 by lia. simpl.
    eexists. split; [done|]. apply lookup_delete_eq.
  - rewrite bool_decide_eq_false_2 by lia. simpl.
    split; [done|]. eexists. split; [apply lookup_insert_eq|].
    rewrite lookup_insert_eq. do 2 f_equal. lia.
Qed.

(** * The properties on sample runs *)

(** C5 on a document that has both markers and exactly 1000 bytes. *)
Lemma is_valid_page_rejects_short :
  college_card_box (listing_page ten_cards 1000) ≠ [] ∧
  container (listing_page ten_cards 1000) ≠ [] ∧
  is_valid_page (listing_page ten_cards 1000) = false.
Proof.
  split; [done|]. split; [done|].
  apply (is_valid_page_rejects (listing_page ten_cards 1000)).
  right; right. simpl. lia.
Defined.

(** C2 on the sample run. *)
Lemma record_emitted_at_most_once_sample :
  run (start None) sample_run = Some sample_final ∧
  ((∀ l, (emitted l (items sample_final) ≤ 1)%nat) ∧
   (∀ l d n, store (sp sample_final) !! l = Some d →
             d !! "tabs_pending" = Some (VInt n) → 0 ≤ n) ∧
   (∀ i r l doc,
      queue sample_final !! i = Some r → req_callback r = ParseCollegePage →
      m_college_data (req_meta r) = Some l →
      tabs_to_fetch (nav_tabs doc) = Ok [] →
      ∃ e' d, step sample_final i (Fetched doc) = Some e' ∧
              items e' = items sample_final ++ [(l, d)] ∧
              store (sp e') !! l = Some d)).
Proof.
  assert (run (start None) sample_run = Some sample_final) as Hrun
    by (vm_compute; reflexivity).
  split; [exact Hrun|].
  exact (record_emitted_at_most_once None sample_run sample_final Hrun).
Defined.

(** C3 on a run resumed with ["/colleges/c3"] completed. *)
Lemma completed_college_never_fetched_sample :
  "/colleges/c3" ∈ completed_colleges sample_ledger ∧
  run (start (Some sample_ledger))
    [(0%nat, Fetched (listing_page ten_cards 5000))] = Some resumed_final ∧
  (∀ r, r ∈ queue resumed_final → req_callback r = ParseCollegePage →
        m_college_link (req_meta r) ≠ Some "/colleges/c3"
        ∧ ∀ base, req_target r ≠ Follow base "/colleges/c3").
Proof.
  assert ("/colleges/c3" ∈ completed_colleges sample_ledger) as HX
    by (apply (bool_decide_unpack _); vm_compute; exact I).
  assert (run (start (Some sample_ledger))
            [(0%nat, Fetched (listing_page ten_cards 5000))]
          = Some resumed_final) as Hrun by (vm_compute; reflexivity).
  split; [exact HX|]. split; [exact Hrun|].
  exact (proj2 (completed_college_never_fetched sample_ledger "/colleges/c3"
                  _ resumed_final HX Hrun)).
Defined.

(** The resumed run did schedule the nine other colleges of the page. *)
Example resumed_run_schedules_the_others :
  (λ r, m_college_link (req_meta r)) <$> drop 80 (queue resumed_final)
  = Some <$> ["/colleges/c1"; "/colleges/c2"; "/colleges/c4"; "/colleges/c5";
              "/colleges/c6"; "/colleges/c7"; "/colleges/c8"; "/colleges/c9";
              "/colleges/c10"].
Proof. vm_compute. reflexivity. Qed.

(** C9 on the sample run: the failure of the request for page 5. *)
Lemma handle_error_always_raises_sample :
  run (start None) sample_run = Some sample_final ∧
  handle_error {| fail_request := start_request 5; fail_value := "timeout" |}
    (sp sample_final)
  = (sp sample_final, [],
     Raise (AttributeError "'set' object has no attribute 'append'")).
Proof.
  assert (run (start None) sample_run = Some sample_final) as Hrun
    by (vm_compute; reflexivity).
  split; [exact Hrun|].
  exact (handle_error_always_raises None sample_run sample_final _ Hrun).
Defined.

(** The engine on that failure: the errback raises, nothing is recorded
    and nothing is scheduled again. *)
Example failed_listing_request_in_the_engine :
  (λ e, (length (queue e), errors e, failed_pages (sp e)))
    <$> step (start None) 4 (Failed "timeout")
  = Some (80%nat,
          [AttributeError "'set' object has no attribute 'append'"],
          PySet ∅).
Proof. vm_compute. reflexivity. Qed.

(** C1 fails on the code.  In the sample run the detail page of the
    first block yields two tab requests; one is answered and the other
    fails for good.  At the end no request for that record is left, the
    record was not emitted, and its counter is still 1. *)
Lemma failed_tab_never_emitted :
  run (start None) sample_run = Some sample_final ∧
  count (is_detail_for 0%nat) (queue sample_final) = 0%nat ∧
  count (is_tab_for 0%nat) (queue sample_final) = 0%nat ∧
  emitted 0%nat (items sample_final) = 0%nat ∧
  store (sp sample_final) !! 0%nat ≫= (.!! "tabs_pending") = Some (VInt 1).
Proof. vm_compute. done. Qed.

(** C1, amended, on a record with three tabs: the first is answered,
    the second fails for good and the third has no link, which ends
    the detail callback.  The counter stays at 2. *)
Lemma failed_tab_keeps_item_pending_sample :
  let response :=
    detail_with [link (Some "Courses") (Some "/courses");
                 link (Some "Admission") (Some "/admission");
                 link (Some "Placement") None] in
  let base := "https://www.collegedekho.com/colleges/aiims" in
  let evs := [(tab_request (Follow base "/courses") 0%nat "Courses",
               Fetched (tab_page "Fees" "<p>fees</p>"));
              (tab_request (Follow base "/admission") 0%nat "Admission",
               Failed "timeout")] in
  let s1 := (parse_college_page response one_record).1.1 in
  let out := (parse_college_page response one_record).1.2 in
  let res := (parse_college_page response one_record).2 in
  is_Some (store one_record !! 0%nat) ∧
  yielded_requests out ≠ [] ∧
  evs.*1 ≡ₚ yielded_requests out ∧
  res = Raise (ValueError "url can't be None") ∧
  yielded_items out ++ yielded_items (deliver_all s1 evs).2 = [] ∧
  ∃ d2, store (deliver_all s1 evs).1 !! 0%nat = Some d2 ∧
        d2 !! "tabs_pending" = Some (VInt 2).
Proof.
  intros response base evs s1 out res.
  assert (store one_record !! 0%nat
          = Some (extract_college_data (sample_card "AIIMS" "/colleges/aiims")))
    as Hd by reflexivity.
  assert (parse_college_page response one_record = (s1, out, res)) as Hpage
    by (vm_compute; reflexivity).
  assert (yielded_requests out ≠ []) as Hne by (vm_compute; discriminate).
  assert (evs.*1 ≡ₚ yielded_requests out) as Hperm
    by (vm_compute; reflexivity).
  split; [by rewrite Hd|]. split; [exact Hne|]. split; [exact Hperm|].
  split; [vm_compute; reflexivity|].
  exact (proj2 (failed_tab_keeps_item_pending response one_record s1 0%nat _
                  out res evs eq_refl Hd Hpage Hne Hperm)).
Defined.

(** C7 fails on the code: two of three tab titles that differ only in
    case and spaces share a key.  The emitted record has two sections,
    and which of the two titles it keeps depends on the order of the
    answers. *)
Lemma colliding_tab_titles_drop_a_section :
  let '(s1, out, _) :=
    parse_college_page (detail_for_record ["Cut Off"; "Cutoff"; "Courses"])
      one_record in
  let evs := zip (yielded_requests out) three_answers in
  length (yielded_requests out) = 3%nat ∧
  section_names (yielded_items (deliver_all s1 evs).2)
    = [[("coursesTab", Some "Courses"); ("cutoffTab", Some "Cutoff")]] ∧
  section_names (yielded_items (deliver_all s1 (swap_first evs)).2)
    = [[("coursesTab", Some "Courses"); ("cutoffTab", Some "Cut Off")]].
Proof. vm_compute. done. Qed.

(** C7, amended, on a record with the tabs Courses, Admission and
    Placement, answered in the order Placement, Courses, Admission. *)
Lemma three_tabs_any_order_sample :
  let response := detail_for_record ["Courses"; "Admission"; "Placement"] in
  let r1 := sample_tab_request "Courses" in
  let r2 := sample_tab_request "Admission" in
  let r3 := sample_tab_request "Placement" in
  let a := tab_page "Courses offered" "<p>a</p>" in
  let b := tab_page "Admission 2024" "<p>b</p>" in
  let c := tab_page "Placement record" "<p>c</p>" in
  let order := [(r3, Fetched c); (r1, Fetched a); (r2, Fetched b)] in
  let s1 := (parse_college_page response one_record).1.1 in
  let out := (parse_college_page response one_record).1.2 in
  let d := extract_college_data (sample_card "AIIMS" "/colleges/aiims") in
  let tabs := <[key_of r3 := section_of r3 c]>
             (<[key_of r2 := section_of r2 b]>
             (<[key_of r1 := section_of r1 a]> ∅)) in
  parse_college_page response one_record = (s1, out, Ok ()) ∧
  yielded_requests out = [r1; r2; r3] ∧
  NoDup [key_of r1; key_of r2; key_of r3] ∧
  yielded_items out ++ yielded_items (deliver_all s1 order).2
    = [(0%nat, delete "tabs_pending"
                 (<["tabs" := VDict tabs]> (detail_fields response d)))].
Proof.
  intros response r1 r2 r3 a b c order s1 out d tabs.
  assert (store one_record !! 0%nat = Some d) as Hd by reflexivity.
  assert (parse_college_page response one_record = (s1, out, Ok ())) as Hpage
    by (vm_compute; reflexivity).
  assert (yielded_requests out = [r1; r2; r3]) as Hreqs
    by (vm_compute; reflexivity).
  assert (NoDup [key_of r1; key_of r2; key_of r3]) as Hnd.
  { apply (bool_decide_unpack _). vm_compute. exact I. }
  assert (order ≡ₚ [(r1, Fetched a); (r2, Fetched b); (r3, Fetched c)])
    as Hperm by apply (Permutation_cons_append [_; _]).
  split; [exact Hpage|]. split; [exact Hreqs|]. split; [exact Hnd|].
  exact (proj1 (three_tabs_any_order response a b c one_record s1 0%nat d out
                  r1 r2 r3 order eq_refl Hd Hpage Hreqs Hnd Hperm)).
Defined.

(** ** A record without tabs *)

(** When there is no tab to fetch the record is emitted by the detail
    callback itself, with the counter still in it. *)
Lemma parse_college_page_no_tabs response s l d :
  m_college_data (resp_meta response) = Some l →
  store s !! l = Some d →
  tabs_to_fetch (nav_tabs response) = Ok [] →
  parse_college_page response s =
    let d1 := <["tabs_pending" := VInt 0]> (detail_fields response d) in
    (upd l d1 s, [YieldItem l d1], Ok ()).
Proof.
  intros Hl Hd Htabs.
  rewrite (parse_college_page_run _ _ l d) by done. by rewrite Htabs.
Qed.

(** C8 fails on the code: on a detail page whose only tabs are Gallery
    and Reviews the record is emitted at once, and it has the key
    ["tabs_pending"], with value 0, beside the detail-page fields and an
    empty ["tabs"]. *)
Theorem no_tab_record_keeps_counter :
  ∃ s1 rec,
    parse_college_page (detail_for_record ["Gallery"; "Reviews"]) one_record
      = (s1, [YieldItem 0%nat rec], Ok ()) ∧
    rec !! "tabs_pending" = Some (VInt 0) ∧
    rec !! "tabs" = Some (VDict ∅) ∧
    rec !! "facilities" = Some (VList [VStr "Library"]) ∧
    rec !! "title" = Some (VStr "AIIMS").
Proof.
  eexists _, _. split.
  - apply (parse_college_page_no_tabs _ _ 0%nat); [done| |done].
    apply lookup_insert_eq.
  - repeat split; vm_compute; reflexivity.
Qed.

(** The record of an item with tabs has lost the counter when it is
    emitted. *)
Example tab_record_has_no_counter :
  let '(s1, out, _) :=
    parse_college_page (detail_for_record ["Courses"]) one_record in
  let evs := zip (yielded_requests out)
               [Fetched (tab_page "Courses offered" "<p>a</p>")] in
  (λ it : loc * dict, (it.1, it.2 !! "tabs_pending"))
    <$> yielded_items (deliver_all s1 evs).2
  = [(0%nat, None)].
Proof. vm_compute. reflexivity. Qed.

(** ** A listing page with too few blocks *)

(** On a valid page with fewer than ten blocks and fewer than three
    recorded attempts, [parse] yields nothing: the retry request is the
    value the generator returns.  The blocks were counted before. *)
Lemma parse_low_count response s page :
  m_page (resp_meta response) = Some page →
  is_valid_page response = true →
  let n := Z.of_nat (length (filter (λ c, has_col_md_12 c = true)
                               (college_card_box response))) in
  n < 10 → default 0 (page_attempts s !! page) < 3 →
  ∃ s' r, parse response s = (s', [], Ok (Some r)) ∧
          colleges_found s' = colleges_found s + n ∧
          req_callback r = Parse ∧ m_page (req_meta r) = Some page.
Proof.
  intros Hp Hvalid n Hn Ha. rewrite (parse_run _ _ _ Hp), Hvalid. simpl.
  fold n. rewrite !bool_decide_eq_true_2 by done.
  rewrite (retry_page_run _ _ _ Hp). simpl.
  rewrite lookup_insert_eq. simpl.
  rewrite bool_decide_eq_true_2 by lia.
  eexists _, _. by split; [reflexivity|].
Qed.

(** C4 fails on the code.  Page 7 comes back with four blocks: the
    callback yields no request, so the engine schedules nothing for page
    7 again, and the four blocks are already in [colleges_found].  Were
    the page fetched again, with four and then twelve blocks, the count
    would be 20 and not 12. *)
Theorem low_block_page_not_retried :
  (∃ s1 r, parse (page7 4) (init None) = (s1, [], Ok (Some r)) ∧
           r = retry_request (page7 4) 7 1 ∧
           colleges_found s1 = 4 ∧ page_attempts s1 !! 7 = Some 1) ∧
  (λ e, (colleges_found (sp e),
         count (λ r, bool_decide (m_page (req_meta r) = Some 7)) (queue e),
         length (queue e)))
    <$> step (start None) 6 (Fetched (listing_page (sample_cards 4) 5000))
    = Some (4, 0%nat, 80%nat) ∧
  (let s1 := (parse (page7 4) (init None)).1.1 in
   let s2 := (parse (page7 4) s1).1.1 in
   let '(s3, out3, _) := parse (page7 12) s2 in
   colleges_found s3 = 20 ∧ length (yielded_requests out3) = 12%nat).
Proof.
  split; [|split].
  - eexists _, _. split; [vm_compute; reflexivity|].
    repeat split; vm_compute; reflexivity.
  - vm_compute. reflexivity.
  - vm_compute. done.
Qed.

(** ** The attempt cap *)

(** [retry_page] builds no request once three attempts are recorded. *)
Lemma retry_page_capped response s page n :
  m_page (resp_meta response) = Some page →
  page_attempts s !! page = Some n → 3 ≤ n →
  (retry_page response s).2 = Ok None ∧
  (retry_page response s).1.2 = [] ∧
  failed_pages (retry_page response s).1.1 = failed_pages s.
Proof.
  intros Hp Hn Hle. rewrite (retry_page_run _ _ _ Hp), Hn. simpl.
  by rewrite bool_decide_eq_false_2 by lia.
Qed.

(** No run reaches the cap (see [run_listing_inv]).  On a spider built
    by hand with three attempts recorded for page 7, [retry_page] on an
    invalid response counts a fourth, builds no request and leaves
    [failed_pages] empty: it has no branch for the other case.  And
    [handle_error] on a failure whose request has [retry_count] 3 raises
    before it records the page. *)
Example retry_page_past_the_cap :
  let s := set_page_attempts {[7 := 3]} (init None) in
  let capped :=
    {| req_target := Url start_url; req_callback := Parse;
       req_errback := Some HandleError;
       req_meta := req_meta (retry_request (page7 0) 7 3);
       req_dont_filter := true; req_priority := 10 |} in
  is_valid_page (page7 0) = false ∧
  (let '(s', out, res) := parse (page7 0) s in
   page_attempts s' !! 7 = Some 4 ∧ out = [] ∧ res = Ok None ∧
   failed_pages s' = PySet ∅) ∧
  handle_error {| fail_request := capped; fail_value := "timeout" |} s
  = (s, [], Raise (AttributeError "'set' object has no attribute 'append'")).
Proof. vm_compute. done. Qed.

(** * Further properties *)

(** ** Callbacks on a record are local to it *)

Lemma local_ret {A} l (a : A) : local_to l (mret a : gen A).
Proof. intros s. by repeat split. Qed.

Lemma local_raise {A} l e : local_to l (raise e : gen A).
Proof. intros s. by repeat split. Qed.

Lemma local_yield l o : tab_output o → local_to l (yield o).
Proof. intros Ho s. repeat split. simpl. by constructor. Qed.

Lemma local_lift {A} l (r : result A) : local_to l (lift_result r).
Proof. intros s. by repeat split. Qed.

Lemma local_require {A} l key (x : option A) : local_to l (require key x).
Proof. destruct x; [apply local_ret|apply local_raise]. Qed.

Lemma local_bind {A B} l (m : gen A) (f : A → gen B) :
  local_to l m → (∀ a, local_to l (f a)) → local_to l (m ≫= f).
Proof.
  intros Hm Hf s. rewrite bind_run.
  destruct (Hm s) as [(H1 & H2 & H3 & H4) [H5 H6]].
  destruct (m s) as [[s1 out1] [a|e]]; simpl in *; [|by repeat split].
  destruct (Hf a s1) as [(G1 & G2 & G3 & G4) [G5 G6]].
  destruct (f a s1) as [[s2 out2] r]; simpl in *.
  repeat split; try congruence.
  - intros l' Hl'. rewrite G5, H5; done.
  - by apply Forall_app.
Qed.

Lemma local_bind_ret {A B} l (a : A) (f : A → gen B) :
  local_to l (f a) → local_to l (mret a ≫= f).
Proof.
  intros Hf s. rewrite bind_run. simpl.
  destruct (Hf s) as (H1 & H2 & H3). by destruct (f a s) as [[s2 out2] r].
Qed.

Lemma local_read l l0 : local_to l (read_obj l0).
Proof. intros s. unfold read_obj. by destruct (store s !! l0); repeat split. Qed.

Lemma local_write l d : local_to (Some l) (write_obj l d).
Proof.
  intros s. repeat split; [|by simpl]. intros l' Hl'. simpl.
  apply lookup_insert_ne. congruence.
Qed.

Lemma local_dict_get l l0 key : local_to l (dict_get l0 key).
Proof.
  apply local_bind; [apply local_read|]. intros d.
  destruct (d !! key); [apply local_ret|apply local_raise].
Qed.

Lemma local_dict_set l key v : local_to (Some l) (dict_set l key v).
Proof. apply local_bind; [apply local_read|]. intros d. apply local_write. Qed.

Lemma local_dict_pop l key : local_to (Some l) (dict_pop l key).
Proof.
  apply local_bind; [apply local_dict_get|]. intros v.
  apply local_bind; [apply local_read|]. intros d.
  apply local_bind; [apply local_write|]. intros _. apply local_ret.
Qed.

Lemma local_yield_item l l0 : local_to l (yield_item l0).
Proof.
  apply local_bind; [apply local_read|]. intros d. by apply local_yield.
Qed.

Lemma local_for_each {A} l (xs : list A) (body : A → gen unit) :
  (∀ x, local_to l (body x)) → local_to l (for_each xs body).
Proof.
  intros Hbody. induction xs as [|x xs IH]; [apply local_ret|].
  simpl. apply local_bind; [apply Hbody|]. by intros _.
Qed.

Lemma local_request_tab l response l0 tab :
  local_to l (request_tab response l0 tab).
Proof.
  apply local_bind; [apply local_lift|]. intros title.
  apply local_bind; [apply local_lift|]. intros t. by apply local_yield.
Qed.

Lemma local_parse_college_page response :
  local_to (m_college_data (resp_meta response)) (parse_college_page response).
Proof.
  unfold parse_college_page.
  destruct (m_college_data (resp_meta response)) as [l|]; simpl.
  2:{ intros s. by repeat split. }
  apply local_bind_ret.
  do 6 (apply local_bind; [apply local_dict_set|]; intros _).
  apply local_bind; [apply local_lift|]. intros tabs.
  apply local_bind; [apply local_dict_set|]. intros _.
  apply local_bind; [apply local_for_each; intros; apply local_request_tab|].
  intros _. apply local_bind; [apply local_dict_get|]. intros pending.
  destruct (is_zero pending); [apply local_yield_item|apply local_ret].
Qed.

Lemma local_parse_tab_content response :
  local_to (m_college_data (resp_meta response)) (parse_tab_content response).
Proof.
  unfold parse_tab_content.
  destruct (m_college_data (resp_meta response)) as [l|]; simpl.
  2:{ intros s. by repeat split. }
  apply local_bind_ret.
  apply local_bind; [apply local_require|]. intros title.
  apply local_bind; [apply local_dict_get|]. intros tabs.
  destruct tabs; try apply local_raise.
  apply local_bind; [apply local_dict_set|]. intros _.
  apply local_bind; [apply local_dict_get|]. intros pending.
  destruct pending; try apply local_raise.
  apply local_bind; [apply local_dict_set|]. intros _.
  apply local_bind; [apply local_dict_get|]. intros pending'.
  destruct (is_zero pending'); [|apply local_ret].
  apply local_bind; [apply local_dict_pop|]. intros _. apply local_yield_item.
Qed.

(** X1: the detail callback and the tab callback leave the retry
    bookkeeping, the failed pages, the ledger and the statistics as they
    are, whatever the response and however they end; they change no
    record but the one their request refers to; and every request they
    yield is a tab request without errback. *)
Theorem record_callbacks_are_local (response : response) (s : spider) :
  let detail := parse_college_page response s in
  let tab := parse_tab_content response s in
  same_attributes s detail.1.1 ∧ same_attributes s tab.1.1 ∧
  (∀ l', m_college_data (resp_meta response) ≠ Some l' →
         store detail.1.1 !! l' = store s !! l' ∧
         store tab.1.1 !! l' = store s !! l') ∧
  Forall tab_output detail.1.2 ∧ Forall tab_output tab.1.2.
Proof.
  destruct (local_parse_college_page response s) as (H1 & H2 & H3).
  destruct (local_parse_tab_content response s) as (G1 & G2 & G3).
  simpl. split; [done|]. split; [done|]. split; [|done].
  intros l' Hl'. split; [by apply H2|by apply G2].
Qed.

(** ** Listing pages over a whole run *)

Lemma start_request_page r :
  r ∈ start_requests →
  req_callback r = Parse ∧ req_errback r = Some HandleError ∧
  m_retry_count (req_meta r) = None ∧
  ∃ page, m_page (req_meta r) = Some page ∧ 1 ≤ page ≤ 81.
Proof.
  intros (page & -> & (n & -> & Hn%elem_of_seq)%list_elem_of_fmap)%list_elem_of_fmap.
  split; [done|]. split; [done|]. split; [done|].
  exists (Z.of_nat n). split; [done|]. lia.
Qed.

Lemma count_listing_start page :
  (count (is_listing_for page) start_requests ≤ 1)%nat.
Proof.
  unfold start_requests. generalize (NoDup_seq 1 81).
  generalize (seq 1 81). intros l.
  induction 1 as [|n l Hn Hnd IH]; [simpl; lia|].
  rewrite !fmap_cons. cbn [count].
  destruct (is_listing_for page (start_request (Z.of_nat n))) eqn:Hp; [|lia].
  rewrite count_none; [lia|].
  intros r (q & -> & (k & -> & Hk)%list_elem_of_fmap)%list_elem_of_fmap.
  unfold is_listing_for in *. simpl in *. apply bool_decide_eq_false.
  intros [= Hq]. apply bool_decide_eq_true in Hp. injection Hp as Hp.
  apply Hn. assert (k = n) as -> by lia. done.
Qed.

Lemma start_listing_inv file : listing_inv (start file).
Proof.
  split.
  - done.
  - done.
  - intros page. change (queue (start file)) with start_requests.
    change (page_attempts (sp (start file))) with (∅ : gmap Z Z).
    rewrite lookup_empty. pose proof (count_listing_start page).
    simpl default. lia.
Qed.

(** What [parse] does to the attempts of a page seen for the first time. *)
Lemma parse_first_attempt response s page s' out res :
  m_page (resp_meta response) = Some page →
  default 0 (page_attempts s !! page) = 0 →
  failed_pages s = PySet ∅ →
  parse response s = (s', out, res) →
  failed_pages s' = PySet ∅ ∧
  0 ≤ default 0 (page_attempts s' !! page) ≤ 1 ∧
  (∀ q, q ≠ page → page_attempts s' !! q = page_attempts s !! q) ∧
  (∀ r, r ∈ yielded_requests out → req_callback r = ParseCollegePage).
Proof.
  intros Hp Ha Hfp Hparse.
  assert (∀ r, r ∈ yielded_requests out → req_callback r = ParseCollegePage)
    as Hout.
  { destruct (parse_effect _ _ _ _ _ Hparse)
      as (_ & _ & _ & page' & entries & Hblocks).
    destruct (parse_blocks_spec _ _ _ _ _ _ _ Hblocks) as (_ & Hreqs & _).
    intros r Hr. by destruct (Hreqs r Hr) as (? & ? & ? & -> & _). }
  split; [|split; [|split]]; [..|exact Hout]; clear Hout;
    rewrite (parse_run _ _ _ Hp) in Hparse; revert Hparse.
  - destruct (is_valid_page response); simpl.
    2:{ rewrite (retry_page_run _ _ _ Hp). by intros [= <- _ _]. }
    case_bool_decide.
    + rewrite bool_decide_eq_true_2 by lia.
      erewrite retry_page_run by exact Hp. by intros [= <- _ _].
    + unfold parse_loop. destruct (parse_blocks _ _ _ _ _). by intros [= <- _ _].
  - destruct (is_valid_page response); simpl.
    2:{ rewrite (retry_page_run _ _ _ Hp). intros [= <- _ _]. simpl.
        rewrite lookup_insert_eq. simpl. lia. }
    case_bool_decide.
    + rewrite bool_decide_eq_true_2 by lia.
      erewrite retry_page_run by exact Hp. intros [= <- _ _]. simpl.
      rewrite !lookup_insert_eq. simpl. lia.
    + unfold parse_loop. destruct (parse_blocks _ _ _ _ _).
      intros [= <- _ _]. simpl. lia.
  - intros Hparse q Hq. revert Hparse.
    destruct (is_valid_page response); simpl.
    2:{ rewrite (retry_page_run _ _ _ Hp). intros [= <- _ _]. simpl.
        by rewrite lookup_insert_ne. }
    case_bool_decide.
    + rewrite bool_decide_eq_true_2 by lia.
      erewrite retry_page_run by exact Hp. intros [= <- _ _]. simpl.
      by rewrite !lookup_insert_ne.
    + unfold parse_loop. destruct (parse_blocks _ _ _ _ _).
      by intros [= <- _ _].
Qed.

Lemma listing_inv_drop e i r errs :
  listing_inv e → queue e !! i = Some r →
  listing_inv {| sp := sp e; queue := delete i (queue e) ++ [];
                 items := items e ++ []; errors := errs |}.
Proof.
  intros [H1 H2 H3] Hr. rewrite !app_nil_r. split; simpl.
  - done.
  - intros x Hx. apply H2. by eapply elem_of_delete.
  - intros page. destruct (H3 page) as [? Hle]. split; [done|].
    rewrite (count_delete _ _ _ _ Hr) in Hle. lia.
Qed.

(** A callback that leaves the attributes alone and yields no listing
    request. *)
Lemma listing_inv_local e i r s' out its errs :
  listing_inv e → queue e !! i = Some r →
  same_attributes (sp e) s' → Forall tab_output out →
  listing_inv {| sp := s'; queue := delete i (queue e) ++ yielded_requests out;
                 items := its; errors := errs |}.
Proof.
  intros [H1 H2 H3] Hr (Hpa & Hfp & _ & _) Hout.
  assert (∀ x, x ∈ yielded_requests out → req_callback x = ParseTabContent)
    as Hcb.
  { intros x (o & Ho & Hx)%list_elem_of_omap.
    apply (proj1 (Forall_forall _ _) Hout) in Ho.
    destruct o; simplify_eq/=. by destruct Ho. }
  split; simpl.
  - by rewrite Hfp.
  - intros x [Hx|Hx]%elem_of_app Hp.
    + apply H2; [by eapply elem_of_delete|done].
    + apply Hcb in Hx. congruence.
  - intros page. rewrite Hpa. destruct (H3 page) as [? Hle]. split; [done|].
    rewrite count_app, (count_none _ (yielded_requests out)).
    + rewrite (count_delete _ _ _ _ Hr) in Hle. lia.
    + intros x Hx. unfold is_listing_for. by rewrite (Hcb x Hx).
Qed.

Lemma step_listing_inv e i d e' :
  listing_inv e → step e i d = Some e' → listing_inv e'.
Proof.
  intros Inv. unfold step.
  destruct (queue e !! i) as [r|] eqn:Hr; [|done].
  destruct (dispatch r d (sp e)) as [[s' out] res] eqn:Hd.
  intros [= <-]. unfold dispatch in Hd. destruct d as [doc|reason].
  - unfold run_callback in Hd. destruct (req_callback r) eqn:Hcb.
    + rewrite bind_run in Hd.
      destruct (parse _ (sp e)) as [[s1 out1] res1] eqn:Hp.
      assert (s' = s1 ∧ out = out1) as [-> ->].
      { destruct res1; simpl in Hd; injection Hd as <- <- _;
          by rewrite ?app_nil_r. }
      destruct (start_request_page r) as (_ & _ & _ & page & Hpage & _).
      { apply (li_start _ Inv); [by eapply list_elem_of_lookup_2|done]. }
      assert (is_listing_for page r = true) as Hrp.
      { unfold is_listing_for. rewrite Hcb. by apply bool_decide_eq_true. }
      destruct (li_attempts _ Inv page) as [Ha0 Ha1].
      rewrite (count_delete _ _ _ _ Hr), Hrp in Ha1.
      assert (default 0 (page_attempts (sp e) !! page) = 0) as Hzero by lia.
      destruct (parse_first_attempt (with_meta (req_meta r) doc) _ page _ _ _
                  Hpage Hzero
                  (li_failed _ Inv) Hp) as (Hfp & Ha & Hother & Hout).
      split; simpl.
      * done.
      * intros x [Hx|Hx]%elem_of_app Hx'.
        -- apply (li_start _ Inv); [by eapply elem_of_delete|done].
        -- apply Hout in Hx. congruence.
      * intros q.
        rewrite count_app, (count_none _ (yielded_requests out1)).
        2:{ intros x Hx. unfold is_listing_for. by rewrite (Hout x Hx). }
        destruct (decide (q = page)) as [->|Hq]; [lia|].
        rewrite (Hother q Hq). destruct (li_attempts _ Inv q) as [? Hle].
        rewrite (count_delete _ _ _ _ Hr) in Hle. split; [done|]. lia.
    + destruct (local_parse_college_page (with_meta (req_meta r) doc) (sp e))
        as (H1 & _ & H3). rewrite Hd in H1, H3.
      by apply (listing_inv_local _ _ r).
    + destruct (local_parse_tab_content (with_meta (req_meta r) doc) (sp e))
        as (H1 & _ & H3). rewrite Hd in H1, H3.
      by apply (listing_inv_local _ _ r).
  - destruct (req_errback r) as [[]|].
    + rewrite (handle_error_raises _ _ _ (li_failed _ Inv)) in Hd.
      injection Hd as <- <- <-. by apply (listing_inv_drop _ _ r).
    + injection Hd as <- <- <-. by apply (listing_inv_drop _ _ r).
Qed.

Lemma run_listing_inv e events e' :
  listing_inv e → run e events = Some e' → listing_inv e'.
Proof.
  revert e. induction events as [|[i d] rest IH]; intros e Inv; simpl.
  { by intros [= <-]. }
  destruct (step e i d) as [e1|] eqn:Hstep; [|done].
  apply IH. by eapply step_listing_inv.
Qed.

(** X2: in every state of a run, a scheduled listing request is one of
    the requests of [start_requests], with its errback and without a
    retry count: no retry of a listing page is ever scheduled. *)
Theorem no_listing_retry_scheduled (file : option progress)
    (events : list (nat * download)) (e : engine) (r : request) :
  run (start file) events = Some e →
  r ∈ queue e → req_callback r = Parse →
  r ∈ start_requests ∧ m_retry_count (req_meta r) = None ∧
  req_errback r = Some HandleError.
Proof.
  intros Hrun Hr Hcb.
  pose proof (run_listing_inv _ _ _ (start_listing_inv file) Hrun) as Inv.
  pose proof (li_start _ Inv r Hr Hcb) as Hstart.
  by destruct (start_request_page r Hstart) as (_ & ? & ? & _).
Qed.

(** X3: in every state of a run no page is recorded in [failed_pages],
    and a page has at most one counted attempt. *)
Theorem failed_pages_stays_empty (file : option progress)
    (events : list (nat * download)) (e : engine) :
  run (start file) events = Some e →
  failed_pages (sp e) = PySet ∅ ∧
  ∀ page, 0 ≤ default 0 (page_attempts (sp e) !! page) ≤ 1.
Proof.
  intros Hrun.
  pose proof (run_listing_inv _ _ _ (start_listing_inv file) Hrun) as Inv.
  split; [apply Inv|]. intros page.
  destruct (li_attempts _ Inv page). lia.
Qed.

(** X4: in a run, the response to a listing request that is invalid, or
    valid with fewer than ten blocks, is dropped: the callback schedules
    nothing, emits nothing, creates no record and raises nothing. *)
Theorem short_listing_page_is_dropped (file : option progress)
    (events : list (nat * download)) (e : engine) (i : nat) (r : request)
    (doc : response) :
  run (start file) events = Some e →
  queue e !! i = Some r → req_callback r = Parse →
  is_valid_page doc = false ∨ block_count doc < 10 →
  ∃ e', step e i (Fetched doc) = Some e' ∧
        queue e' = delete i (queue e) ∧ items e' = items e ∧
        store (sp e') = store (sp e) ∧ errors e' = errors e.
Proof.
  intros Hrun Hr Hcb Hdoc.
  pose proof (run_listing_inv _ _ _ (start_listing_inv file) Hrun) as Inv.
  destruct (start_request_page r) as (_ & _ & _ & page & Hpage & _).
  { apply (li_start _ Inv); [by eapply list_elem_of_lookup_2|done]. }
  assert (is_listing_for page r = true) as Hrp.
  { unfold is_listing_for. rewrite Hcb. by apply bool_decide_eq_true. }
  destruct (li_attempts _ Inv page) as [Ha0 Ha1].
  rewrite (count_delete _ _ _ _ Hr), Hrp in Ha1.
  assert (default 0 (page_attempts (sp e) !! page) = 0) as Hzero by lia.
  unfold step. rewrite Hr. unfold dispatch, run_callback. rewrite Hcb.
  rewrite bind_run.
  rewrite (parse_run (with_meta (req_meta r) doc) _ page) by done.
  change (is_valid_page (with_meta (req_meta r) doc)) with (is_valid_page doc).
  change (college_card_box (with_meta (req_meta r) doc))
    with (college_card_box doc).
  fold (block_count doc).
  assert (∀ s0, store s0 = store (sp e) →
            ∃ s' ret, retry_page (with_meta (req_meta r) doc) s0
                      = (s', [], Ok ret) ∧ store s' = store (sp e)) as Hretry.
  { intros s0 Hs0. rewrite (retry_page_run _ _ page) by done. simpl.
    by eexists _, _. }
  destruct (is_valid_page doc) eqn:Hvalid; simpl.
  - destruct Hdoc as [?|Hlow]; [done|].
    rewrite bool_decide_eq_true_2 by done.
    rewrite bool_decide_eq_true_2 by lia.
    edestruct Hretry as (s' & ret & -> & Hst); [|simpl].
    { by simpl. }
    eexists. split; [reflexivity|]. simpl. by rewrite !app_nil_r.
  - edestruct Hretry as (s' & ret & -> & Hst); [reflexivity|simpl].
    eexists. split; [reflexivity|]. simpl. by rewrite !app_nil_r.
Qed.

(** X2 on the sample run: the listing requests still scheduled. *)
Lemma no_listing_retry_scheduled_sample :
  run (start None) sample_run = Some sample_final ∧
  start_request 5 ∈ queue sample_final ∧
  m_retry_count (req_meta (start_request 5)) = None.
Proof.
  assert (run (start None) sample_run = Some sample_final) as Hrun
    by (vm_compute; reflexivity).
  assert (start_request 5 ∈ queue sample_final) as Hin.
  { apply (list_elem_of_lookup_2 _ 3). vm_compute. reflexivity. }
  split; [exact Hrun|]. split; [exact Hin|].
  exact (proj1 (proj2 (no_listing_retry_scheduled None sample_run sample_final
                         (start_request 5) Hrun Hin eq_refl))).
Defined.

(** X3 on the sample run. *)
Lemma failed_pages_stays_empty_sample :
  run (start None) sample_run = Some sample_final ∧
  failed_pages (sp sample_final) = PySet ∅.
Proof.
  assert (run (start None) sample_run = Some sample_final) as Hrun
    by (vm_compute; reflexivity).
  split; [exact Hrun|].
  exact (proj1 (failed_pages_stays_empty None sample_run sample_final Hrun)).
Defined.

(** X4 on the first event of a run: page 7 comes back with four blocks. *)
Lemma short_listing_page_is_dropped_sample :
  run (start None) [] = Some (start None) ∧
  queue (start None) !! 6%nat = Some (start_request 7) ∧
  block_count (listing_page (sample_cards 4) 5000) < 10 ∧
  ∃ e', step (start None) 6 (Fetched (listing_page (sample_cards 4) 5000))
        = Some e' ∧
        queue e' = delete 6%nat (queue (start None)) ∧
        items e' = items (start None) ∧
        store (sp e') = store (sp (start None)) ∧
        errors e' = errors (start None).
Proof.
  assert (queue (start None) !! 6%nat = Some (start_request 7)) as Hq
    by (vm_compute; reflexivity).
  assert (block_count (listing_page (sample_cards 4) 5000) < 10) as Hlow
    by (vm_compute; reflexivity).
  split; [reflexivity|]. split; [exact Hq|]. split; [exact Hlow|].
  exact (short_listing_page_is_dropped None [] (start None) 6
           (start_request 7) _ eq_refl Hq eq_refl (or_intror Hlow)).
Defined.

(** ** A page that is given up *)






(** ** The listing callback on an accepted page *)





Example followed_blocks_of_the_sample :
  followed_blocks {["/colleges/c3"]} (take 4 ten_cards)
  = [(1, "/colleges/c1"); (2, "/colleges/c2"); (4, "/colleges/c4")].
Proof. vm_compute. reflexivity. Qed.

(** ** The records the listing callback creates *)

Lemma parse_blocks_records response page completed entries st st' reqs :
  parse_blocks response page completed entries st = (st', reqs) →
  NoDup ((λ r, m_college_data (req_meta r)) <$> reqs) ∧
  Forall (λ r, ∃ l college,
            m_college_data (req_meta r) = Some l ∧ st !! l = None ∧
            college ∈ entries.*2 ∧
            m_college_link (req_meta r) = title_href college ∧
            st' !! l = Some (extract_college_data college)) reqs.
Proof.
  revert st st' reqs.
  induction entries as [|[index college] rest IH]; intros st st' reqs.
  { intros [= <- <-]. split; constructor. }
  simpl.
  set (l0 := fresh (dom st)).
  set (st1 := <[l0 := extract_college_data college]> st).
  destruct (parse_blocks response page completed rest st1) as [st2 reqs2] eqn:E.
  intros [= <- <-].
  destruct (IH _ _ _ E) as [Hnd Hall].
  destruct (parse_blocks_spec _ _ _ _ _ _ _ E) as (Hsub & _).
  assert (st !! l0 = None) as Hfresh by (apply not_elem_of_dom, is_fresh).
  assert (st2 !! l0 = Some (extract_college_data college)) as Hl0.
  { eapply lookup_weaken; [|done]. apply lookup_insert_eq. }
  assert (Forall (λ r, ∃ l c,
            m_college_data (req_meta r) = Some l ∧ st !! l = None ∧ l ≠ l0 ∧
            c ∈ ((index, college) :: rest).*2 ∧
            m_college_link (req_meta r) = title_href c ∧
            st2 !! l = Some (extract_college_data c)) reqs2) as Hall'.
  { eapply Forall_impl; [exact Hall|]. intros r (l & c & ? & Hl & ? & ? & ?).
    unfold st1 in Hl. apply lookup_insert_None in Hl as [? ?].
    exists l, c. repeat split; try done. simpl. by right. }
  destruct (wanted completed (title_href college)) as [link|] eqn:Hw.
  - apply wanted_Some in Hw as [Hw _]. split.
    + rewrite fmap_cons. apply NoDup_cons. split; [|done]. simpl.
      intros (r & Hr & Hin)%list_elem_of_fmap.
      apply (proj1 (Forall_forall _ _) Hall') in Hin
        as (l & c & Hl & _ & Hne & _). congruence.
    + constructor.
      * exists l0, college. simpl. repeat split; try done. by left.
      * eapply Forall_impl; [exact Hall'|].
        intros r (l & c & ? & ? & ? & ? & ? & ?). by exists l, c.
  - split; [done|]. eapply Forall_impl; [exact Hall'|].
    intros r (l & c & ? & ? & ? & ? & ? & ?). by exists l, c.
Qed.

(** X6: each detail request [parse] yields refers to a record of its
    own: the records of the yielded requests are pairwise distinct, were
    not in the store before, and each holds the extraction of a block of
    the page with the link of the request; no existing record is
    changed. *)
Theorem parse_gives_each_request_its_record (response : response)
    (s : spider) :
  let result := parse response s in
  let reqs := yielded_requests result.1.2 in
  NoDup ((λ r, m_college_data (req_meta r)) <$> reqs) ∧
  Forall (λ r, ∃ l college,
            m_college_data (req_meta r) = Some l ∧ store s !! l = None ∧
            college ∈ college_card_box response ∧
            m_college_link (req_meta r) = title_href college ∧
            store result.1.1 !! l = Some (extract_college_data college)) reqs ∧
  store s ⊆ store result.1.1.
Proof.
  simpl. destruct (parse response s) as [[s' out] res] eqn:Hparse. simpl.
  assert (∀ blocks page,
            (∀ c, c ∈ blocks → c ∈ college_card_box response) →
            parse_blocks response page (completed_colleges (spider_progress s))
              (enumerate1 blocks) (store s) = (store s', yielded_requests out) →
            NoDup ((λ r, m_college_data (req_meta r)) <$> yielded_requests out) ∧
            Forall (λ r, ∃ l college,
                m_college_data (req_meta r) = Some l ∧ store s !! l = None ∧
                college ∈ college_card_box response ∧
                m_college_link (req_meta r) = title_href college ∧
                store s' !! l = Some (extract_college_data college))
              (yielded_requests out) ∧
            store s ⊆ store s') as Hmain.
  { intros blocks page Hblocks Hpb.
    destruct (parse_blocks_records _ _ _ _ _ _ _ Hpb) as [Hnd Hall].
    destruct (parse_blocks_spec _ _ _ _ _ _ _ Hpb) as (Hsub & _).
    split; [done|]. split; [|done].
    eapply Forall_impl; [exact Hall|].
    intros r (l & c & ? & ? & Hc & ? & ?). exists l, c. repeat split; try done.
    apply Hblocks. apply list_elem_of_fmap in Hc as ([i c'] & -> & Hin).
    unfold enumerate1 in Hin. apply list_elem_of_lookup in Hin as [k Hk].
    rewrite list_lookup_imap in Hk.
    destruct (blocks !! k) as [c''|] eqn:Hk'; simplify_eq/=.
    by eapply list_elem_of_lookup_2. }
  destruct (m_page (resp_meta response)) as [page|] eqn:Hp.
  2:{ unfold parse in Hparse. rewrite Hp in Hparse. simpl in Hparse.
      rewrite bind_run in Hparse. simpl in Hparse.
      injection Hparse as <- <- <-. simpl. split; [constructor|]. split; done. }
  rewrite (parse_run _ _ _ Hp) in Hparse.
  assert (∀ s0, store s0 = store s →
            retry_page response s0 = (s', out, res) →
            store s' = store s ∧ out = []) as Hretry.
  { intros s0 Hs0. rewrite (retry_page_run _ _ _ Hp).
    intros [= <- <- <-]. by simpl. }
  assert (∀ s0, store s0 = store s → spider_progress s0 = spider_progress s →
            parse_loop response page
              (filter (λ c, has_col_md_12 c = true) (college_card_box response))
              s0 = (s', out, res) →
            parse_blocks response page (completed_colleges (spider_progress s))
              (enumerate1 (filter (λ c, has_col_md_12 c = true)
                             (college_card_box response)))
              (store s) = (store s', yielded_requests out)) as Hloop.
  { intros s0 Hs0 Hpr. unfold parse_loop. rewrite Hs0, Hpr.
    destruct (parse_blocks _ _ _ _ _) as [st reqs]. intros [= <- <- <-].
    by rewrite yielded_requests_fmap. }
  assert (∀ c, c ∈ filter (λ c, has_col_md_12 c = true)
                     (college_card_box response) →
               c ∈ college_card_box response) as Hfilter.
  { intros c Hc. by apply list_elem_of_filter in Hc as [_ ?]. }
  assert (store s' = store s ∧ out = [] →
          NoDup ((λ r, m_college_data (req_meta r)) <$> yielded_requests out) ∧
          Forall (λ r, ∃ l college,
              m_college_data (req_meta r) = Some l ∧ store s !! l = None ∧
              college ∈ college_card_box response ∧
              m_college_link (req_meta r) = title_href college ∧
              store s' !! l = Some (extract_college_data college))
            (yielded_requests out) ∧
          store s ⊆ store s') as Hnothing.
  { intros [-> ->]. split; [constructor|]. split; [constructor|done]. }
  destruct (is_valid_page response); simpl in Hparse.
  2:{ apply Hnothing. by apply (Hretry s). }
  case_bool_decide as Hlow.
  - case_bool_decide as Hatt.
    + apply Hnothing. eapply Hretry; [|exact Hparse]. reflexivity.
    + destruct (failed_pages s) as [fp|fp].
      * eapply Hmain; [exact Hfilter|]. eapply Hloop; [| |exact Hparse]; reflexivity.
      * injection Hparse as <- <- <-. by apply Hnothing.
  - eapply Hmain; [exact Hfilter|]. eapply Hloop; [| |exact Hparse]; reflexivity.
Qed.

(** ** The retry bookkeeping over repeated calls *)

Lemma retry_times_run response page n : ∀ s,
  m_page (resp_meta response) = Some page →
  let a := default 0 (page_attempts s !! page) in
  (retry_times n response s).2
  = (λ k : nat,
       if bool_decide (a + Z.of_nat k ≤ 3)
       then Some (retry_request response page (a + Z.of_nat k))
       else None) <$> seq 1 n ∧
  default 0 (page_attempts (retry_times n response s).1 !! page)
  = a + Z.of_nat n.
Proof.
  induction n as [|n IH]; intros s Hp a.
  { simpl. split; [done|]. unfold a. lia. }
  simpl. rewrite (retry_page_run _ _ _ Hp). simpl.
  set (s1 := set_page_attempts _ s).
  destruct (IH s1 Hp) as [IH1 IH2].
  assert (default 0 (page_attempts s1 !! page) = a + 1) as Ha1.
  { unfold s1. simpl. by rewrite lookup_insert_eq. }
  rewrite Ha1 in IH1, IH2.
  destruct (retry_times n response s1) as [s2 rest]. simpl in *.
  split.
  - f_equal.
    rewrite IH1, <-(fmap_S_seq 1 n), <-list_fmap_compose.
    apply list_fmap_ext. intros _ k _. simpl.
    by replace (a + 1 + Z.of_nat k) with (a + Z.of_nat (S k)) by lia.
  - rewrite IH2. lia.
Qed.

(** X7: when [retry_page] is called again and again for one page, the
    call that brings the count to [k] returns a request with delay
    [2 ^ k], priority 10 and no errback as long as [k ≤ 3], and nothing
    afterwards; each call counts one attempt.  With no attempt counted
    before, only the first three calls return a request. *)
Theorem retry_page_at_most_three (response : response) (s : spider)
    (page : Z) (n : nat) :
  m_page (resp_meta response) = Some page →
  let a := default 0 (page_attempts s !! page) in
  let result := retry_times n response s in
  default 0 (page_attempts result.1 !! page) = a + Z.of_nat n ∧
  (∀ i r, result.2 !! i = Some (Some r) →
          a + Z.of_nat (S i) ≤ 3 ∧
          m_download_delay (req_meta r) = Some (2 ^ (a + Z.of_nat (S i))) ∧
          m_retry_count (req_meta r) = Some (a + Z.of_nat (S i)) ∧
          m_page (req_meta r) = Some page ∧
          req_target r = Url (resp_url response) ∧
          req_priority r = 10 ∧ req_errback r = None) ∧
  (∀ i, (i < n)%nat → 3 < a + Z.of_nat (S i) → result.2 !! i = Some None).
Proof.
  intros Hp a result.
  destruct (retry_times_run response page n s Hp) as [Hres Hatt].
  fold a in Hres, Hatt. fold result in Hres, Hatt.
  split; [exact Hatt|]. rewrite Hres. split.
  - intros i r. rewrite list_lookup_fmap.
    destruct (seq 1 n !! i) as [k|] eqn:Hk; [|done].
    apply lookup_seq in Hk as [-> _]. simpl.
    case_bool_decide; [|done]. intros [= <-]. by repeat split.
  - intros i Hi Hgt. rewrite list_lookup_fmap.
    rewrite (proj2 (lookup_seq 1 n i (1 + i)%nat)) by done. simpl.
    by rewrite bool_decide_eq_false_2 by lia.
Qed.

(** X7 on five calls for page 7 from the initial spider. *)
Lemma retry_page_at_most_three_sample :
  m_page (resp_meta (page7 0)) = Some 7 ∧
  (retry_times 5 (page7 0) (init None)).2
  = [Some (retry_request (page7 0) 7 1); Some (retry_request (page7 0) 7 2);
     Some (retry_request (page7 0) 7 3); None; None] ∧
  default 0 (page_attempts (retry_times 5 (page7 0) (init None)).1 !! 7) = 5.
Proof.
  split; [reflexivity|]. split; [vm_compute; reflexivity|].
  exact (proj1 (retry_page_at_most_three (page7 0) (init None) 7 5 eq_refl)).
Defined.

(** ** The tab requests of a detail page *)

Lemma tabs_to_fetch_spec tabs keep :
  tabs_to_fetch tabs = Ok keep →
  (keep `sublist_of` tabs) ∧
  Forall (λ tab, ∃ t, tab_text tab = Some t ∧ PyStr.strip t ∉ excluded_tabs)
    keep.
Proof.
  revert keep. induction tabs as [|tab rest IH]; intros keep; simpl.
  { intros [= <-]. split; constructor. }
  unfold tab_title_of. destruct (tab_text tab) as [t|] eqn:Ht; [|done].
  destruct (tabs_to_fetch rest) as [keep'|]; [|done].
  destruct (IH keep' eq_refl) as [Hsub Hall].
  case_bool_decide; intros [= <-].
  - split; [by constructor|done].
  - split; [by constructor|]. constructor; eauto.
Qed.

Lemma tabs_to_fetch_no_text tabs :
  (∃ tab, tab ∈ tabs ∧ tab_text tab = None) →
  tabs_to_fetch tabs
  = Raise (AttributeError "'NoneType' object has no attribute 'strip'").
Proof.
  intros (tab & Hin & Htab).
  induction tabs as [|tab' rest IH]; [by apply elem_of_nil in Hin|].
  simpl. unfold tab_title_of.
  apply elem_of_cons in Hin as [<-|Hin].
  - by rewrite Htab.
  - destruct (tab_text tab'); [|done]. by rewrite (IH Hin).
Qed.

Lemma tab_requests_origin response l tabs :
  Forall (λ r, ∃ tab t h,
            tab ∈ tabs ∧ tab_text tab = Some t ∧ tab_href tab = Some h ∧
            r = tab_request (Follow (resp_url response) h) l (PyStr.strip t))
    (tab_requests response l tabs).1.
Proof.
  induction tabs as [|tab rest IH]; simpl; [constructor|].
  unfold tab_title_of, follow.
  destruct (tab_text tab) as [t|] eqn:Ht; [|constructor].
  destruct (tab_href tab) as [h|] eqn:Hh; [|constructor].
  destruct (tab_requests response l rest) as [reqs r]. simpl in *.
  constructor.
  - exists tab, t, h. repeat split; try done. by left.
  - eapply Forall_impl; [exact IH|].
    intros r0 (tab0 & t0 & h0 & ? & ? & ? & ?). exists tab0, t0, h0.
    repeat split; try done. by right.
Qed.

Lemma tab_requests_no_href response l tabs :
  Forall (λ tab, is_Some (tab_text tab)) tabs →
  (∃ tab, tab ∈ tabs ∧ tab_href tab = None) →
  (tab_requests response l tabs).2 = Raise (ValueError "url can't be None") ∧
  (length (tab_requests response l tabs).1 < length tabs)%nat.
Proof.
  intros Hall (tab & Hin & Htab).
  induction Hall as [|tab' rest [t Ht] _ IH]; [by apply elem_of_nil in Hin|].
  simpl. unfold tab_title_of, follow. rewrite Ht.
  destruct (tab_href tab') as [h|] eqn:Hh.
  - apply elem_of_cons in Hin as [->|Hin]; [congruence|].
    destruct (IH Hin) as [IH1 IH2].
    destruct (tab_requests response l rest) as [reqs r]. simpl in *.
    split; [done|lia].
  - simpl. split; [done|lia].
Qed.

Lemma parse_college_page_no_record response s l :
  m_college_data (resp_meta response) = Some l →
  store s !! l = None →
  parse_college_page response s = (s, [], Raise (TypeError "not a dictionary")).
Proof.
  intros Hl Hd. unfold parse_college_page. rewrite Hl. simpl.
  rewrite bind_run. simpl. rewrite bind_run.
  unfold dict_set at 1. rewrite bind_run. unfold read_obj at 1. by rewrite Hd.
Qed.

(** X8: every tab request the detail callback yields comes from a link
    of the sub-navigation that has a text and a target; its title is the
    stripped text, never Gallery, Reviews, News or QnA; it follows that
    link from the detail page and refers to the record of the detail
    request. *)
Theorem tab_requests_skip_excluded (response : response) (s : spider)
    (r : request) :
  r ∈ yielded_requests (parse_college_page response s).1.2 →
  ∃ tab t h,
    tab ∈ nav_tabs response ∧ tab_text tab = Some t ∧ tab_href tab = Some h ∧
    (PyStr.strip t ∉ excluded_tabs) ∧
    m_tab_title (req_meta r) = Some (PyStr.strip t) ∧
    req_target r = Follow (resp_url response) h ∧
    m_college_data (req_meta r) = m_college_data (resp_meta response) ∧
    req_callback r = ParseTabContent.
Proof.
  destruct (m_college_data (resp_meta response)) as [l|] eqn:Hl.
  2:{ unfold parse_college_page. rewrite Hl. simpl. rewrite ?bind_run. simpl.
      intros Hr. by apply elem_of_nil in Hr. }
  destruct (store s !! l) as [d|] eqn:Hd.
  2:{ rewrite (parse_college_page_no_record _ _ l) by done. simpl.
      intros Hr. by apply elem_of_nil in Hr. }
  rewrite (parse_college_page_run _ _ l d) by done. simpl.
  destruct (tabs_to_fetch (nav_tabs response)) as [tabs|err] eqn:Htabs.
  2:{ simpl. intros Hr. by apply elem_of_nil in Hr. }
  destruct (tabs_to_fetch_spec _ _ Htabs) as [Hsub Hkeep].
  pose proof (tab_requests_origin response l tabs) as Horigin.
  destruct (tab_requests response l tabs) as [reqs rr]. simpl in Horigin.
  assert (r ∈ reqs → ∃ tab t h,
    tab ∈ nav_tabs response ∧ tab_text tab = Some t ∧ tab_href tab = Some h ∧
    (PyStr.strip t ∉ excluded_tabs) ∧
    m_tab_title (req_meta r) = Some (PyStr.strip t) ∧
    req_target r = Follow (resp_url response) h ∧
    m_college_data (req_meta r) = Some l ∧
    req_callback r = ParseTabContent) as Hmain.
  { intros Hr.
    apply (proj1 (Forall_forall _ _) Horigin) in Hr
      as (tab & t & h & Hin & Ht & Hh & ->).
    apply (proj1 (Forall_forall _ _) Hkeep) in Hin as Hex.
    destruct Hex as (t' & Ht' & Hex). rewrite Ht in Ht'. injection Ht' as <-.
    exists tab, t, h. repeat split; try done.
    by eapply elem_of_sublist. }
  destruct rr as [[]|err]; simpl.
  - rewrite yielded_requests_app, yielded_requests_fmap.
    intros [Hr|Hr]%elem_of_app; [by apply Hmain|].
    destruct tabs; simpl in Hr; by apply elem_of_nil in Hr.
  - rewrite yielded_requests_fmap. apply Hmain.
Qed.

(** X8 on a navigation with two tabs to fetch and a gallery. *)
Lemma tab_requests_skip_excluded_sample :
  sample_tab_request "Admission"
    ∈ yielded_requests
        (parse_college_page
           (detail_for_record ["Courses"; "Gallery"; "Admission"])
           one_record).1.2 ∧
  length (yielded_requests
            (parse_college_page
               (detail_for_record ["Courses"; "Gallery"; "Admission"])
               one_record).1.2) = 2%nat ∧
  ∃ tab t h,
    tab ∈ nav_tabs (detail_for_record ["Courses"; "Gallery"; "Admission"]) ∧
    tab_text tab = Some t ∧ tab_href tab = Some h ∧
    (PyStr.strip t ∉ excluded_tabs) ∧
    m_tab_title (req_meta (sample_tab_request "Admission"))
      = Some (PyStr.strip t).
Proof.
  assert (sample_tab_request "Admission"
            ∈ yielded_requests
                (parse_college_page
                   (detail_for_record ["Courses"; "Gallery"; "Admission"])
                   one_record).1.2) as Hin.
  { apply (list_elem_of_lookup_2 _ 1). vm_compute. reflexivity. }
  split; [exact Hin|]. split; [vm_compute; reflexivity|].
  destruct (tab_requests_skip_excluded _ _ _ Hin)
    as (tab & t & h & H1 & H2 & H3 & H4 & H5 & _).
  exists tab, t, h. auto.
Defined.

(** ** A detail page with a broken link in its navigation *)

(** X9: when a tab to fetch has no target, the detail callback raises
    [ValueError] in the middle of its loop: the requests for the tabs
    before it are yielded, fewer than the counter it has already set, so
    the record is not emitted by the callback and is not emitted either
    when all the yielded requests are answered. *)
Theorem missing_tab_link_blocks_record (response : response) (s : spider)
    (l : loc) (d : dict) (tabs : list nav_tab)
    (evs : list (request * download)) :
  m_college_data (resp_meta response) = Some l →
  store s !! l = Some d →
  tabs_to_fetch (nav_tabs response) = Ok tabs →
  (∃ tab, tab ∈ tabs ∧ tab_href tab = None) →
  let result := parse_college_page response s in
  evs.*1 ≡ₚ yielded_requests result.1.2 →
  result.2 = Raise (ValueError "url can't be None") ∧
  (length (yielded_requests result.1.2) < length tabs)%nat ∧
  store result.1.1 !! l ≫= (.!! "tabs_pending")
    = Some (VInt (Z.of_nat (length tabs))) ∧
  yielded_items result.1.2 = [] ∧
  yielded_items (deliver_all result.1.1 evs).2 = [].
Proof.
  intros Hl Hd Htabs Hbroken. simpl.
  rewrite (parse_college_page_run _ _ l d) by done. simpl. rewrite Htabs.
  destruct (tabs_to_fetch_spec _ _ Htabs) as [_ Htext].
  destruct (tab_requests_no_href response l tabs) as [Hraise Hlen]; [|done|].
  { eapply Forall_impl; [exact Htext|]. intros tab (t & -> & _). eauto. }
  pose proof (tab_requests_all response l tabs) as Hall.
  destruct (tab_requests response l tabs) as [reqs rr]. simpl in *.
  specialize (Hall _ _ eq_refl). subst rr. simpl.
  rewrite yielded_requests_fmap, yielded_items_fmap.
  intros Hperm.
  split; [done|]. split; [done|]. split; [|split; [done|]].
  { rewrite lookup_insert_eq. simpl. apply lookup_insert_eq. }
  assert (Forall (λ ev : request * download,
                    ∃ t title, ev.1 = tab_request t l title) evs) as Hevs.
  { apply Forall_forall. intros ev Hev.
    apply (proj1 (Forall_forall _ _) Hall (ev.1)).
    rewrite <-Hperm. by apply list_elem_of_fmap_2. }
  assert (length evs = length reqs) as Hlen'
    by by rewrite <-Hperm, length_fmap.
  pose proof (count_fetched_failed evs) as Hsum.
  rewrite (deliver_all_run l evs _ _ ∅ (Z.of_nat (length tabs)) Hevs
             (store_upd _ _ _)); cycle 1.
  { by rewrite lookup_insert_ne, detail_fields_tabs. }
  { by rewrite lookup_insert_eq. }
  { lia. }
  { lia. }
  cbv zeta. by rewrite bool_decide_eq_false_2 by lia.
Qed.

(** X9 on a navigation whose second tab has no target. *)
Lemma missing_tab_link_blocks_record_sample :
  let response :=
    detail_with [link (Some "Courses") (Some "/courses");
                 link (Some "Admission") None;
                 link (Some "Placement") (Some "/placement")] in
  let evs := [(tab_request
                 (Follow "https://www.collegedekho.com/colleges/aiims"
                    "/courses") 0%nat "Courses",
               Fetched (tab_page "Courses offered" "<p>a</p>"))] in
  tabs_to_fetch (nav_tabs response) = Ok (nav_tabs response) ∧
  evs.*1 ≡ₚ yielded_requests (parse_college_page response one_record).1.2 ∧
  (parse_college_page response one_record).2
    = Raise (ValueError "url can't be None") ∧
  yielded_items
    (deliver_all (parse_college_page response one_record).1.1 evs).2 = [].
Proof.
  intros response evs.
  assert (store one_record !! 0%nat
          = Some (extract_college_data (sample_card "AIIMS" "/colleges/aiims")))
    as Hd by reflexivity.
  assert (tabs_to_fetch (nav_tabs response) = Ok (nav_tabs response)) as Htabs
    by (vm_compute; reflexivity).
  assert (evs.*1 ≡ₚ yielded_requests
                      (parse_college_page response one_record).1.2) as Hperm
    by (vm_compute; reflexivity).
  assert (∃ tab, tab ∈ nav_tabs response ∧ tab_href tab = None) as Hbroken.
  { exists (link (Some "Admission") None). split; [|reflexivity].
    apply (list_elem_of_lookup_2 _ 1). reflexivity. }
  pose proof (missing_tab_link_blocks_record response one_record 0%nat _ _ evs
                eq_refl Hd Htabs Hbroken Hperm) as (H1 & _ & _ & _ & H2).
  split; [exact Htabs|]. split; [exact Hperm|]. split; [exact H1|exact H2].
Defined.

(** X10: one link of the sub-navigation without a text makes the
    detail callback raise [AttributeError]: the detail fields are
    already in the record, but no counter is set, no tab is requested
    and the record is not emitted. *)
Theorem textless_tab_stops_detail_page (response : response) (s : spider)
    (l : loc) (d : dict) :
  m_college_data (resp_meta response) = Some l →
  store s !! l = Some d →
  (∃ tab, tab ∈ nav_tabs response ∧ tab_text tab = None) →
  parse_college_page response s
  = (upd l (detail_fields response d) s, [],
     Raise (AttributeError "'NoneType' object has no attribute 'strip'")) ∧
  detail_fields response d !! "tabs_pending" = d !! "tabs_pending".
Proof.
  intros Hl Hd Htab.
  rewrite (parse_college_page_run _ _ l d) by done. simpl.
  rewrite (tabs_to_fetch_no_text _ Htab). split; [done|].
  apply detail_fields_counter.
Qed.

(** X10 on a navigation whose last link is an icon without text, even
    though that link is one the callback would not fetch. *)
Lemma textless_tab_stops_detail_page_sample :
  let response :=
    detail_with [link (Some "Courses") (Some "/courses");
                 link None (Some "/gallery")] in
  (∃ tab, tab ∈ nav_tabs response ∧ tab_text tab = None) ∧
  (parse_college_page response one_record).1.2 = [] ∧
  store (parse_college_page response one_record).1.1 !! 0%nat
    ≫= (.!! "tabs_pending") = None.
Proof.
  intros response.
  assert (∃ tab, tab ∈ nav_tabs response ∧ tab_text tab = None) as Htab.
  { exists (link None (Some "/gallery")). split; [|reflexivity].
    apply (list_elem_of_lookup_2 _ 1). reflexivity. }
  assert (store one_record !! 0%nat
          = Some (extract_college_data (sample_card "AIIMS" "/colleges/aiims")))
    as Hd by reflexivity.
  destruct (textless_tab_stops_detail_page response one_record 0%nat _
              eq_refl Hd Htab) as [Hrun Hcounter].
  split; [exact Htab|]. rewrite Hrun. split; [reflexivity|].
  simpl. rewrite lookup_insert_eq. simpl. rewrite Hcounter.
  vm_compute. reflexivity.
Defined.

(** ** Any number of tabs, answered in any order *)

Lemma merged_other m evs k :
  k ∉ fetched_keys evs → merged m evs !! k = m !! k.
Proof.
  revert m. induction evs as [|[r dl] evs IH]; intros m Hk; [done|].
  destruct dl as [doc|reason]; simpl in *.
  - apply not_elem_of_cons in Hk as [Hne Hk].
    rewrite IH by done. by rewrite lookup_insert_ne.
  - by apply IH.
Qed.

Lemma merged_lookup m evs r doc :
  NoDup (fetched_keys evs) → (r, Fetched doc) ∈ evs →
  merged m evs !! key_of r = Some (section_of r doc).
Proof.
  revert m. induction evs as [|[r' dl] evs IH]; intros m Hnd Hin.
  { by apply elem_of_nil in Hin. }
  apply elem_of_cons in Hin as [Heq|Hin].
  - injection Heq as <- <-. simpl in *. apply NoDup_cons in Hnd as [Hk _].
    rewrite merged_other by done. apply lookup_insert_eq.
  - destruct dl as [doc'|reason]; simpl in *; apply IH; try done.
    by apply NoDup_cons in Hnd as [_ ?].
Qed.

Lemma dom_merged m evs :
  dom (merged m evs) = dom m ∪ list_to_set (fetched_keys evs).
Proof.
  revert m. induction evs as [|[r dl] evs IH]; intros m; simpl.
  { by rewrite (right_id_L ∅ (∪)). }
  destruct dl as [doc|reason]; simpl; rewrite IH; [|done].
  by rewrite dom_insert_L, (comm_L (∪) {[key_of r]}), <-(assoc_L (∪)).
Qed.

Lemma fetched_keys_all evs :
  count is_failed evs = 0%nat → fetched_keys evs = key_of <$> evs.*1.
Proof.
  induction evs as [|[r dl] evs IH]; [done|].
  simpl. unfold is_failed at 1, is_fetched at 1 2. simpl.
  destruct dl; simpl; [|lia]. intros Hc. by rewrite IH.
Qed.

(** X11: when the tab requests of an item have pairwise distinct keys
    and every one is answered by a response, the record is emitted
    exactly once, by the last answer; it is the same record in whatever
    order the answers arrive, and its ["tabs"] holds one section for
    each request, under the key of the request. *)
Theorem tabs_in_any_order (response : response) (s s1 : spider) (l : loc)
    (d : dict) (out : list output) (evs evs' : list (request * download)) :
  m_college_data (resp_meta response) = Some l →
  store s !! l = Some d →
  parse_college_page response s = (s1, out, Ok ()) →
  yielded_requests out ≠ [] →
  evs.*1 ≡ₚ yielded_requests out →
  count is_failed evs = 0%nat →
  NoDup (key_of <$> yielded_requests out) →
  evs' ≡ₚ evs →
  ∃ tabs,
    let record := delete "tabs_pending"
                    (<["tabs" := VDict tabs]> (detail_fields response d)) in
    yielded_items (deliver_all s1 evs).2 = [(l, record)] ∧
    yielded_items (deliver_all s1 evs').2 = [(l, record)] ∧
    dom tabs = list_to_set (key_of <$> yielded_requests out) ∧
    ∀ r doc, (r, Fetched doc) ∈ evs →
             tabs !! key_of r = Some (section_of r doc).
Proof.
  intros Hl Hd Hpage Hne Hperm Hfailed Hnd Hperm'.
  destruct (parse_college_page_ok _ _ _ _ _ _ Hl Hd Hpage) as (-> & Hall & _).
  assert (NoDup (fetched_keys evs)) as Hkeys.
  { rewrite (fetched_keys_all _ Hfailed). by rewrite Hperm. }
  assert (∀ evs0, evs0 ≡ₚ evs →
            yielded_items
              (deliver_all
                 (upd l (<["tabs_pending" :=
                             VInt (Z.of_nat (length (yielded_requests out)))]>
                           (detail_fields response d)) s) evs0).2
            = [(l, delete "tabs_pending"
                     (<["tabs" := VDict (merged ∅ evs)]>
                        (detail_fields response d)))]) as Hany.
  { intros evs0 H0.
    assert (length evs0 = length (yielded_requests out)) as Hlen.
    { by rewrite H0, <-Hperm, length_fmap. }
    assert (Forall (λ ev : request * download,
                      ∃ t title, ev.1 = tab_request t l title) evs0) as Hevs.
    { apply Forall_forall. intros ev Hev.
      apply (proj1 (Forall_forall _ _) Hall (ev.1)).
      rewrite <-Hperm, <-H0. by apply list_elem_of_fmap_2. }
    pose proof (count_fetched_failed evs0) as Hsum.
    rewrite (count_perm is_failed _ _ H0), Hfailed in Hsum.
    assert (0 < length (yielded_requests out))%nat as Hpos.
    { destruct (yielded_requests out); [done|simpl; lia]. }
    rewrite (deliver_all_run l evs0 _ _ ∅
               (Z.of_nat (length (yielded_requests out))) Hevs
               (store_upd _ _ _)); cycle 1.
    { by rewrite lookup_insert_ne, detail_fields_tabs. }
    { by rewrite lookup_insert_eq. }
    { lia. }
    { lia. }
    cbv zeta. rewrite bool_decide_eq_true_2 by lia. simpl.
    rewrite <-(merged_perm evs evs0) by done.
    do 2 f_equal. apply map_eq. intros k.
    destruct (decide (k = "tabs_pending")), (decide (k = "tabs"));
      by simplify_map_eq. }
  exists (merged ∅ evs). cbv zeta.
  split; [by apply Hany|]. split; [by apply Hany|]. split.
  - rewrite dom_merged, dom_empty_L, (fetched_keys_all _ Hfailed), Hperm.
    by rewrite (left_id_L ∅ (∪)).
  - intros r doc Hin. by apply merged_lookup.
Qed.

(** X11 on four tabs, answered in the order of the page and backwards. *)
Lemma tabs_in_any_order_sample :
  let response :=
    detail_for_record ["Courses"; "Admission"; "Placement"; "Cut Off"] in
  let answer title := (sample_tab_request title,
                       Fetched (tab_page title "<p>text</p>")) in
  let evs := answer <$> ["Courses"; "Admission"; "Placement"; "Cut Off"] in
  let s1 := (parse_college_page response one_record).1.1 in
  let out := (parse_college_page response one_record).1.2 in
  evs.*1 ≡ₚ yielded_requests out ∧
  NoDup (key_of <$> yielded_requests out) ∧
  yielded_items (deliver_all s1 (reverse evs)).2
  = yielded_items (deliver_all s1 evs).2 ∧
  length (yielded_items (deliver_all s1 evs).2) = 1%nat.
Proof.
  intros response answer evs s1 out.
  assert (store one_record !! 0%nat
          = Some (extract_college_data (sample_card "AIIMS" "/colleges/aiims")))
    as Hd by reflexivity.
  assert (parse_college_page response one_record = (s1, out, Ok ())) as Hpage
    by (vm_compute; reflexivity).
  assert (yielded_requests out ≠ []) as Hne by (vm_compute; discriminate).
  assert (evs.*1 ≡ₚ yielded_requests out) as Hperm
    by (vm_compute; reflexivity).
  assert (NoDup (key_of <$> yielded_requests out)) as Hnd.
  { apply (bool_decide_unpack _). vm_compute. exact I. }
  assert (reverse evs ≡ₚ evs) as Hrev by apply reverse_Permutation.
  destruct (tabs_in_any_order response one_record s1 0%nat _ out evs
              (reverse evs) eq_refl Hd Hpage Hne Hperm eq_refl Hnd Hrev)
    as (tabs & H1 & H2 & _).
  split; [exact Hperm|]. split; [exact Hnd|].
  rewrite H1, H2. split; reflexivity.
Defined.

(** ** Keeping the first entry of each key *)

Lemma first_by_key_spec {B} (xs acc : list (string * B)) :
  NoDup acc.*1 →
  NoDup (first_by_key xs acc).*1 ∧
  ∀ k v, (k, v) ∈ first_by_key xs acc ↔
         (k, v) ∈ acc ∨ ((k ∉ acc.*1) ∧ first_with_key xs k v).
Proof.
  revert acc. induction xs as [|[k0 v0] rest IH]; intros acc Hnd; simpl.
  { split; [done|]. intros k v. split; [by left|].
    intros [?|[_ (before & after & Heq & _)]]; [done|].
    by destruct before. }
  case_bool_decide as Hk0.
  - destruct (IH acc Hnd) as [IH1 IH2]. split; [done|].
    intros k v. rewrite IH2. split; (intros [?|[Hk Hfirst]]; [by left|right]);
      split; try done.
    + destruct Hfirst as (before & after & -> & Hb).
      exists ((k0, v0) :: before), after. split; [done|].
      rewrite fmap_cons. apply not_elem_of_cons. split; [|done].
      simpl. congruence.
    + destruct Hfirst as ([|[k1 v1] before] & after & Heq & Hb);
        simplify_eq/=; [done|].
      exists before, after. split; [done|].
      by apply not_elem_of_cons in Hb as [_ ?].
  - assert (NoDup (acc ++ [(k0, v0)]).*1) as Hnd'.
    { rewrite fmap_app. apply NoDup_app. split; [done|]. split.
      - intros k Hk [->|[]%elem_of_nil]%elem_of_cons. done.
      - apply NoDup_singleton. }
    destruct (IH _ Hnd') as [IH1 IH2]. split; [done|].
    intros k v. rewrite IH2, fmap_app, elem_of_app. simpl. split.
    + intros [[?|Hin]|[Hk Hfirst]].
      * by left.
      * apply list_elem_of_singleton in Hin as [= -> ->].
        right. split; [done|]. exists [], rest.
        split; [done|]. apply not_elem_of_nil.
      * apply not_elem_of_app in Hk as [Hk Hne].
        apply not_elem_of_cons in Hne as [Hne _].
        right. split; [done|].
        destruct Hfirst as (before & after & -> & Hb).
        exists ((k0, v0) :: before), after. split; [done|].
        rewrite fmap_cons. by apply not_elem_of_cons.
    + intros [?|[Hk Hfirst]]; [by left; left|].
      destruct Hfirst as ([|[k1 v1] before] & after & Heq & Hb);
        simplify_eq/=.
      * left; right. by apply list_elem_of_singleton.
      * apply not_elem_of_cons in Hb as [Hne Hb].
        right. split.
        -- apply not_elem_of_app. split; [done|].
           by apply not_elem_of_cons; split; [|apply not_elem_of_nil].
        -- by exists before, after.
Qed.

(** ** The content of a tab *)

Lemma has_title_entry t t' c :
  has_title t (block_entry t' c) = bool_decide (t' = t).
Proof. unfold has_title, block_entry. by rewrite lookup_insert_eq. Qed.

Lemma existsb_has_title t (acc : list (string * string)) :
  existsb (has_title t) ((λ e, block_entry e.1 e.2) <$> acc)
  = bool_decide (t ∈ acc.*1).
Proof.
  induction acc as [|[t' c] acc IH]; [done|].
  rewrite !fmap_cons. cbn [existsb]. rewrite has_title_entry, IH. simpl.
  destruct (decide (t' = t)) as [->|Hne].
  - rewrite (bool_decide_true (t = t)) by done. simpl.
    symmetry. apply bool_decide_true. by left.
  - rewrite (bool_decide_false (t' = t)) by done. simpl.
    apply bool_decide_ext. rewrite elem_of_cons. split; [by right|].
    intros [->|?]; done.
Qed.

Lemma tab_content_first_by_key blocks acc :
  tab_content blocks ((λ e, block_entry e.1 e.2) <$> acc)
  = (λ e, block_entry e.1 e.2) <$> first_by_key (omap tab_entry blocks) acc.
Proof.
  revert acc. induction blocks as [|block rest IH]; intros acc; [done|].
  simpl. unfold tab_entry at 1.
  destruct (PyStr.strip_or_none (h2_text block)) as [t|]; [|apply IH].
  destruct (detail_html block) as [c|]; [|apply IH].
  destruct (PyStr.truthy (Some t) && PyStr.truthy (Some c)); simpl;
    [|apply IH].
  rewrite existsb_has_title.
  case_bool_decide; simpl; [apply IH|].
  rewrite <-IH. by rewrite fmap_app.
Qed.

Lemma tab_entry_Some block t c :
  tab_entry block = Some (t, c) ↔
  (∃ h, h2_text block = Some h ∧ h ≠ "" ∧ t = PyStr.strip h) ∧
  t ≠ "" ∧ detail_html block = Some c ∧ c ≠ "".
Proof.
  unfold tab_entry, PyStr.strip_or_none, PyStr.truthy.
  destruct (h2_text block) as [[|a h]|]; simpl.
  - split; [done|]. by intros [(h & [= <-] & ? & _) _].
  - destruct (detail_html block) as [c'|].
    + destruct (PyStr.strip (String a h)) as [|b t'] eqn:Ht; simpl.
      * split; [done|]. intros [(h' & [= <-] & _ & ->) [? _]]. done.
      * destruct c' as [|x c']; simpl.
        -- split; [done|]. by intros (_ & _ & [= <-] & ?).
        -- split.
           ++ intros [= <- <-]. split; [|done]. eexists. split; [done|].
              split; [done|]. done.
           ++ intros [(h' & [= <-] & _ & ->) (_ & [= <-] & _)].
              by rewrite Ht.
    + split; [done|]. by intros (_ & _ & [=] & _).
  - split; [done|]. by intros [(h & [=] & _) _].
Qed.

(** X12: the content list the tab callback builds has one entry for
    each title: the first block of the page with that title among the
    blocks that have a title and a content, both not empty.  No two
    entries share a title, and no entry has an empty title or an empty
    content. *)
Theorem tab_content_first_of_each_title (blocks : list tab_block) :
  ∃ entries : list (string * string),
    tab_content blocks [] = (λ e, block_entry e.1 e.2) <$> entries ∧
    NoDup entries.*1 ∧
    (∀ t c, (t, c) ∈ entries ↔ first_with_key (omap tab_entry blocks) t c) ∧
    (∀ t c, (t, c) ∈ entries → t ≠ "" ∧ c ≠ "").
Proof.
  exists (first_by_key (omap tab_entry blocks) []).
  destruct (first_by_key_spec (omap tab_entry blocks) [] (NoDup_nil_2))
    as [Hnd Hin].
  assert (∀ t c, (t, c) ∈ first_by_key (omap tab_entry blocks) [] ↔
                 first_with_key (omap tab_entry blocks) t c) as Hfirst.
  { intros t c. rewrite Hin. split.
    - intros [[]%elem_of_nil|[_ ?]]. done.
    - intros ?. right. split; [apply not_elem_of_nil|done]. }
  split; [exact (tab_content_first_by_key blocks [])|]. split; [done|].
  split; [done|].
  intros t c (before & after & Heq & _)%Hfirst.
  assert ((t, c) ∈ omap tab_entry blocks) as (block & _ & Hb)%list_elem_of_omap.
  { rewrite Heq. apply elem_of_app. right. left. }
  apply tab_entry_Some in Hb as (_ & ? & _ & ?). done.
Qed.

(** ** The questions of a detail page *)

Lemma has_question_dict q q' a :
  has_question q (faq_dict q' a) = bool_decide (q' = q).
Proof. unfold has_question, faq_dict. by rewrite lookup_insert_eq. Qed.

Lemma existsb_has_question q (acc : list (string * string)) :
  existsb (has_question q) ((λ e, faq_dict e.1 e.2) <$> acc)
  = bool_decide (q ∈ acc.*1).
Proof.
  induction acc as [|[q' a] acc IH]; [done|].
  rewrite !fmap_cons. cbn [existsb]. rewrite has_question_dict, IH. simpl.
  destruct (decide (q' = q)) as [->|Hne].
  - rewrite (bool_decide_true (q = q)) by done. simpl.
    symmetry. apply bool_decide_true. by left.
  - rewrite (bool_decide_false (q' = q)) by done. simpl.
    apply bool_decide_ext. rewrite elem_of_cons. split; [by right|].
    intros [->|?]; done.
Qed.

Lemma faqs_from_first_by_key blocks acc :
  faqs_from blocks ((λ e, faq_dict e.1 e.2) <$> acc)
  = (λ e, faq_dict e.1 e.2) <$> first_by_key (omap faq_entry blocks) acc.
Proof.
  revert acc. induction blocks as [|faq rest IH]; intros acc; [done|].
  simpl. unfold faq_entry at 1.
  destruct (PyStr.strip_or_none (faq_h3_text faq)) as [q|]; [|apply IH].
  destruct (PyStr.strip_or_none (faq_answer_text faq)) as [a|]; [|apply IH].
  destruct (PyStr.truthy (Some q) && PyStr.truthy (Some a)); simpl;
    [|apply IH].
  rewrite existsb_has_question.
  case_bool_decide; simpl; [apply IH|].
  rewrite <-IH. by rewrite fmap_app.
Qed.

Lemma faq_entry_Some faq q a :
  faq_entry faq = Some (q, a) →
  q ≠ "" ∧ a ≠ "" ∧
  (PyStr.strip <$> faq_h3_text faq) = Some q ∧
  (PyStr.strip <$> faq_answer_text faq) = Some a.
Proof.
  unfold faq_entry, PyStr.strip_or_none.
  destruct (PyStr.truthy (faq_h3_text faq)); [|done].
  destruct (faq_h3_text faq) as [h|]; [|done]. simpl.
  destruct (PyStr.truthy (faq_answer_text faq)); [|done].
  destruct (faq_answer_text faq) as [t|]; [|done]. simpl.
  destruct (PyStr.strip h) as [|c1 q1]; [done|].
  destruct (PyStr.strip t) as [|c2 a1]; [done|]. simpl.
  by intros [= <- <-].
Qed.

(** X13: [extract_faqs] gives one entry for each question: the first
    block with that question among the blocks whose question and answer
    are both there and not empty once stripped.  No two entries share a
    question and no entry has an empty question or answer. *)
Theorem extract_faqs_first_of_each_question (blocks : list faq_block) :
  ∃ entries : list (string * string),
    extract_faqs blocks = (λ e, faq_dict e.1 e.2) <$> entries ∧
    NoDup entries.*1 ∧
    (∀ q a, (q, a) ∈ entries ↔ first_with_key (omap faq_entry blocks) q a) ∧
    (∀ q a, (q, a) ∈ entries → q ≠ "" ∧ a ≠ "").
Proof.
  exists (first_by_key (omap faq_entry blocks) []).
  destruct (first_by_key_spec (omap faq_entry blocks) [] (NoDup_nil_2))
    as [Hnd Hin].
  assert (∀ q a, (q, a) ∈ first_by_key (omap faq_entry blocks) [] ↔
                 first_with_key (omap faq_entry blocks) q a) as Hfirst.
  { intros q a. rewrite Hin. split.
    - intros [[]%elem_of_nil|[_ ?]]. done.
    - intros ?. right. split; [apply not_elem_of_nil|done]. }
  split; [exact (faqs_from_first_by_key blocks [])|]. split; [done|].
  split; [done|].
  intros q a (before & after & Heq & _)%Hfirst.
  assert ((q, a) ∈ omap faq_entry blocks) as (faq & _ & Hb)%list_elem_of_omap.
  { rewrite Heq. apply elem_of_app. right. left. }
  apply faq_entry_Some in Hb as (? & ? & _). done.
Qed.

(** ** The highlights of a detail page *)

Lemma last_with_key_cons {B} (xs : list (string * B)) k0 v0 k v :
  last_with_key ((k0, v0) :: xs) k v ↔
  (k = k0 ∧ v = v0 ∧ k ∉ xs.*1) ∨ last_with_key xs k v.
Proof.
  split.
  - intros ([|[k1 v1] before] & after & Heq & Hk); simplify_eq/=.
    + by left.
    + right. by exists before, after.
  - intros [(-> & -> & Hk)|(before & after & -> & Hk)].
    + by exists [], xs.
    + by exists ((k0, v0) :: before), after.
Qed.

Lemma insert_each_last {B} (es : list (string * B)) :
  ∀ (d : gmap string B) k v,
  foldl (λ d e, <[e.1 := e.2]> d) d es !! k = Some v ↔
  last_with_key es k v ∨ ((k ∉ es.*1) ∧ d !! k = Some v).
Proof.
  induction es as [|[k0 v0] es IH]; intros d k v.
  { simpl. split.
    - intros ?. right. split; [apply not_elem_of_nil|done].
    - intros [(before & after & Heq & _)|[_ ?]]; [|done].
      by destruct before. }
  cbn [foldl]. rewrite IH, last_with_key_cons, fmap_cons, not_elem_of_cons.
  simpl. destruct (decide (k = k0)) as [->|Hne].
  - rewrite lookup_insert_eq. split.
    + intros [?|[? [= ->]]]; [by left; right|]. left. by left.
    + intros [[(_ & -> & ?)|?]|[[? _] _]]; [|by left|done].
      right. done.
  - rewrite lookup_insert_ne by done. split.
    + intros [?|[? ?]]; [by left; right|]. right. done.
    + intros [[(? & _)|?]|[[_ ?] ?]]; [done|by left|by right].
Qed.

Lemma highlights_from_entries items : ∀ d,
  highlights_from items d
  = foldl (λ d e, <[e.1 := e.2]> d) d (omap highlight_entry items).
Proof.
  induction items as [|item rest IH]; intros d; [done|].
  change (omap highlight_entry (item :: rest))
    with (match highlight_entry item with
          | Some e => e :: omap highlight_entry rest
          | None => omap highlight_entry rest
          end).
  cbn [highlights_from]. unfold highlight_entry at 1.
  destruct (highlight_name item) as [key|]; [|apply IH].
  destruct (highlight_label item) as [v|]; [|apply IH].
  destruct (PyStr.truthy (Some key) && PyStr.truthy (Some v)); apply IH.
Qed.

(** X14: [extract_highlights] maps a key to the stripped label of the
    last item with that stripped name, among the items whose name and
    label are both there and not empty; where [extract_faqs] keeps the
    first of two entries, this keeps the last. *)
Theorem extract_highlights_last_wins (items : list highlight_box)
    (k v : string) :
  extract_highlights items !! k = Some v ↔
  last_with_key (omap highlight_entry items) k v.
Proof.
  unfold extract_highlights.
  rewrite highlights_from_entries, insert_each_last, lookup_empty.
  split; [|by left]. by intros [?|[_ ?]].
Qed.

(** A name of blanks is not empty, so the item is kept, under the empty
    key. *)
Example extract_highlights_blank_name :
  extract_highlights
    [{| highlight_name := Some "Established"; highlight_label := Some "1956" |};
     {| highlight_name := Some "  "; highlight_label := Some " x " |};
     {| highlight_name := Some " Established "; highlight_label := Some "1957" |};
     {| highlight_name := Some ""; highlight_label := Some "y" |}]
  = <["Established" := "1957"]> (<["" := "x"]> ∅).
Proof. vm_compute. reflexivity. Qed.

(** ** The courses of a detail page *)

Lemma existsb_has_course_title t (acc : list (string * course_card)) :
  Forall titled acc →
  existsb (has_course_title t) ((λ e, VDict (course_data_of e.2)) <$> acc)
  = bool_decide (t ∈ acc.*1).
Proof.
  induction 1 as [|[t' c] acc Ht _ IH]; [done|].
  rewrite !fmap_cons. cbn [existsb]. rewrite IH.
  unfold has_course_title. unfold titled in Ht. cbn [fst snd] in Ht |- *.
  rewrite Ht. destruct (decide (t' = t)) as [->|Hne].
  - clear Ht. rewrite (bool_decide_true (t = t)) by reflexivity.
    symmetry. apply bool_decide_true. left.
  - clear Ht. rewrite (bool_decide_false (t' = t)) by exact Hne.
    apply bool_decide_ext. rewrite elem_of_cons. split; [by right|].
    intros [Heq|?]; [|assumption]. exfalso. apply Hne. symmetry. exact Heq.
Qed.

Lemma course_entry_titled course e :
  course_entry course = Some e → titled e ∧ e.2 = course ∧ e.1 ≠ "".
Proof.
  unfold course_entry, titled.
  destruct (course_data_of course !! "course_title") as [v|] eqn:Ht;
    [|intros [=]].
  destruct v as [|n|t|l|m];
    [intros [=]|intros [=]| |intros [=]|intros [=]].
  destruct t as [|a t]; [intros [=]|]. cbn [PyStr.truthy].
  intros [= <-]. cbn [fst snd].
  split; [exact Ht|]. split; [reflexivity|]. intros [=].
Qed.

Lemma courses_from_first_by_key blocks : ∀ acc,
  Forall titled acc →
  courses_from blocks ((λ e, VDict (course_data_of e.2)) <$> acc)
  = (λ e, VDict (course_data_of e.2))
      <$> first_by_key (omap course_entry blocks) acc.
Proof.
  induction blocks as [|course rest IH]; intros acc Hacc; [reflexivity|].
  change (omap course_entry (course :: rest))
    with (match course_entry course with
          | Some e => e :: omap course_entry rest
          | None => omap course_entry rest
          end).
  cbn [courses_from].
  pose proof (course_entry_titled course) as He.
  unfold course_entry in He |- *.
  destruct (course_data_of course !! "course_title") as [v|];
    [|by apply IH].
  destruct v as [|n|t|l|m]; try (by apply IH).
  destruct (PyStr.truthy (Some t)); [|by apply IH].
  destruct (He _ eq_refl) as (Ht & _). clear He.
  cbn [first_by_key andb].
  rewrite existsb_has_course_title by exact Hacc.
  case_bool_decide; cbn [negb]; [by apply IH|].
  rewrite <-IH.
  - by rewrite fmap_app.
  - apply Forall_app. split; [exact Hacc|]. by apply Forall_singleton.
Qed.

(** X15: [extract_courses] gives one entry for each course title: the
    first block with that title, reduced to its fields that are not
    [None] and not empty.  No two entries share a title, every entry has
    a title that is not empty, and no entry has a [None] or empty
    field. *)
Theorem extract_courses_first_of_each_title (blocks : list course_card) :
  ∃ entries : list (string * course_card),
    extract_courses blocks = (λ e, VDict (course_data_of e.2)) <$> entries ∧
    NoDup entries.*1 ∧
    (∀ t c, (t, c) ∈ entries ↔ first_with_key (omap course_entry blocks) t c) ∧
    (∀ t c, (t, c) ∈ entries →
       c ∈ blocks ∧ t ≠ "" ∧
       course_data_of c !! "course_title" = Some (VStr t) ∧
       ∀ k v, course_data_of c !! k = Some v → truthy_value v = true).
Proof.
  exists (first_by_key (omap course_entry blocks) []).
  destruct (first_by_key_spec (omap course_entry blocks) [] (NoDup_nil_2))
    as [Hnd Hin].
  assert (∀ t c, (t, c) ∈ first_by_key (omap course_entry blocks) [] ↔
                 first_with_key (omap course_entry blocks) t c) as Hfirst.
  { intros t c. rewrite Hin. split.
    - intros [[]%elem_of_nil|[_ ?]]. done.
    - intros ?. right. split; [apply not_elem_of_nil|done]. }
  split; [exact (courses_from_first_by_key blocks [] (Forall_nil_2 _))|].
  split; [done|]. split; [done|].
  intros t c (before & after & Heq & _)%Hfirst.
  assert ((t, c) ∈ omap course_entry blocks)
    as (course & Hcourse & Hb)%list_elem_of_omap.
  { rewrite Heq. apply elem_of_app. right. left. }
  destruct (course_entry_titled _ _ Hb) as (Ht & Hc & Hne).
  cbn [fst snd] in Ht, Hc, Hne. subst course.
  split; [exact Hcourse|]. split; [exact Hne|]. split; [exact Ht|].
  intros k v Hk. unfold course_data_of in Hk.
  apply map_lookup_filter_Some in Hk as [_ Hv]. exact Hv.
Qed.

(** Three blocks: an empty fee is dropped, a block without a title is
    skipped, and so is a second block with the title of the first. *)
Example extract_courses_sample :
  extract_courses
    [ {| course_heading_text := Some " MBBS "; course_fees_text := Some "";
         course_duration_text := None; course_study_mode_text := None;
         course_eligibility_text := Some "10+2";
         course_offered_titles := [] |};
      {| course_heading_text := None; course_fees_text := Some "1 L";
         course_duration_text := None; course_study_mode_text := None;
         course_eligibility_text := None; course_offered_titles := ["x"] |};
      {| course_heading_text := Some "MBBS"; course_fees_text := Some "2 L";
         course_duration_text := None; course_study_mode_text := None;
         course_eligibility_text := None; course_offered_titles := [] |} ]
  = [VDict (<["course_title" := VStr "MBBS"]>
            (<["eligibility" := VStr "10+2"]> ∅))].
Proof. vm_compute. reflexivity. Qed.

(** ** The location of a block *)

Lemma append_cons c (s t : string) : String c s +:+ t = String c (s +:+ t).
Proof. reflexivity. Qed.

Lemma append_assoc (s1 s2 s3 : string) :
  (s1 +:+ s2) +:+ s3 = s1 +:+ (s2 +:+ s3).
Proof.
  induction s1 as [|c s1 IH]; [done|]. rewrite !append_cons. by f_equal.
Qed.

Lemma append_nil_r (s : string) : s +:+ "" = s.
Proof. induction s as [|c s IH]; [done|]. rewrite append_cons. by f_equal. Qed.

Lemma rev_app_append s acc : String.rev_app s acc = String.rev s +:+ acc.
Proof.
  unfold String.rev. revert acc.
  induction s as [|c s IH]; intros acc; [done|]. cbn [String.rev_app].
  rewrite (IH (String c acc)), (IH (String c "")).
  by rewrite append_assoc.
Qed.

Lemma rev_cons c s : String.rev (String c s) = String.rev s +:+ String c "".
Proof. unfold String.rev at 1. cbn [String.rev_app]. apply rev_app_append. Qed.

Lemma prefix_drop sep s :
  String.prefix sep s = true → s = sep +:+ string_drop (String.length sep) s.
Proof.
  revert sep. induction s as [|b s IH]; intros [|a sep]; try done.
  cbn [String.prefix String.length string_drop].
  destruct (Ascii.ascii_dec a b) as [->|]; [|done].
  intros H. rewrite append_cons. by rewrite <-(IH sep H).
Qed.

Lemma prefix_length sep s :
  String.prefix sep s = true → (String.length sep ≤ String.length s)%nat.
Proof.
  revert sep. induction s as [|b s IH]; intros [|a sep]; try done.
  - intros _. cbn [String.length]. lia.
  - cbn [String.prefix String.length].
    destruct (Ascii.ascii_dec a b) as [->|]; [|done].
    intros H. specialize (IH sep H). lia.
Qed.

Lemma split_go_not_nil sep skip cur s : PyStr.split_go sep skip cur s ≠ [].
Proof.
  revert skip cur. induction s as [|c s IH]; intros skip cur; [done|].
  cbn [PyStr.split_go].
  destruct skip; [|apply IH]. destruct (String.prefix sep (String c s)); [done|].
  apply IH.
Qed.

Lemma concat_cons sep x rest :
  rest ≠ [] → String.concat sep (x :: rest) = x +:+ sep +:+ String.concat sep rest.
Proof. by destruct rest. Qed.

Lemma split_go_concat sep : ∀ s skip cur,
  sep ≠ "" →
  (skip ≤ String.length s)%nat →
  String.concat sep (PyStr.split_go sep skip cur s)
  = String.rev cur +:+ string_drop skip s.
Proof.
  intros s skip cur Hsep. revert skip cur.
  induction s as [|c s IH]; intros skip cur Hskip.
  { simpl in Hskip. assert (skip = 0%nat) as -> by lia.
    cbn. by rewrite append_nil_r. }
  cbn [PyStr.split_go]. destruct skip as [|k].
  - destruct (String.prefix sep (String c s)) eqn:Hp.
    + rewrite concat_cons by apply split_go_not_nil.
      pose proof (prefix_length _ _ Hp) as Hlen.
      destruct sep as [|a sep]; [done|].
      cbn [String.length] in Hlen |- *.
      replace (S (String.length sep) - 1)%nat with (String.length sep) by lia.
      rewrite IH by lia.
      change (String.rev "" +:+ ?x) with x.
      cbn [string_drop]. rewrite (prefix_drop _ _ Hp) at 1.
      by cbn [string_drop String.length].
    + rewrite IH by lia. rewrite rev_cons. cbn [string_drop].
      by rewrite append_assoc.
  - cbn [string_drop]. apply IH. simpl in Hskip. lia.
Qed.

Lemma split_concat sep s : sep ≠ "" → String.concat sep (PyStr.split sep s) = s.
Proof.
  intros Hsep. unfold PyStr.split. rewrite split_go_concat by (done || lia).
  done.
Qed.

Lemma contains_split sep : sep ≠ "" → ∀ s cur,
  PyStr.contains sep s = true ↔
  (2 ≤ length (PyStr.split_go sep 0 cur s))%nat.
Proof.
  intros Hsep. induction s as [|c s IH]; intros cur.
  { destruct sep as [|a sep]; [done|]. cbn. split; [done|lia]. }
  cbn [PyStr.contains PyStr.split_go].
  destruct (String.prefix sep (String c s)) eqn:Hp; cbn [orb].
  - split; [|done]. intros _. cbn [length].
    pose proof (split_go_not_nil sep (String.length sep - 1) "" s).
    destruct (PyStr.split_go sep (String.length sep - 1) "" s); [done|].
    simpl. lia.
  - apply IH.
Qed.

Lemma extract_location_Ok loc city state :
  extract_location loc = Ok (Some city, Some state) →
  loc = Some (city +:+ ", " +:+ state).
Proof.
  unfold extract_location. destruct loc as [info|]; [|done].
  destruct (PyStr.truthy (Some info)); [|done].
  destruct (PyStr.contains ", " info); [|done].
  pose proof (split_concat ", " info) as Hjoin.
  destruct (PyStr.split ", " info) as [|c [|st [|x rest]]]; try done.
  intros [= <- <-]. f_equal. symmetry. by apply Hjoin.
Qed.

Lemma extract_location_Raise loc e :
  extract_location loc = Raise e ↔
  e = ValueError "too many values to unpack (expected 2)" ∧
  ∃ info, loc = Some info ∧ (3 ≤ length (PyStr.split ", " info))%nat.
Proof.
  unfold extract_location. destruct loc as [info|].
  2:{ split; [done|]. by intros (_ & info & [=] & _). }
  destruct (PyStr.truthy (Some info)) eqn:Ht.
  2:{ split; [done|]. intros (_ & info' & [= <-] & Hlen).
      destruct info; [|done]. simpl in Hlen. lia. }
  pose proof (contains_split ", " ltac:(done) info "") as Hc.
  fold (PyStr.split ", " info) in Hc.
  destruct (PyStr.contains ", " info).
  - destruct Hc as [Hc _]. specialize (Hc eq_refl).
    destruct (PyStr.split ", " info) as [|c [|st [|x rest]]] eqn:Hsplit;
      simpl in Hc |- *; try lia.
    + split; [done|]. intros (_ & info' & [= <-] & Hlen).
      rewrite Hsplit in Hlen. simpl in Hlen. lia.
    + split; [|by intros [-> _]]. intros [= <-]. split; [done|].
      eexists. split; [done|]. rewrite Hsplit. simpl. lia.
  - split; [done|]. intros (_ & info' & [= <-] & Hlen).
    destruct Hc as [_ Hc]. discriminate Hc. lia.
Qed.

(** X16: when a record has a city and a state, the location text of
    the block is the city, then [", "], then the state. *)
Theorem city_and_state_give_the_location (college : card)
    (city state : string) :
  extract_college_data college !! "city" = Some (VStr city) →
  extract_college_data college !! "state" = Some (VStr state) →
  location_text college = Some (city +:+ ", " +:+ state).
Proof.
  unfold extract_college_data, extract_body.
  destruct (extract_location (location_text college)) as [[c st]|e] eqn:Hloc.
  2:{ unfold extraction_error. intros H. by simplify_map_eq. }
  intros Hc Hs.
  rewrite lookup_insert_ne, lookup_insert_eq in Hc by done.
  rewrite lookup_insert_ne, lookup_insert_ne, lookup_insert_eq in Hs by done.
  destruct c as [c|]; [|done]. destruct st as [st|]; [|done].
  simpl in Hc, Hs. injection Hc as ->. injection Hs as ->.
  by apply extract_location_Ok.
Qed.

(** X17: the record of a block is the error record exactly when the
    location text has two or more separators [", "]; the error is then
    the one of the two-value unpacking. *)
Theorem extraction_fails_only_on_location (college : card) (v : value) :
  extract_college_data college !! "error" = Some v ↔
  v = VStr "too many values to unpack (expected 2)" ∧
  ∃ info, location_text college = Some info ∧
          (3 ≤ length (PyStr.split ", " info))%nat.
Proof.
  unfold extract_college_data, extract_body.
  destruct (extract_location (location_text college)) as [[c st]|e] eqn:Hloc.
  - split.
    + intros H. by simplify_map_eq.
    + intros [_ Hinfo].
      assert (extract_location (location_text college)
              = Raise (ValueError "too many values to unpack (expected 2)"))
        as Hr by (by apply extract_location_Raise).
      congruence.
  - apply extract_location_Raise in Hloc as [-> Hinfo].
    unfold extraction_error.
    rewrite lookup_insert_ne, lookup_insert_eq by done. simpl.
    split; [by intros [= <-]|by intros [-> _]].
Qed.

(** X16 on the sample block. *)
Lemma city_and_state_give_the_location_sample :
  let college := sample_card "AIIMS" "/colleges/aiims" in
  extract_college_data college !! "city" = Some (VStr "Pune") ∧
  extract_college_data college !! "state" = Some (VStr "Maharashtra") ∧
  location_text college = Some ("Pune" +:+ ", " +:+ "Maharashtra").
Proof.
  intros college.
  assert (extract_college_data college !! "city" = Some (VStr "Pune")) as Hc
    by (vm_compute; reflexivity).
  assert (extract_college_data college !! "state" = Some (VStr "Maharashtra"))
    as Hs by (vm_compute; reflexivity).
  split; [exact Hc|]. split; [exact Hs|].
  exact (city_and_state_give_the_location college _ _ Hc Hs).
Defined.
